(** * TWebWindow: the websocket connection engine of a web window

    A shallow embedding of [gui/webdisplay/src/TWebWindow.cxx]: the frame
    codec ([std::strtoul] on the way in, [std::to_string] on the way out),
    the handshake state machine of [TWebWindow::ProcessWS], the credit
    accounting of [TWebWindow::SendDataViaConnection], and the bounded
    output queues served by [TWebWindow::SubmitData] and
    [TWebWindow::CheckDataToSend].

    Calls that leave the class (the data callbacks, the websocket handler,
    the window manager, the logger) are recorded, in program order, as a
    list of [Effect]s next to the new window state. *)

From stdpp Require Import gmap strings list pretty.
From Stdlib Require Import Ascii ZArith Lia.

Local Open Scope Z_scope.

(** ** Machine integers *)

Module CInt.

(** [int]: 32 bits, two's complement.  Conversion of an out-of-range value
    keeps the low 32 bits. *)
Definition INT_MAX : Z := 2147483647.
Definition to_int (x : Z) : Z := (x + 2 ^ 31) mod 2 ^ 32 - 2 ^ 31.

(** [unsigned]: 32 bits. *)
Definition to_unsigned (x : Z) : Z := x mod 2 ^ 32.

(** [unsigned long]: 64 bits (LP64). *)
Definition ULONG_MAX : Z := 18446744073709551615.
Definition to_ulong (x : Z) : Z := x mod 2 ^ 64.

End CInt.
Export CInt.

(** ** Character strings *)

Module CStr.

Definition NUL : ascii := Ascii.zero.

(** [p + n] for a [const char *p]: the bytes from offset [n] on. *)
Fixpoint advance (n : nat) (s : string) : string :=
  match n, s with
  | O, _ => s
  | S n', String _ s' => advance n' s'
  | S _, EmptyString => EmptyString
  end.

(** [std::string::c_str()] read by a callee that takes [const char *]: the
    bytes before the first NUL. *)
Fixpoint c_str (s : string) : string :=
  match s with
  | EmptyString => EmptyString
  | String c s' => if Ascii.eqb c NUL then EmptyString else String c (c_str s')
  end.

(** [isspace] and [isdigit] in the "C" locale. *)
Definition isspace (c : ascii) : bool :=
  let n := nat_of_ascii c in
  (n =? 32)%nat || ((9 <=? n)%nat && (n <=? 13)%nat).

Definition isdigit (c : ascii) : bool :=
  let n := nat_of_ascii c in (48 <=? n)%nat && (n <=? 57)%nat.

Definition digit_val (c : ascii) : Z := Z.of_nat (nat_of_ascii c) - 48.

Fixpoint count_space (s : string) : nat :=
  match s with
  | String c s' => if isspace c then S (count_space s') else O
  | EmptyString => O
  end.

(** The digit run at the head of [s], accumulated in base 10 on top of
    [acc]; the second component is the number of digits read. *)
Fixpoint scan_digits (acc : Z) (s : string) : Z * nat :=
  match s with
  | String c s' =>
      if isdigit c
      then let '(v, n) := scan_digits (10 * acc + digit_val c) s' in (v, S n)
      else (acc, O)
  | EmptyString => (acc, O)
  end.

(** [std::strtoul(s, &str_end, 10)].  The result is the converted value
    and [str_end - s].  White space is skipped, one sign is accepted, the
    digits are read up to the first other byte (a NUL included); without
    any digit nothing is converted and [str_end] is [s]; a value above
    [ULONG_MAX] is clamped to it; a minus sign negates in
    [unsigned long]. *)
Definition strtoul (s : string) : Z * nat :=
  let ws := count_space s in
  let s1 := advance ws s in
  let '(neg, sg) :=
    match s1 with
    | String "-" _ => (true, 1%nat)
    | String "+" _ => (false, 1%nat)
    | _ => (false, O)
    end in
  let '(v, n) := scan_digits 0 (advance sg s1) in
  match n with
  | O => (0, O)
  | S _ =>
      (if ULONG_MAX <? v then ULONG_MAX
       else if neg then to_ulong (- v) else v,
       (ws + sg + n)%nat)
  end.

(** [std::to_string] of an [int]. *)
Definition to_string (x : Z) : string := pretty x.

(** [std::string::find(pat) == 0]. *)
Definition starts_with (pat s : string) : bool := String.prefix pat s.

(** [std::string::substr(pos)]. *)
Definition substr (pos : nat) (s : string) : string := advance pos s.

Definition Zlength (s : string) : Z := Z.of_nat (String.length s).

End CStr.
Export CStr.

(** ** The wire codec *)

(** Modelled from the spec: [THttpCallArg] is declared in [THttpCallArg.h];
    the request handed over by the transport carries the websocket id, the
    method name, and the post data.  [aPostData] is the memory at
    [GetPostData()], followed by a NUL; [aPostDataLength] is the length
    declared for it, and [std::string(ptr, n)] reads no further than the
    memory goes. *)
Record THttpCallArg := mkArg {
  aWSId : Z;
  aMethod : string;
  aPostData : string;
  aPostDataLength : Z
}.

Definition GetWSId (arg : THttpCallArg) : Z := aWSId arg.
Definition IsMethod (arg : THttpCallArg) (m : string) : bool := String.eqb (aMethod arg) m.
Definition GetPostData (arg : THttpCallArg) : string := aPostData arg.
Definition GetPostDataLength (arg : THttpCallArg) : Z := aPostDataLength arg.

(** An inbound frame as [ProcessWS] takes it apart. *)
Record Frame := mkFrame {
  ackn_oper : Z;
  can_send : Z;
  nchannel : Z;
  cdata : string
}.

Inductive Decoded :=
| Rejected (msg : string)
| Accepted (f : Frame).

(** Lines 218-248 of [ProcessWS].  [str_end] is kept as the rest of the
    buffer it points at, so [*str_end] is the head of that rest and
    [str_end + 1] its tail. *)
Definition decode_frame (buf : string) (len : Z) : Decoded :=
  let '(ackn, n1) := strtoul buf in
  match advance n1 buf with
  | String ":" p1 =>
      let '(cans, n2) := strtoul p1 in
      match advance n2 p1 with
      | String ":" p2 =>
          let '(nch, n3) := strtoul p2 in
          match advance n3 p2 with
          | String ":" p3 =>
              let processed_len :=
                to_unsigned (Z.of_nat (n1 + 1 + n2 + 1 + n3 + 1)) in
              if len <? processed_len then Rejected "corrupted buffer"
              else Accepted
                     (mkFrame ackn cans nch
                        (String.substring 0 (Z.to_nat (len - processed_len)) p3))
          | _ => Rejected "missing channel number"
          end
      | _ => Rejected "missing can_send counter"
      end
  | _ => Rejected "missing number of acknowledged operations"
  end.

(** The prefix [SendDataViaConnection] puts in front of every payload. *)
Definition frame_prefix (recv credits chid : Z) : string :=
  to_string recv +:+ ":" +:+ to_string credits +:+ ":" +:+ to_string chid +:+ ":".

(** ** Window and connection state *)

(** Modelled from the spec: [QueueItem] is declared in the header
    [ROOT/TWebWindow.hxx]; an entry of a connection's output queue is a
    channel id, a text flag and the payload, as the [emplace] calls of
    [SubmitData] build it. *)
Record QueueItem := mkItem {
  fChID : Z;
  fText : bool;
  fData : string
}.

(** Modelled from the spec: [TWebWindow::WebConn] is declared in the header
    [ROOT/TWebWindow.hxx]; the fields are those the source uses.  The
    counters are [int]s (the source tests them with [<= 0], prints them
    with [std::to_string] and stores [(int)can_send]); the ids are
    [unsigned].  [fCallBack] records whether the connection's
    [std::function] holds a target. *)
Record WebConn := mkConn {
  fConnId : Z;
  fWSId : Z;
  fProcId : string;
  fReady : Z;
  fRecvCount : Z;
  fSendCredits : Z;
  fClientCredits : Z;
  fQueue : list QueueItem;
  fCallBack : bool
}.

(** Modelled from the spec: the class is declared in the header
    [ROOT/TWebWindow.hxx]; these are the members the source reads or writes.
    [fDataCallback] and [fWSHandler] record whether the [std::function] holds
    a target and whether the handler pointer is set.  [fInitCredits] is the
    configured send-credit allowance a new connection starts with. *)
Record TWebWindow := mkWin {
  fConn : list WebConn;
  fConnCnt : Z;
  fConnLimit : Z;
  fMaxQueueLength : Z;
  fPanelName : string;
  fKeys : gmap string string;
  fNativeOnlyConn : bool;
  fDataCallback : bool;
  fWSHandler : bool;
  fInitCredits : Z
}.

(** Modelled from the spec: the constructor [WebConn(connid, wsid)] is
    declared in the header [ROOT/TWebWindow.hxx]; a new connection is
    Pending, has no process handle, zero counters, an empty queue, no
    channel callback, and the initial send-credit allowance. *)
Definition newWebConn (init connid wsid : Z) : WebConn :=
  mkConn connid wsid EmptyString 0 0 init 0 [] false.

(** Modelled from the spec: [HasKey] and [IsNativeOnlyConn] are declared in
    the header; the first asks whether the key is in the Key Table, the
    second whether the window accepts pre-authorized sessions only. *)
Definition HasKey (w : TWebWindow) (key : string) : bool :=
  bool_decide (is_Some (fKeys w !! key)).

Definition IsNativeOnlyConn (w : TWebWindow) : bool := fNativeOnlyConn w.

(** Field assignments. *)
Definition set_fQueue (q : list QueueItem) (c : WebConn) : WebConn :=
  mkConn (fConnId c) (fWSId c) (fProcId c) (fReady c) (fRecvCount c)
         (fSendCredits c) (fClientCredits c) q (fCallBack c).

Definition set_fReady (r : Z) (c : WebConn) : WebConn :=
  mkConn (fConnId c) (fWSId c) (fProcId c) r (fRecvCount c)
         (fSendCredits c) (fClientCredits c) (fQueue c) (fCallBack c).

Definition set_fProcId (p : string) (c : WebConn) : WebConn :=
  mkConn (fConnId c) (fWSId c) p (fReady c) (fRecvCount c)
         (fSendCredits c) (fClientCredits c) (fQueue c) (fCallBack c).

Definition set_counters (recv credits client : Z) (c : WebConn) : WebConn :=
  mkConn (fConnId c) (fWSId c) (fProcId c) (fReady c) recv
         credits client (fQueue c) (fCallBack c).

Definition set_fConn (l : list WebConn) (w : TWebWindow) : TWebWindow :=
  mkWin l (fConnCnt w) (fConnLimit w) (fMaxQueueLength w) (fPanelName w)
        (fKeys w) (fNativeOnlyConn w) (fDataCallback w) (fWSHandler w)
        (fInitCredits w).

Definition set_fConnCnt (n : Z) (w : TWebWindow) : TWebWindow :=
  mkWin (fConn w) n (fConnLimit w) (fMaxQueueLength w) (fPanelName w)
        (fKeys w) (fNativeOnlyConn w) (fDataCallback w) (fWSHandler w)
        (fInitCredits w).

Definition set_fKeys (k : gmap string string) (w : TWebWindow) : TWebWindow :=
  mkWin (fConn w) (fConnCnt w) (fConnLimit w) (fMaxQueueLength w)
        (fPanelName w) k (fNativeOnlyConn w) (fDataCallback w) (fWSHandler w)
        (fInitCredits w).

(** ** Calls that leave the class *)

Inductive Effect :=
| DataCallback (connid : Z) (data : string)   (* fDataCallback(connid, data) *)
| ConnCallBack (connid : Z) (data : string)   (* conn->fCallBack(connid, data) *)
| SendCharStarWS (wsid : Z) (buf : string)    (* fWSHandler->SendCharStarWS *)
| SendHeaderWS (wsid : Z) (hdr data : string) (* fWSHandler->SendHeaderWS *)
| HaltClient (procid : string)                (* fMgr->HaltClient *)
| LogError (msg : string).                    (* R__ERROR_HERE("webgui") *)

(** ** Sending *)

(** [TWebWindow::SendDataViaConnection]: the connection after the call and
    what was handed to the transport or the logger. *)
Definition SendDataViaConnection (handler : bool) (conn : WebConn)
    (txt : bool) (data : string) (chid : Z) : WebConn * list Effect :=
  if (fWSId conn =? 0) || negb handler then
    (conn, [LogError "try to send text data when connection not established"])
  else if fSendCredits conn <=? 0 then
    (conn, [LogError "No credits to send text data via connection"])
  else
    let buf := frame_prefix (fRecvCount conn) (fSendCredits conn) chid in
    let conn' :=
      set_counters 0 (to_int (fSendCredits conn - 1)) (fClientCredits conn) conn in
    if txt then
      (conn', [SendCharStarWS (fWSId conn) (c_str (buf +:+ data))])
    else
      (conn', [SendHeaderWS (fWSId conn) (c_str (buf +:+ "$$binary$$")) data]).

(** One connection's turn in the [for] loop of [CheckDataToSend]; the flag
    tells whether [isany] was set. *)
Definition CheckDataToSend_conn (handler : bool) (conn : WebConn)
    : WebConn * list Effect * bool :=
  if fSendCredits conn <=? 0 then (conn, [], false)
  else
    match fQueue conn with
    | item :: rest =>
        let '(conn', out) :=
          SendDataViaConnection handler conn (fText item) (fData item) (fChID item) in
        (set_fQueue rest conn', out, true)
    | [] =>
        if (fClientCredits conn <? 3) && (1 <? fRecvCount conn) then
          let '(conn', out) := SendDataViaConnection handler conn true "KEEPALIVE" 0 in
          (conn', out, true)
        else (conn, [], false)
    end.

(** The [for] loop of [CheckDataToSend]: one sweep over [fConn]. *)
Fixpoint CheckDataToSend_sweep (handler : bool) (conns : list WebConn)
    : list WebConn * list Effect * bool :=
  match conns with
  | [] => ([], [], false)
  | conn :: rest =>
      let '(conn', out1, any1) := CheckDataToSend_conn handler conn in
      let '(rest', out2, any2) := CheckDataToSend_sweep handler rest in
      (conn' :: rest', out1 ++ out2, any1 || any2)
  end.

(** The [do ... while (isany && !only_once)] loop, with a bound on the
    number of sweeps; [None] when the bound is used up. *)
Fixpoint CheckDataToSend_loop (fuel : nat) (handler only_once : bool)
    (conns : list WebConn) : option (list WebConn * list Effect) :=
  match fuel with
  | O => None
  | S fuel' =>
      let '(conns', out, isany) := CheckDataToSend_sweep handler conns in
      if isany && negb only_once then
        match CheckDataToSend_loop fuel' handler only_once conns' with
        | Some (conns'', out') => Some (conns'', out ++ out')
        | None => None
        end
      else Some (conns', out)
  end.

(** A connection that transmits has one sweep per queued item, or one
    sweep for a keep-alive, in which it sets [isany]; one more sweep ends
    the loop. *)
Definition sweep_bound (conns : list WebConn) : nat :=
  S (foldr (fun c n => S (length (fQueue c) + n)) O conns).

(** [TWebWindow::CheckDataToSend]; [None] when the loop does not end
    (a keep-alive that cannot be transmitted is retried for ever). *)
Definition CheckDataToSend (only_once : bool) (w : TWebWindow)
    : option (TWebWindow * list Effect) :=
  match CheckDataToSend_loop (sweep_bound (fConn w)) (fWSHandler w) only_once (fConn w) with
  | Some (conns', out) => Some (set_fConn conns' w, out)
  | None => None
  end.

(** The body of the [for] loop of [SubmitData] for a connection that is
    not skipped.  [cnt] and [data] are the local counter and the rvalue
    parameter; [std::move(data)] leaves [data] empty. *)
Definition SubmitData_conn (handler : bool) (maxq : Z) (txt : bool) (chid : Z)
    (conn : WebConn) (cnt : Z) (data : string)
    : WebConn * Z * string * list Effect :=
  if (length (fQueue conn) =? 0)%nat && (0 <? fSendCredits conn) then
    let '(conn', out) := SendDataViaConnection handler conn txt data chid in
    (conn', cnt, data, out)
  else if Z.of_nat (length (fQueue conn)) <? maxq then
    let cnt1 := to_int (cnt - 1) in
    (set_fQueue (fQueue conn ++ [mkItem chid txt data]) conn,
     cnt1,
     if cnt1 =? 0 then EmptyString else data,
     [])
  else (conn, cnt, data, [LogError "Maximum queue length achieved"]).

(** The [for] loop of [SubmitData]. *)
Fixpoint SubmitData_loop (handler : bool) (maxq connid : Z) (txt : bool)
    (chid : Z) (conns : list WebConn) (cnt : Z) (data : string)
    : list WebConn * Z * string * list Effect :=
  match conns with
  | [] => ([], cnt, data, [])
  | conn :: rest =>
      if negb (connid =? 0) && negb (connid =? fConnId conn) then
        let '(rest', cnt', data', out) :=
          SubmitData_loop handler maxq connid txt chid rest cnt data in
        (conn :: rest', cnt', data', out)
      else
        let '(conn', cnt1, data1, out1) :=
          SubmitData_conn handler maxq txt chid conn cnt data in
        let '(rest', cnt', data', out2) :=
          SubmitData_loop handler maxq connid txt chid rest cnt1 data1 in
        (conn' :: rest', cnt', data', out1 ++ out2)
  end.

(** [TWebWindow::SubmitData]. *)
Definition SubmitData (w : TWebWindow) (connid : Z) (txt : bool)
    (data : string) (chid : Z) : option (TWebWindow * list Effect) :=
  let cnt := if connid =? 0 then to_int (Z.of_nat (length (fConn w))) else 1 in
  let '(conns', _, _, out1) :=
    SubmitData_loop (fWSHandler w) (fMaxQueueLength w) connid txt chid
                    (fConn w) cnt data in
  match CheckDataToSend false (set_fConn conns' w) with
  | Some (w', out2) => Some (w', out1 ++ out2)
  | None => None
  end.

(** [TWebWindow::Send] and the two [TWebWindow::SendBinary]. *)
Definition Send (w : TWebWindow) (connid : Z) (data : string) :=
  SubmitData w connid true data 1.

Definition SendBinary (w : TWebWindow) (connid : Z) (data : string) :=
  SubmitData w connid false data 1.

(** [TWebWindow::CloseConnections] and [TWebWindow::CloseConnection]. *)
Definition CloseConnections (w : TWebWindow) := SubmitData w 0 true "CLOSE" 0.

Definition CloseConnection (w : TWebWindow) (connid : Z) :=
  if connid =? 0 then Some (w, []) else SubmitData w connid true "CLOSE" 0.

(** [TWebWindow::CanSend]. *)
Fixpoint CanSend_loop (maxq connid : Z) (direct : bool) (conns : list WebConn) : bool :=
  match conns with
  | [] => true
  | conn :: rest =>
      if negb (connid =? 0) && negb (connid =? fConnId conn) then
        CanSend_loop maxq connid direct rest
      else if direct && (negb (length (fQueue conn) =? 0)%nat || (fSendCredits conn =? 0)) then
        false
      else if maxq <=? Z.of_nat (length (fQueue conn)) then false
      else CanSend_loop maxq connid direct rest
  end.

Definition CanSend (w : TWebWindow) (connid : Z) (direct : bool) : bool :=
  CanSend_loop (fMaxQueueLength w) connid direct (fConn w).

(** ** Inbound events *)

(** How a call of [ProcessWS] ends: it returns a flag, or an empty
    [std::function] is called and [std::bad_function_call] leaves the
    method, or the drain loop does not end. *)
Inductive Outcome :=
| Returns (b : bool)
| Throws
| Hangs.

Record Result := mkResult {
  outcome : Outcome;
  window : TWebWindow;
  effects : list Effect
}.

(** The search loop at the top of [ProcessWS]: the position of the first
    connection with the given websocket id. *)
Fixpoint find_conn (wsid : Z) (conns : list WebConn) : option nat :=
  match conns with
  | [] => None
  | c :: rest => if fWSId c =? wsid then Some O else S <$> find_conn wsid rest
  end.

(** [conn->field = ...] through the pointer into [fConn]. *)
Definition update_conn (i : nat) (f : WebConn -> WebConn) (w : TWebWindow) : TWebWindow :=
  set_fConn (alter f i (fConn w)) w.

(** [fConn.erase(iter)]. *)
Definition erase_conn (i : nat) (w : TWebWindow) : TWebWindow :=
  set_fConn (delete i (fConn w)) w.

(** The last two statements of [ProcessWS]. *)
Definition finish (w : TWebWindow) (out : list Effect) : Result :=
  match CheckDataToSend false w with
  | Some (w', out') => mkResult (Returns true) w' (out ++ out')
  | None => mkResult Hangs w out
  end.

(** A call of [fDataCallback]; it throws when no callback is set. *)
Definition call_fDataCallback (w : TWebWindow) (connid : Z) (data : string)
    (k : list Effect -> Result) : Result :=
  if fDataCallback w then k [DataCallback connid data]
  else mkResult Throws w [].

(** The frame counts as received and its numbers are booked on the
    connection: lines 250-252 of [ProcessWS]. *)
Definition booked (conn : WebConn) (f : Frame) : WebConn :=
  set_counters (to_int (fRecvCount conn + 1))
               (to_int (fSendCredits conn + ackn_oper f))
               (to_int (can_send f)) conn.

(** Lines 266-270 of [ProcessWS]: a key of the Key Table names the process
    of the connection at position [i] and is consumed. *)
Definition accept_key (i : nat) (key : string) (w : TWebWindow) : TWebWindow :=
  match fKeys w !! key with
  | Some procid =>
      set_fKeys (delete key (fKeys w)) (update_conn i (set_fProcId procid) w)
  | None => w
  end.

(** Lines 250-298 of [ProcessWS]: the connection at position [i] has
    received the decoded frame [f]. *)
Definition ProcessWS_data (w : TWebWindow) (i : nat) (conn : WebConn) (f : Frame) : Result :=
  let conn := booked conn f in
  let w := update_conn i (fun _ => conn) w in
  if nchannel f =? 0 then
    if starts_with "READY=" (cdata f) && (fReady conn =? 0) then
      let key := substr 6 (cdata f) in
      if negb (HasKey w key) && IsNativeOnlyConn w then
        mkResult (Returns false) (erase_conn i w) []
      else
        let w := accept_key i key w in
        if negb (String.length (fPanelName w) =? 0)%nat then
          match Send w (fConnId conn) ("SHOWPANEL:" +:+ fPanelName w) with
          | Some (w, out) => finish (update_conn i (set_fReady 5) w) out
          | None => mkResult Hangs w []
          end
        else
          call_fDataCallback w (fConnId conn) "CONN_READY" (fun out =>
          finish (update_conn i (set_fReady 10) w) out)
    else finish w []
  else if negb (String.length (fPanelName w) =? 0)%nat && (fReady conn <? 10) then
    if String.eqb (cdata f) "PANEL_READY" then
      call_fDataCallback w (fConnId conn) "CONN_READY" (fun out =>
      finish (update_conn i (set_fReady 10) w) out)
    else
      call_fDataCallback w (fConnId conn) "CONN_CLOSED" (fun out =>
      finish (erase_conn i w) out)
  else if nchannel f =? 1 then
    call_fDataCallback w (fConnId conn) (cdata f) (fun out => finish w out)
  else
    if fCallBack conn then finish w [ConnCallBack (fConnId conn) (cdata f)]
    else mkResult Throws w [].

(** [TWebWindow::ProcessWS]. *)
Definition ProcessWS (w : TWebWindow) (arg : THttpCallArg) : Result :=
  if GetWSId arg =? 0 then mkResult (Returns true) w []
  else
    let iter := find_conn (GetWSId arg) (fConn w) in
    if IsMethod arg "WS_CONNECT" then
      if negb (fConnLimit w =? 0) && (fConnLimit w <=? Z.of_nat (length (fConn w)))
      then mkResult (Returns false) w []
      else mkResult (Returns true) w []
    else if IsMethod arg "WS_READY" then
      match iter with
      | Some _ =>
          mkResult (Returns false) w
            [LogError ("WSHandle with given websocket id " +:+ to_string (GetWSId arg)
                       +:+ " already exists")]
      | None =>
          let cnt := to_unsigned (fConnCnt w + 1) in
          let conn := newWebConn (fInitCredits w) cnt (GetWSId arg) in
          mkResult (Returns true) (set_fConn (fConn w ++ [conn]) (set_fConnCnt cnt w)) []
      end
    else if IsMethod arg "WS_CLOSE" then
      match iter with
      | Some i =>
          match fConn w !! i with
          | Some conn =>
              mkResult (Returns true) (erase_conn i w)
                ((if fDataCallback w then [DataCallback (fConnId conn) "CONN_CLOSED"] else [])
                 ++ [HaltClient (fProcId conn)])
          | None => mkResult (Returns true) w []
          end
      | None => mkResult (Returns true) w []
      end
    else if negb (IsMethod arg "WS_DATA") then
      mkResult (Returns false) w [LogError "only WS_DATA request expected!"]
    else
      match iter with
      | None =>
          mkResult (Returns false) w
            [LogError "Get websocket data without valid connection - ignore!!!"]
      | Some i =>
          match fConn w !! i with
          | None =>
              mkResult (Returns false) w
                [LogError "Get websocket data without valid connection - ignore!!!"]
          | Some conn =>
              if GetPostDataLength arg <=? 0 then mkResult (Returns true) w []
              else
                match decode_frame (GetPostData arg) (GetPostDataLength arg) with
                | Rejected msg => mkResult (Returns false) w [LogError msg]
                | Accepted f => ProcessWS_data w i conn f
                end
          end
      end.

(** The window before any connection: what the owner configures, no
    connection, no key. *)
Definition new_window (limit maxq init : Z) (panel : string) (native cb : bool) : TWebWindow :=
  mkWin [] 0 limit maxq panel ∅ native cb true init.

(** ** Predicates on states and effects *)

(** The fields of a connection that sending never touches. *)
Definition same_identity (c c' : WebConn) : Prop :=
  fConnId c' = fConnId c /\ fWSId c' = fWSId c /\ fProcId c' = fProcId c /\
  fReady c' = fReady c /\ fCallBack c' = fCallBack c.

(** Effects of the send path: frames for the transport and log lines. *)
Definition send_effect (e : Effect) : Prop :=
  match e with
  | SendCharStarWS _ _ | SendHeaderWS _ _ _ | LogError _ => True
  | _ => False
  end.

(** Every connection can transmit: the handler exists and no websocket id is
    the null id ([ProcessWS] ignores events of websocket id 0, so it never
    registers such a connection). *)
Definition can_transmit (w : TWebWindow) : Prop :=
  fWSHandler w = true /\ Forall (fun c => fWSId c <> 0) (fConn w).

(** Connection ids are distinct and not 0 (they come from [++fConnCnt]). *)
Definition distinct_ids (conns : list WebConn) : Prop :=
  NoDup (fConnId <$> conns) /\ Forall (fun c => fConnId c <> 0) conns.

(** Sweeps in which a connection still sets [isany], when it can transmit. *)
Definition work_conn (c : WebConn) : nat :=
  if fSendCredits c <=? 0 then O
  else match fQueue c with
       | [] => if (fClientCredits c <? 3) && (1 <? fRecvCount c) then 1%nat else O
       | q => length q
       end.

(** A connection that cannot transmit, has send credits, and qualifies for a
    keep-alive: once its queue is gone, every sweep tries the keep-alive,
    changes nothing, and sets [isany]. *)
Definition stuck (handler : bool) (c : WebConn) : bool :=
  ((fWSId c =? 0) || negb handler) && (0 <? fSendCredits c) &&
  ((fClientCredits c <? 3) && (1 <? fRecvCount c)).

Definition work (conns : list WebConn) : nat :=
  foldr (fun c n => (work_conn c + n)%nat) O conns.

(** The only words the default data callback hears from the handshake, and
    silence on the channel callback. *)
Definition notification_only (e : Effect) : Prop :=
  match e with
  | DataCallback _ d => d = "CONN_READY" \/ d = "CONN_CLOSED"
  | ConnCallBack _ _ => False
  | _ => True
  end.

(** A payload reaches the default data callback or the channel callback of
    the connection. *)
Definition payload_dispatched (r : Result) (connid : Z) (payload : string) : Prop :=
  DataCallback connid payload ∈ effects r \/ ConnCallBack connid payload ∈ effects r.

(** A [WS_DATA] event carrying exactly the bytes of [buf]. *)
Definition data_event (wsid : Z) (buf : string) : THttpCallArg :=
  mkArg wsid "WS_DATA" buf (Zlength buf).

(** The window after a run of inbound events, each of which returned. *)
Fixpoint after_events (w : TWebWindow) (args : list THttpCallArg) : TWebWindow :=
  match args with
  | [] => w
  | arg :: rest => after_events (window (ProcessWS w arg)) rest
  end.

(** ** Decimal fields *)

Fixpoint all_digits (s : string) : bool :=
  match s with
  | EmptyString => true
  | String c s' => isdigit c && all_digits s'
  end.

(** The number a digit string denotes, on top of [acc]. *)
Fixpoint digits_value (acc : Z) (s : string) : Z :=
  match s with
  | EmptyString => acc
  | String c s' => digits_value (10 * acc + digit_val c) s'
  end.

(** The interface grammar's [<uint>]: a non-empty run of decimal digits. *)
Definition uint_token (u : string) : bool :=
  negb (String.length u =? 0)%nat && all_digits u.

(** The decimal form [std::to_string] gives to an [int] that is not
    negative: digits only, no leading zero except for 0 itself, and a value
    up to [INT_MAX]. *)
Definition canonical_uint (u : string) : bool :=
  uint_token u &&
  match u with
  | String c (String _ _) => negb (Ascii.eqb c "0")
  | _ => true
  end &&
  (digits_value 0 u <=? INT_MAX).

(** [<uint> ":" <uint> ":" <uint> ":" <payload-bytes>]. *)
Definition wire_frame (u1 u2 u3 payload : string) : string :=
  u1 +:+ ":" +:+ u2 +:+ ":" +:+ u3 +:+ ":" +:+ payload.

(** ** The frame as the interface describes it *)






(** ** Enqueueing *)

(** The item a submission puts on a queue. *)
Definition enqueued (chid : Z) (txt : bool) (data : string) (c c' : WebConn) : Prop :=
  fQueue c' = fQueue c ++ [mkItem chid txt data].

(** ** Calls on a window *)

(** No queue is longer than the configured maximum. *)
Definition queue_bounded (w : TWebWindow) : Prop :=
  Forall (fun c => Z.of_nat (length (fQueue c)) <= fMaxQueueLength w) (fConn w).

(** What the drain loop may do to a connection: take items off the front of
    its queue, and nothing at all without send credits. *)
Definition drained (c c' : WebConn) : Prop :=
  fQueue c' `suffix_of` fQueue c /\ (fSendCredits c <= 0 -> c' = c).

(** What a completed drain leaves: no connection has both send credits and
    a queued item. *)
Definition quiescent (c : WebConn) : Prop :=
  fSendCredits c <= 0 \/ fQueue c = [].

(** The entry points: an inbound event, a submission, a drain pass. *)
Inductive Call :=
| CallProcessWS (arg : THttpCallArg)
| CallSubmitData (connid : Z) (txt : bool) (data : string) (chid : Z)
| CallCheckDataToSend (only_once : bool).

(** One call; [None] when it does not come back. *)
Definition call (w : TWebWindow) (c : Call) : option (TWebWindow * list Effect) :=
  match c with
  | CallProcessWS arg =>
      let r := ProcessWS w arg in
      match outcome r with
      | Hangs => None
      | _ => Some (window r, effects r)
      end
  | CallSubmitData connid txt data chid => SubmitData w connid txt data chid
  | CallCheckDataToSend only_once => CheckDataToSend only_once w
  end.

(** A sequence of calls, each on the window the previous one left. *)
Fixpoint run (w : TWebWindow) (cs : list Call) : option (TWebWindow * list Effect) :=
  match cs with
  | [] => Some (w, [])
  | c :: rest =>
      match call w c with
      | Some (w1, out1) =>
          match run w1 rest with
          | Some (w2, out2) => Some (w2, out1 ++ out2)
          | None => None
          end
      | None => None
      end
  end.

(** ** Order on the wire *)

(** The websocket a frame is handed over for. *)
Definition effect_wsid (e : Effect) : option Z :=
  match e with
  | SendCharStarWS wsid _ | SendHeaderWS wsid _ _ => Some wsid
  | _ => None
  end.

(** What the transport gets for one websocket, in program order. *)
Definition events_for (wsid : Z) (out : list Effect) : list Effect :=
  filter (fun e => effect_wsid e = Some wsid) out.

(** Frames for another websocket, and log lines, do not show. *)
Definition foreign (wsid : Z) (out : list Effect) : Prop :=
  Forall (fun e => effect_wsid e <> Some wsid) out.

(** [e] is the transmission of the item [it] on [wsid], whatever the
    counters in its prefix. *)
Definition frame_of (wsid : Z) (it : QueueItem) (e : Effect) : Prop :=
  exists recv credits,
    e = if fText it
        then SendCharStarWS wsid
               (c_str (frame_prefix recv credits (fChID it) +:+ fData it))
        else SendHeaderWS wsid
               (c_str (frame_prefix recv credits (fChID it) +:+ "$$binary$$"))
               (fData it).

(** The keep-alive of [CheckDataToSend]. *)
Definition keepalive : QueueItem := mkItem 0 true "KEEPALIVE".

(** [wire_order wsid pending es rest]: the frames [es] transmit the items of
    [pending] from its front, one after the other and without a gap, with
    keep-alives in between at most; [rest] is what is left of [pending]. *)
Inductive wire_order (wsid : Z) : list QueueItem -> list Effect -> list QueueItem -> Prop :=
| wire_done q : wire_order wsid q [] q
| wire_item it q e es q' :
    frame_of wsid it e -> wire_order wsid q es q' ->
    wire_order wsid (it :: q) (e :: es) q'
| wire_keepalive q e es q' :
    frame_of wsid keepalive e -> wire_order wsid q es q' ->
    wire_order wsid q (e :: es) q'.

(** The test at the top of the loop of [SubmitData], negated. *)
Definition targeted (connid : Z) (c : WebConn) : bool :=
  (connid =? 0) || (connid =? fConnId c).

(** The number of connections a submission is addressed to. *)
Fixpoint targets (connid : Z) (conns : list WebConn) : nat :=
  match conns with
  | [] => O
  | c :: rest => ((if targeted connid c then 1 else 0) + targets connid rest)%nat
  end.

(** The test of [SubmitData] for its enqueue branch: the connection is not
    skipped, the item cannot go out at once, and the queue has room. *)
Definition enqueues (maxq connid : Z) (c : WebConn) : bool :=
  targeted connid c &&
  negb ((length (fQueue c) =? 0)%nat && (0 <? fSendCredits c)) &&
  (Z.of_nat (length (fQueue c)) <? maxq).

(** The connections that take the enqueue branch. *)
Fixpoint enqueue_count (maxq connid : Z) (conns : list WebConn) : nat :=
  match conns with
  | [] => O
  | c :: rest =>
      ((if enqueues maxq connid c then 1 else 0) + enqueue_count maxq connid rest)%nat
  end.

(** What a submission does to a queue: the item is put at the end when the
    connection takes the enqueue branch, and the queue is left alone
    otherwise. *)
Definition queue_after (maxq connid chid : Z) (txt : bool) (data : string)
    (c c' : WebConn) : Prop :=
  if enqueues maxq connid c then enqueued chid txt data c c' else fQueue c' = fQueue c.

(** The item a call submits to the connection [connid], if any. *)
Definition submitted_to (connid : Z) (c : Call) : list QueueItem :=
  match c with
  | CallSubmitData id txt data chid =>
      if (id =? 0) || (id =? connid) then [mkItem chid txt data] else []
  | _ => []
  end.

(** Submissions and drain passes, no inbound event. *)
Definition is_send_call (c : Call) : bool :=
  match c with
  | CallProcessWS _ => false
  | _ => true
  end.

(** A window in working order: every connection can transmit, connection
    ids and websocket ids are distinct, and the number of connections fits
    the [int] counter of [SubmitData]. *)
Definition in_order (w : TWebWindow) : Prop :=
  can_transmit w /\ distinct_ids (fConn w) /\ NoDup (fWSId <$> fConn w) /\
  Z.of_nat (length (fConn w)) <= INT_MAX.

(** ** Windows reached by inbound events *)

(** The two ids of every connection, in registry order. *)
Definition conn_ids (conns : list WebConn) : list (Z * Z) :=
  (fun c => (fConnId c, fWSId c)) <$> conns.

(** [w'] has the handler and the connection counter of [w], and its
    connections are connections of [w], in the same order. *)
Definition narrows (w w' : TWebWindow) : Prop :=
  fWSHandler w' = fWSHandler w /\ fConnCnt w' = fConnCnt w /\
  conn_ids (fConn w') `sublist_of` conn_ids (fConn w).

(** What [ProcessWS] maintains from the new window on, as long as the
    connection counter does not wrap: the handler is set; connection ids
    are distinct, positive and at most the counter; websocket ids are
    distinct and not 0. *)
Definition well_formed (w : TWebWindow) : Prop :=
  fWSHandler w = true /\
  NoDup (fConnId <$> fConn w) /\
  NoDup (fWSId <$> fConn w) /\
  Forall (fun c => fWSId c <> 0 /\ 0 < fConnId c <= fConnCnt w) (fConn w) /\
  0 <= fConnCnt w <= INT_MAX.

(** ** Credit accounting *)

(** A connection's send credits are a number of frames it may still send. *)
Definition credits_ok (c : WebConn) : Prop := 0 <= fSendCredits c <= INT_MAX.

(** ** Settled connections *)

(** The test of [CheckDataToSend] for a keep-alive. *)
Definition keepalive_due (c : WebConn) : bool :=
  (fClientCredits c <? 3) && (1 <? fRecvCount c).

(** A connection a sweep passes over: no send credit, or nothing queued and
    no keep-alive due. *)
Definition settled (c : WebConn) : Prop :=
  fSendCredits c <= 0 \/ (fQueue c = [] /\ keepalive_due c = false).

(** The log line of [SubmitData] for an item it drops. *)
Definition overflow_line : Effect := LogError "Maximum queue length achieved".

(** The frames in [out] for the websocket of [c] have been paid for: each
    cost one send credit, and what is left is the credit of [c']. *)
Definition paid (c : WebConn) (out : list Effect) (c' : WebConn) : Prop :=
  credits_ok c' /\
  fSendCredits c' + Z.of_nat (length (events_for (fWSId c) out)) = fSendCredits c.

(** ** Configuration *)

(** What the owner configures. *)
Definition same_config (w w' : TWebWindow) : Prop :=
  fConnLimit w' = fConnLimit w /\ fMaxQueueLength w' = fMaxQueueLength w /\
  fPanelName w' = fPanelName w /\ fNativeOnlyConn w' = fNativeOnlyConn w /\
  fDataCallback w' = fDataCallback w /\ fWSHandler w' = fWSHandler w /\
  fInitCredits w' = fInitCredits w.

(** The configuration is the same and no key has been added. *)
Definition settings_kept (w w' : TWebWindow) : Prop :=
  same_config w w' /\ fKeys w' ⊆ fKeys w.

Definition set_fPanelName (name : string) (w : TWebWindow) : TWebWindow :=
  mkWin (fConn w) (fConnCnt w) (fConnLimit w) (fMaxQueueLength w) name
        (fKeys w) (fNativeOnlyConn w) (fDataCallback w) (fWSHandler w)
        (fInitCredits w).

(** [TWebWindow::SetPanelName]: the window, the page handed to
    [SetDefaultPage] if any, and the log line. *)
Definition SetPanelName (w : TWebWindow) (name : string)
    : TWebWindow * option string * list Effect :=
  if negb (length (fConn w) =? 0)%nat then
    (w, None, [LogError "Cannot configure panel when connection exists"])
  else (set_fPanelName name w, Some "file:$jsrootsys/files/panel.htm", []).

(** [TWebWindow::GetConnectionId]; [None] where [fConn.begin() + num] is not
    the position of a connection. *)
Definition GetConnectionId (w : TWebWindow) (num : Z) : option Z :=
  if num <? 0 then None else fConnId <$> fConn w !! Z.to_nat num.

(** ** Sample windows *)

Module Sample.

Definition ws_ready (wsid : Z) : THttpCallArg := mkArg wsid "WS_READY" EmptyString 0.
Definition ws_connect (wsid : Z) : THttpCallArg := mkArg wsid "WS_CONNECT" EmptyString 0.

(** No panel, one connection (id 1, websocket 7) that has not sent READY. *)
Definition plain : TWebWindow :=
  after_events (new_window 0 10 0 EmptyString false true) [ws_ready 7].

(** Panel [fit], key [abc] issued for process [proc1], one connection
    (id 1, websocket 7) that has not sent READY. *)
Definition fit : TWebWindow :=
  after_events
    (set_fKeys (<["abc" := "proc1"]> ∅) (new_window 0 10 0 "fit" false true))
    [ws_ready 7].

(** No connection limit, three connections. *)
Definition crowd : TWebWindow :=
  after_events (new_window 0 10 0 EmptyString false true) [ws_ready 7; ws_ready 8; ws_ready 9].

(** At most one connection, and one is there. *)
Definition full : TWebWindow :=
  after_events (new_window 1 10 0 EmptyString false true) [ws_ready 7].

(** Two connections (ids 1 and 2, websockets 7 and 8) that start with two
    send credits each. *)
Definition duo : TWebWindow :=
  after_events (new_window 0 10 2 EmptyString false true) [ws_ready 7; ws_ready 8].

(** Three items for connection 1 (one of them broadcast), then a drain. *)
Definition traffic : list Call :=
  [CallSubmitData 1 true "a" 1; CallSubmitData 0 true "b" 1;
   CallSubmitData 1 false "c" 1; CallCheckDataToSend false].

(** Queues of one item at most. *)
Definition narrow : TWebWindow := new_window 0 1 0 EmptyString false true.

(** A connection is registered and gets an item it has no credit for. *)
Definition stuffing : list Call :=
  [CallProcessWS (ws_ready 7); CallSubmitData 1 true "a" 1].

Definition stuffed_conn : WebConn :=
  mkConn 1 7 EmptyString 0 0 0 0 [mkItem 1 true "a"] false.

Definition stuffed : TWebWindow :=
  mkWin [stuffed_conn] 1 0 1 EmptyString ∅ false true true 0.

End Sample.

(** ** More sample windows *)

Module Scene.

Definition ws_close (wsid : Z) : THttpCallArg := mkArg wsid "WS_CLOSE" EmptyString 0.

(** Pre-authorized sessions only, key [abc] issued for process [proc1], one
    connection (id 1, websocket 7) that has not sent READY. *)
Definition locked : TWebWindow :=
  after_events
    (set_fKeys (<["abc" := "proc1"]> ∅) (new_window 0 10 0 EmptyString true true))
    [Sample.ws_ready 7].

(** No data callback, one connection (id 1, websocket 7). *)
Definition mute : TWebWindow :=
  after_events (new_window 0 10 0 EmptyString false false) [Sample.ws_ready 7].

(** A Ready connection with five send credits that has received two frames
    since it last sent one, and whose client is short of credits. *)
Definition idle_conn : WebConn := mkConn 1 7 EmptyString 10 2 5 0 [] false.

Definition lively : TWebWindow :=
  mkWin [idle_conn] 1 0 10 EmptyString ∅ false true true 0.

(** A text with a NUL byte in the middle. *)
Definition nul_text : string := String "a" (String "b" (String NUL "cd")).

End Scene.

(** ** Basic facts about the send path *)

Section SendFacts.

Lemma same_identity_refl c : same_identity c c.
Proof. by repeat split. Qed.

Lemma same_identity_trans c1 c2 c3 :
  same_identity c1 c2 -> same_identity c2 c3 -> same_identity c1 c3.
Proof. unfold same_identity. intros (?&?&?&?&?) (?&?&?&?&?). repeat split; congruence. Qed.

Lemma SendDataViaConnection_identity h c txt data chid :
  same_identity c (SendDataViaConnection h c txt data chid).1.
Proof.
  unfold SendDataViaConnection.
  destruct (_ || _); [apply same_identity_refl|].
  destruct (_ <=? _); [apply same_identity_refl|].
  destruct txt; by repeat split.
Qed.

Lemma SendDataViaConnection_queue h c txt data chid :
  fQueue (SendDataViaConnection h c txt data chid).1 = fQueue c.
Proof.
  unfold SendDataViaConnection.
  destruct (_ || _); [done|]. destruct (_ <=? _); [done|]. by destruct txt.
Qed.

Lemma SendDataViaConnection_effects h c txt data chid :
  Forall send_effect (SendDataViaConnection h c txt data chid).2.
Proof.
  unfold SendDataViaConnection.
  destruct (_ || _); [by repeat constructor|].
  destruct (_ <=? _); [by repeat constructor|].
  destruct txt; by repeat constructor.
Qed.

(** What a transmission does to a connection that can transmit. *)
Lemma SendDataViaConnection_sent c txt data chid :
  fWSId c <> 0 -> 0 < fSendCredits c ->
  SendDataViaConnection true c txt data chid =
    (set_counters 0 (to_int (fSendCredits c - 1)) (fClientCredits c) c,
     [if txt
      then SendCharStarWS (fWSId c)
             (c_str (frame_prefix (fRecvCount c) (fSendCredits c) chid +:+ data))
      else SendHeaderWS (fWSId c)
             (c_str (frame_prefix (fRecvCount c) (fSendCredits c) chid +:+ "$$binary$$"))
             data]).
Proof.
  intros Hws Hcr. unfold SendDataViaConnection.
  destruct (Z.eqb_spec (fWSId c) 0); [done|].
  destruct (Z.leb_spec (fSendCredits c) 0); [lia|].
  by destruct txt.
Qed.

Lemma CheckDataToSend_conn_identity h c :
  same_identity c (CheckDataToSend_conn h c).1.1.
Proof.
  unfold CheckDataToSend_conn.
  destruct (_ <=? _); [apply same_identity_refl|].
  destruct (fQueue c) as [|item rest].
  - destruct (_ && _); [|apply same_identity_refl].
    pose proof (SendDataViaConnection_identity h c true "KEEPALIVE" 0) as H.
    by destruct (SendDataViaConnection _ _ _ _ _).
  - pose proof (SendDataViaConnection_identity h c (fText item) (fData item) (fChID item)) as H.
    by destruct (SendDataViaConnection _ _ _ _ _).
Qed.

Lemma CheckDataToSend_conn_effects h c :
  Forall send_effect (CheckDataToSend_conn h c).1.2.
Proof.
  unfold CheckDataToSend_conn.
  destruct (_ <=? _); [constructor|].
  destruct (fQueue c) as [|item rest].
  - destruct (_ && _); [|constructor].
    pose proof (SendDataViaConnection_effects h c true "KEEPALIVE" 0) as H.
    by destruct (SendDataViaConnection _ _ _ _ _).
  - pose proof (SendDataViaConnection_effects h c (fText item) (fData item) (fChID item)) as H.
    by destruct (SendDataViaConnection _ _ _ _ _).
Qed.

Lemma CheckDataToSend_sweep_identity h conns :
  Forall2 same_identity conns (CheckDataToSend_sweep h conns).1.1.
Proof.
  induction conns as [|c rest IH]; simpl; [constructor|].
  pose proof (CheckDataToSend_conn_identity h c) as Hc.
  destruct (CheckDataToSend_conn h c) as [[c' o1] a1].
  destruct (CheckDataToSend_sweep h rest) as [[rest' o2] a2].
  by constructor.
Qed.

Lemma CheckDataToSend_sweep_effects h conns :
  Forall send_effect (CheckDataToSend_sweep h conns).1.2.
Proof.
  induction conns as [|c rest IH]; simpl; [constructor|].
  pose proof (CheckDataToSend_conn_effects h c) as Hc.
  destruct (CheckDataToSend_conn h c) as [[c' o1] a1].
  destruct (CheckDataToSend_sweep h rest) as [[rest' o2] a2].
  simpl in *. by apply Forall_app.
Qed.

Lemma Forall2_same_identity_trans l1 l2 l3 :
  Forall2 same_identity l1 l2 -> Forall2 same_identity l2 l3 ->
  Forall2 same_identity l1 l3.
Proof.
  intros H. revert l3. induction H; intros l3 H3; inversion H3; subst; constructor;
    eauto using same_identity_trans.
Qed.

Lemma Forall2_same_identity_refl l : Forall2 same_identity l l.
Proof. induction l; constructor; auto using same_identity_refl. Qed.

Lemma CheckDataToSend_loop_spec fuel h once conns conns' out :
  CheckDataToSend_loop fuel h once conns = Some (conns', out) ->
  Forall2 same_identity conns conns' /\ Forall send_effect out.
Proof.
  revert conns conns' out.
  induction fuel as [|fuel IH]; intros conns conns' out; simpl; [done|].
  pose proof (CheckDataToSend_sweep_identity h conns) as Hid.
  pose proof (CheckDataToSend_sweep_effects h conns) as Hef.
  destruct (CheckDataToSend_sweep h conns) as [[c1 o1] any]. simpl in *.
  destruct (any && negb once).
  - destruct (CheckDataToSend_loop fuel h once c1) as [[c2 o2]|] eqn:E; [|done].
    intros [= <- <-]. destruct (IH _ _ _ E) as [H1 H2].
    split; [eauto using Forall2_same_identity_trans | by apply Forall_app].
  - by intros [= <- <-].
Qed.

End SendFacts.

(** ** The drain loop ends *)

Section Termination.

Lemma CheckDataToSend_conn_work c :
  fWSId c <> 0 ->
  let r := CheckDataToSend_conn true c in
  (work_conn r.1.1 + (if r.2 then 1 else 0) <= work_conn c)%nat.
Proof.
  intros Hws. unfold CheckDataToSend_conn, work_conn at 2.
  destruct (Z.leb_spec (fSendCredits c) 0) as [|Hcr]; simpl.
  { unfold work_conn. destruct (Z.leb_spec (fSendCredits c) 0); lia. }
  destruct (fQueue c) as [|item rest] eqn:Hq.
  - destruct (_ && _) eqn:Hka; simpl.
    + rewrite SendDataViaConnection_sent by done. simpl.
      unfold work_conn. simpl. rewrite Hq.
      destruct (_ <=? _); simpl; [lia|].
      rewrite andb_false_r. lia.
    + unfold work_conn. rewrite Hq, Hka.
      destruct (Z.leb_spec (fSendCredits c) 0); lia.
  - rewrite SendDataViaConnection_sent by done. simpl.
    unfold work_conn. simpl.
    destruct (_ <=? _); simpl; [lia|].
    destruct rest; simpl; [|lia].
    rewrite andb_false_r. lia.
Qed.

Lemma CheckDataToSend_sweep_work conns :
  Forall (fun c => fWSId c <> 0) conns ->
  let r := CheckDataToSend_sweep true conns in
  (work r.1.1 + (if r.2 then 1 else 0) <= work conns)%nat.
Proof.
  induction 1 as [|c rest Hc Hrest IH]; simpl; [lia|].
  pose proof (CheckDataToSend_conn_work c Hc) as Hw.
  destruct (CheckDataToSend_conn true c) as [[c' o1] a1].
  destruct (CheckDataToSend_sweep true rest) as [[rest' o2] a2].
  simpl in *. destruct a1, a2; simpl; lia.
Qed.

Lemma Forall2_same_identity_wsid conns conns' :
  Forall2 same_identity conns conns' ->
  Forall (fun c => fWSId c <> 0) conns -> Forall (fun c => fWSId c <> 0) conns'.
Proof.
  induction 1 as [|c c' l l' (?&Hw&?) _ IH]; intros Hall; [constructor|].
  inversion Hall; subst. constructor; [congruence | auto].
Qed.

Lemma CheckDataToSend_loop_ends fuel once conns :
  Forall (fun c => fWSId c <> 0) conns ->
  (work conns < fuel)%nat ->
  is_Some (CheckDataToSend_loop fuel true once conns).
Proof.
  revert conns. induction fuel as [|fuel IH]; intros conns Hws Hfuel; [lia|].
  simpl.
  pose proof (CheckDataToSend_sweep_work conns Hws) as Hw.
  pose proof (CheckDataToSend_sweep_identity true conns) as Hid.
  destruct (CheckDataToSend_sweep true conns) as [[c1 o1] any]. simpl in *.
  destruct any; simpl; [|by eexists].
  destruct once; simpl; [by eexists|].
  destruct (IH c1) as [[c2 o2] ->]; [by eapply Forall2_same_identity_wsid| lia |].
  by eexists.
Qed.

Lemma work_lt_sweep_bound conns : (work conns < sweep_bound conns)%nat.
Proof.
  unfold sweep_bound.
  enough (work conns <= foldr (fun c n => S (length (fQueue c) + n)) O conns)%nat by lia.
  induction conns as [|c rest IH]; simpl; [lia|].
  assert (work_conn c <= S (length (fQueue c)))%nat; [|lia].
  unfold work_conn. destruct (_ <=? _); [lia|].
  destruct (fQueue c); simpl; [destruct (_ && _)|]; lia.
Qed.

(** A window whose connections can all transmit gets through
    [CheckDataToSend]; the identity of its connections and the window
    settings are kept, and only send effects are produced. *)
Lemma CheckDataToSend_returns once w :
  can_transmit w ->
  exists conns' out,
    CheckDataToSend once w = Some (set_fConn conns' w, out) /\
    Forall2 same_identity (fConn w) conns' /\ Forall send_effect out.
Proof.
  intros [Hh Hws]. unfold CheckDataToSend. rewrite Hh.
  destruct (CheckDataToSend_loop_ends (sweep_bound (fConn w)) once (fConn w) Hws
              (work_lt_sweep_bound _)) as [[conns' out] E].
  rewrite E. exists conns', out. split; [done|].
  by apply CheckDataToSend_loop_spec in E.
Qed.

Lemma CheckDataToSend_spec once w w' out :
  CheckDataToSend once w = Some (w', out) ->
  exists conns',
    w' = set_fConn conns' w /\
    Forall2 same_identity (fConn w) conns' /\ Forall send_effect out.
Proof.
  unfold CheckDataToSend.
  destruct (CheckDataToSend_loop _ _ _ _) as [[conns' o]|] eqn:E; [|done].
  intros [= <- <-]. exists conns'. split; [done|].
  by apply CheckDataToSend_loop_spec in E.
Qed.

(** The bound of [CheckDataToSend] is enough whenever the loop ends: it
    runs out only with a stuck connection, and then any bound does. *)
Lemma CheckDataToSend_conn_stuck h c :
  stuck h c = true ->
  stuck h (CheckDataToSend_conn h c).1.1 = true /\ (CheckDataToSend_conn h c).2 = true.
Proof.
  unfold stuck. intros Hs.
  apply andb_true_iff in Hs as [Hs Hka]. apply andb_true_iff in Hs as [Hno Hcr].
  unfold CheckDataToSend_conn, SendDataViaConnection. rewrite Hno, Hka.
  pose proof Hcr as Hpos. apply Z.ltb_lt in Hpos.
  destruct (Z.leb_spec (fSendCredits c) 0); [lia|].
  destruct (fQueue c); simpl; by rewrite Hno, Hka, Hcr.
Qed.

Lemma CheckDataToSend_sweep_stuck h conns :
  Exists (fun c => stuck h c = true) conns ->
  Exists (fun c => stuck h c = true) (CheckDataToSend_sweep h conns).1.1 /\
  (CheckDataToSend_sweep h conns).2 = true.
Proof.
  induction conns as [|c rest IH]; intros Hex; [by apply Exists_nil in Hex|].
  simpl. apply Exists_cons in Hex.
  pose proof (CheckDataToSend_conn_stuck h c) as Hc.
  destruct (CheckDataToSend_conn h c) as [[c' o1] a1].
  destruct (CheckDataToSend_sweep h rest) as [[rest' o2] a2]. simpl in *.
  destruct Hex as [Hs|Hs].
  - destruct (Hc Hs) as [? ->]. split; [by apply Exists_cons_hd | done].
  - destruct (IH Hs) as [? ->]. split; [by apply Exists_cons_tl | by rewrite orb_true_r].
Qed.

Lemma CheckDataToSend_loop_hangs fuel h conns :
  Exists (fun c => stuck h c = true) conns ->
  CheckDataToSend_loop fuel h false conns = None.
Proof.
  revert conns. induction fuel as [|fuel IH]; intros conns Hex; [done|]. simpl.
  pose proof (CheckDataToSend_sweep_stuck h conns Hex) as [Hex' Hany].
  destruct (CheckDataToSend_sweep h conns) as [[c1 o1] any]. simpl in *.
  rewrite Hany. simpl. by rewrite IH.
Qed.

Lemma CheckDataToSend_conn_work_general h c :
  stuck h c = false ->
  let r := CheckDataToSend_conn h c in
  stuck h r.1.1 = false /\
  (work_conn r.1.1 + (if r.2 then 1 else 0) <= work_conn c)%nat.
Proof.
  intros Hs. unfold CheckDataToSend_conn, work_conn at 2.
  destruct (Z.leb_spec (fSendCredits c) 0) as [|Hcr]; simpl.
  { split; [done|]. unfold work_conn. destruct (Z.leb_spec (fSendCredits c) 0); lia. }
  destruct ((fWSId c =? 0) || negb h) eqn:Hno.
  - (* cannot transmit: the call changes nothing *)
    assert (forall txt data chid, (SendDataViaConnection h c txt data chid).1 = c) as Hsame.
    { intros. unfold SendDataViaConnection. by rewrite Hno. }
    assert ((fClientCredits c <? 3) && (1 <? fRecvCount c) = false) as Hka.
    { unfold stuck in Hs. rewrite Hno in Hs.
      destruct (Z.ltb_spec 0 (fSendCredits c)); [|lia]. done. }
    destruct (fQueue c) as [|item rest] eqn:Hq.
    + rewrite Hka. split; [done|]. unfold work_conn. simpl. rewrite Hq, Hka.
      destruct (_ <=? _); lia.
    + specialize (Hsame (fText item) (fData item) (fChID item)).
      destruct (SendDataViaConnection _ _ _ _ _) as [c' o]. simpl in *. subst c'.
      split; [done|]. unfold work_conn. simpl.
      destruct (_ <=? _); [lia|]. rewrite Hka. destruct rest; simpl; lia.
  - assert (h = true /\ fWSId c <> 0) as [-> Hws].
    { apply orb_false_iff in Hno as [H1 H2]. apply Z.eqb_neq in H1.
      by destruct h. }
    assert (forall c0, fWSId c0 = fWSId c -> stuck true c0 = false) as Hns.
    { intros c0 Heq. unfold stuck. rewrite Heq.
      destruct (Z.eqb_spec (fWSId c) 0); done. }
    destruct (fQueue c) as [|item rest] eqn:Hq.
    + destruct (_ && _) eqn:Hka; simpl.
      * rewrite SendDataViaConnection_sent by done. simpl.
        split; [by apply Hns|].
        unfold work_conn. simpl. rewrite Hq.
        destruct (_ <=? _); simpl; [lia|]. rewrite andb_false_r. lia.
      * split; [done|]. unfold work_conn. rewrite Hq, Hka.
        destruct (Z.leb_spec (fSendCredits c) 0); lia.
    + rewrite SendDataViaConnection_sent by done. simpl.
      split; [by apply Hns|].
      unfold work_conn. simpl.
      destruct (_ <=? _); simpl; [lia|].
      destruct rest; simpl; [|lia]. rewrite andb_false_r. lia.
Qed.

Lemma CheckDataToSend_sweep_work_general h conns :
  Forall (fun c => stuck h c = false) conns ->
  let r := CheckDataToSend_sweep h conns in
  Forall (fun c => stuck h c = false) r.1.1 /\
  (work r.1.1 + (if r.2 then 1 else 0) <= work conns)%nat.
Proof.
  induction 1 as [|c rest Hc Hrest IH]; simpl; [split; [constructor | lia]|].
  pose proof (CheckDataToSend_conn_work_general h c Hc) as Hw.
  destruct (CheckDataToSend_conn h c) as [[c' o1] a1].
  destruct (CheckDataToSend_sweep h rest) as [[rest' o2] a2].
  simpl in *. destruct Hw as [? ?], IH as [? ?].
  split; [by constructor|]. destruct a1, a2; simpl; lia.
Qed.

Lemma CheckDataToSend_loop_ends_general fuel h once conns :
  Forall (fun c => stuck h c = false) conns ->
  (work conns < fuel)%nat ->
  is_Some (CheckDataToSend_loop fuel h once conns).
Proof.
  revert conns. induction fuel as [|fuel IH]; intros conns Hns Hfuel; [lia|].
  simpl.
  pose proof (CheckDataToSend_sweep_work_general h conns Hns) as [Hns' Hw].
  destruct (CheckDataToSend_sweep h conns) as [[c1 o1] any]. simpl in *.
  destruct any; simpl; [|by eexists].
  destruct once; simpl; [by eexists|].
  destruct (IH c1) as [[c2 o2] ->]; [done | lia |]. by eexists.
Qed.

(** [CheckDataToSend] gives [None] only when no number of sweeps ends the
    loop. *)
Lemma CheckDataToSend_None_hangs once w :
  CheckDataToSend once w = None ->
  forall fuel, CheckDataToSend_loop fuel (fWSHandler w) once (fConn w) = None.
Proof.
  unfold CheckDataToSend. intros HNone fuel.
  destruct (Forall_Exists_dec (fun c => stuck (fWSHandler w) c = false)
              (fun c => stuck (fWSHandler w) c = true)
              (fun c => match stuck (fWSHandler w) c as b
                          return {b = false} + {b = true}
                        with true => right eq_refl | false => left eq_refl end)
              (fConn w)) as [Hns|Hex].
  - destruct (CheckDataToSend_loop_ends_general (sweep_bound (fConn w)) (fWSHandler w)
                once (fConn w) Hns (work_lt_sweep_bound _)) as [[l o] E].
    by rewrite E in HNone.
  - destruct once; [|by apply CheckDataToSend_loop_hangs].
    unfold sweep_bound in HNone. simpl in HNone.
    destruct (CheckDataToSend_sweep (fWSHandler w) (fConn w)) as [[c1 o1] any].
    by rewrite andb_false_r in HNone.
Qed.

End Termination.

(** ** What submitting keeps *)

Section SubmitFacts.

Lemma SubmitData_conn_spec h maxq txt chid c cnt data :
  let r := SubmitData_conn h maxq txt chid c cnt data in
  same_identity c r.1.1.1 /\ Forall send_effect r.2.
Proof.
  unfold SubmitData_conn.
  destruct (_ && _).
  { pose proof (SendDataViaConnection_identity h c txt data chid) as Hid.
    pose proof (SendDataViaConnection_effects h c txt data chid) as Hef.
    by destruct (SendDataViaConnection h c txt data chid). }
  destruct (_ <? _); simpl.
  - split; [by repeat split | constructor].
  - split; [apply same_identity_refl | by repeat constructor].
Qed.

Lemma SubmitData_loop_spec h maxq connid txt chid conns cnt data :
  let r := SubmitData_loop h maxq connid txt chid conns cnt data in
  Forall2 same_identity conns r.1.1.1 /\ Forall send_effect r.2.
Proof.
  revert cnt data. induction conns as [|c rest IH]; intros cnt data; simpl.
  { split; constructor. }
  destruct (_ && _).
  { specialize (IH cnt data).
    destruct (SubmitData_loop h maxq connid txt chid rest cnt data) as [[[r1 c1] d1] o1].
    simpl in *. destruct IH. split; [constructor|]; auto using same_identity_refl. }
  pose proof (SubmitData_conn_spec h maxq txt chid c cnt data) as Hc.
  destruct (SubmitData_conn h maxq txt chid c cnt data) as [[[c' k] d] o0].
  specialize (IH k d).
  destruct (SubmitData_loop h maxq connid txt chid rest k d) as [[[r1 c1] d1] o1].
  simpl in *. destruct Hc, IH. split; [by constructor | by apply Forall_app].
Qed.

Lemma SubmitData_spec w connid txt data chid w' out :
  SubmitData w connid txt data chid = Some (w', out) ->
  exists conns',
    w' = set_fConn conns' w /\
    Forall2 same_identity (fConn w) conns' /\ Forall send_effect out.
Proof.
  unfold SubmitData.
  match goal with |- context [SubmitData_loop ?h ?m ?i ?t ?c ?l ?k ?d] =>
    pose proof (SubmitData_loop_spec h m i t c l k d) as Hl;
    destruct (SubmitData_loop h m i t c l k d) as [[[l1 k1] d1] o1] end.
  simpl in Hl. destruct Hl as [Hid Hef].
  destruct (CheckDataToSend false _) as [[w2 o2]|] eqn:E; [|done].
  intros [= <- <-]. apply CheckDataToSend_spec in E as (conns' & -> & Hid' & Hef').
  exists conns'. split; [done|]. simpl in Hid'.
  split; [eauto using Forall2_same_identity_trans | by apply Forall_app].
Qed.

Lemma SubmitData_returns w connid txt data chid :
  can_transmit w -> is_Some (SubmitData w connid txt data chid).
Proof.
  intros [Hh Hws]. unfold SubmitData.
  match goal with |- context [SubmitData_loop ?h ?m ?i ?t ?c ?l ?k ?d] =>
    pose proof (SubmitData_loop_spec h m i t c l k d) as Hl;
    destruct (SubmitData_loop h m i t c l k d) as [[[l1 k1] d1] o1] end.
  simpl in Hl. destruct Hl as [Hid _].
  destruct (CheckDataToSend_returns false (set_fConn l1 w)) as (c2 & o2 & -> & _).
  - split; [done|]. simpl. by eapply Forall2_same_identity_wsid.
  - by eexists.
Qed.

Lemma finish_effects (P : Effect -> Prop) w out :
  Forall P out -> (forall e, send_effect e -> P e) ->
  Forall P (effects (finish w out)).
Proof.
  intros Hout HP. unfold finish.
  destruct (CheckDataToSend false w) as [[w' o]|] eqn:E; simpl; [|done].
  apply CheckDataToSend_spec in E as (? & _ & _ & Hef).
  apply Forall_app. split; [done|]. eapply Forall_impl; eauto.
Qed.

Lemma find_conn_Some wsid conns i :
  find_conn wsid conns = Some i ->
  exists c, conns !! i = Some c /\ fWSId c = wsid.
Proof.
  revert i. induction conns as [|c rest IH]; intros i; simpl; [done|].
  destruct (Z.eqb_spec (fWSId c) wsid).
  - intros [= <-]. by exists c.
  - destruct (find_conn wsid rest) as [j|]; simpl; [|done].
    intros [= <-]. by apply IH.
Qed.

End SubmitFacts.

(** ** Handshake gating *)

Section Gating.

Lemma send_effect_notification e : send_effect e -> notification_only e.
Proof. by destruct e. Qed.

Lemma call_fDataCallback_notification w connid data k :
  data = "CONN_READY" \/ data = "CONN_CLOSED" ->
  (forall out, Forall notification_only out ->
               Forall notification_only (effects (k out))) ->
  Forall notification_only (effects (call_fDataCallback w connid data k)).
Proof.
  intros Hd Hk. unfold call_fDataCallback.
  destruct (fDataCallback w); simpl; [|done].
  apply Hk. constructor; [exact Hd | constructor].
Qed.

Lemma ProcessWS_data_notification w i conn f :
  fPanelName w <> EmptyString -> fReady conn < 10 ->
  Forall notification_only (effects (ProcessWS_data w i conn f)).
Proof.
  intros Hpanel Hready. unfold ProcessWS_data.
  assert (Hlen : negb (String.length (fPanelName w) =? 0)%nat = true).
  { destruct (fPanelName w); [done|]. done. }
  cbn [update_conn set_fConn fPanelName set_counters fReady fConnId booked].
  destruct (nchannel f =? 0).
  - destruct (_ && _); [|by apply finish_effects; auto using send_effect_notification].
    destruct (_ && _); [done|].
    match goal with |- context [Send ?w0 ?id ?d] =>
      assert (Hp : fPanelName w0 = fPanelName w)
        by (unfold accept_key; by destruct (fKeys _ !! _));
      destruct (Send w0 id d) as [[w1 o1]|] eqn:E end.
    + rewrite Hp, Hlen. apply SubmitData_spec in E as (? & _ & _ & Hef).
      apply finish_effects; auto using send_effect_notification.
      eapply Forall_impl; eauto using send_effect_notification.
    + by rewrite Hp, Hlen.
  - rewrite Hlen. destruct (Z.ltb_spec (fReady conn) 10); [|lia]. simpl.
    destruct (String.eqb _ _).
    + apply call_fDataCallback_notification; [by left|].
      intros. apply finish_effects; auto using send_effect_notification.
    + apply call_fDataCallback_notification; [by right|].
      intros. apply finish_effects; auto using send_effect_notification.
Qed.

(** C1, amended.  On a window with a panel name, an event on a connection
    that is not yet Ready (Pending or PanelWait) never hands a payload to
    a callback: the default data callback is called with the CONN_READY or
    CONN_CLOSED notification only, and the channel callback is not called
    at all. *)
Theorem gating_with_panel w arg i conn :
  fPanelName w <> EmptyString ->
  find_conn (GetWSId arg) (fConn w) = Some i ->
  fConn w !! i = Some conn ->
  fReady conn < 10 ->
  Forall notification_only (effects (ProcessWS w arg)).
Proof.
  intros Hpanel Hfind Hconn Hready. unfold ProcessWS. rewrite Hfind, Hconn.
  destruct (_ =? 0); [done|].
  destruct (IsMethod arg "WS_CONNECT"); [by destruct (_ && _)|].
  destruct (IsMethod arg "WS_READY"); [by repeat constructor|].
  destruct (IsMethod arg "WS_CLOSE").
  { simpl. destruct (fDataCallback w); simpl.
    - constructor; [by right|]. by constructor.
    - by constructor. }
  destruct (negb _); [by repeat constructor|].
  destruct (_ <=? 0); [done|].
  destruct (decode_frame _ _); [by repeat constructor|].
  by apply ProcessWS_data_notification.
Qed.

(** The theorem at work: READY was never sent, the payload is [hello]. *)
Lemma gating_with_panel_witness :
  Forall notification_only (effects (ProcessWS Sample.fit (data_event 7 "0:0:1:hello"))).
Proof.
  apply (gating_with_panel _ _ 0%nat (newWebConn 0 1 7));
    [done | reflexivity | reflexivity | reflexivity].
Defined.

(** C1 as stated fails without a panel name: the connection below has
    been registered and never sent READY, and its channel-1 payload is
    handed to the default data callback. *)
Lemma gating_fails_without_panel :
  fConn Sample.plain = [newWebConn 0 1 7] /\
  fReady (newWebConn 0 1 7) = 0 /\
  effects (ProcessWS Sample.plain (data_event 7 "0:0:1:hello")) = [DataCallback 1 "hello"] /\
  payload_dispatched (ProcessWS Sample.plain (data_event 7 "0:0:1:hello")) 1 "hello".
Proof.
  repeat split; try reflexivity. left. vm_compute. apply list_elem_of_here.
Qed.

End Gating.

(** ** Connect events and rejected frames *)

Section Admission.

Lemma IsMethod_true arg m : IsMethod arg m = true -> aMethod arg = m.
Proof. unfold IsMethod. apply String.eqb_eq. Qed.

(** C9.  A connect event leaves the window as it is.  With a connection
    limit of 0 it is accepted whatever the number of connections; it is
    refused exactly when the event has a websocket id, the limit is not 0
    and the number of connections has reached it. *)
Theorem connect_unlimited_when_limit_zero w arg :
  IsMethod arg "WS_CONNECT" = true ->
  window (ProcessWS w arg) = w /\
  (fConnLimit w = 0 -> outcome (ProcessWS w arg) = Returns true) /\
  (outcome (ProcessWS w arg) = Returns false <->
   GetWSId arg <> 0 /\ fConnLimit w <> 0 /\
   fConnLimit w <= Z.of_nat (length (fConn w))).
Proof.
  intros Hm. unfold ProcessWS. rewrite Hm.
  destruct (Z.eqb_spec (GetWSId arg) 0) as [Hz|Hz]; simpl.
  { split; [done|]. split; [done|]. split; [done | by intros [? _]]. }
  destruct (Z.eqb_spec (fConnLimit w) 0) as [Hl|Hl]; simpl.
  { split; [done|]. split; [done|]. split; [done | by intros (_ & ? & _)]. }
  destruct (Z.leb_spec (fConnLimit w) (Z.of_nat (length (fConn w)))); simpl.
  - split; [done|]. split; [done|]. split; done.
  - split; [done|]. split; [done|]. split; [done | intros (_ & _ & ?); lia].
Qed.

Lemma connect_unlimited_when_limit_zero_witness :
  window (ProcessWS Sample.crowd (Sample.ws_connect 10)) = Sample.crowd /\
  (fConnLimit Sample.crowd = 0 ->
   outcome (ProcessWS Sample.crowd (Sample.ws_connect 10)) = Returns true) /\
  (outcome (ProcessWS Sample.crowd (Sample.ws_connect 10)) = Returns false <->
   GetWSId (Sample.ws_connect 10) <> 0 /\ fConnLimit Sample.crowd <> 0 /\
   fConnLimit Sample.crowd <= Z.of_nat (length (fConn Sample.crowd))).
Proof.
  apply (connect_unlimited_when_limit_zero Sample.crowd (Sample.ws_connect 10)).
  reflexivity.
Defined.

End Admission.

(** ** The READY handshake *)

Section Handshake.

Lemma starts_with_app p s : starts_with p (p +:+ s) = true.
Proof.
  unfold starts_with. induction p as [|a p IH]; simpl; [by destruct s|].
  by destruct (Ascii.ascii_dec a a).
Qed.

Lemma alter_same_identity (f : WebConn -> WebConn) i l c :
  l !! i = Some c -> same_identity c (f c) ->
  Forall2 same_identity l (alter f i l).
Proof.
  revert i. induction l as [|x l IH]; intros [|i] Hl Hf; simpl in *; try done.
  - injection Hl as ->. constructor; [done | apply Forall2_same_identity_refl].
  - constructor; [apply same_identity_refl | by apply IH].
Qed.

Lemma can_transmit_set_fConn w conns' :
  can_transmit w -> Forall2 same_identity (fConn w) conns' ->
  can_transmit (set_fConn conns' w).
Proof. intros [Hh Hws] Hid. split; [done|]. simpl. by eapply Forall2_same_identity_wsid. Qed.

Lemma can_transmit_update_conn w i f :
  can_transmit w ->
  (forall c, fConn w !! i = Some c -> fWSId (f c) = fWSId c) ->
  can_transmit (update_conn i f w).
Proof.
  intros [Hh Hws] Hf. split; [done|]. simpl.
  apply Forall_alter; [done|]. intros c Hi Hc. by rewrite Hf.
Qed.

Lemma Forall2_same_identity_lookup l l' i c :
  Forall2 same_identity l l' -> l !! i = Some c ->
  exists c', l' !! i = Some c' /\ same_identity c c'.
Proof.
  intros H. revert i. induction H as [|x y l l' Hxy _ IH]; intros [|i] Hl; simpl in *; try done.
  - injection Hl as ->. by exists y.
  - by apply IH.
Qed.

Lemma finish_returns w out :
  can_transmit w ->
  exists conns' out',
    finish w out = mkResult (Returns true) (set_fConn conns' w) (out ++ out') /\
    Forall2 same_identity (fConn w) conns'.
Proof.
  intros Hw. destruct (CheckDataToSend_returns false w Hw) as (conns' & out' & E & Hid & _).
  exists conns', out'. unfold finish. by rewrite E.
Qed.

Lemma ProcessWS_data_ready w i conn f key :
  fReady conn = 0 ->
  nchannel f = 0 ->
  cdata f = "READY=" +:+ key ->
  HasKey w key = true \/ IsNativeOnlyConn w = false ->
  ProcessWS_data w i conn f =
    let w2 := accept_key i key (update_conn i (fun _ => booked conn f) w) in
    if negb (String.length (fPanelName w) =? 0)%nat then
      match Send w2 (fConnId conn) ("SHOWPANEL:" +:+ fPanelName w) with
      | Some (w3, out) => finish (update_conn i (set_fReady 5) w3) out
      | None => mkResult Hangs w2 []
      end
    else
      call_fDataCallback w2 (fConnId conn) "CONN_READY" (fun out =>
      finish (update_conn i (set_fReady 10) w2) out).
Proof.
  intros Hpend Hch Hcd Hok. unfold ProcessWS_data.
  rewrite Hch, Hcd. simpl (_ =? _). cbn iota.
  rewrite starts_with_app. change (substr 6 ("READY=" +:+ key)) with key.
  change (fReady (booked conn f)) with (fReady conn). rewrite Hpend. cbn [andb Z.eqb].
  set (w1 := update_conn i (fun _ => booked conn f) w).
  assert (Hrej : negb (HasKey w1 key) && IsNativeOnlyConn w1 = false).
  { change (HasKey w1 key) with (HasKey w key).
    change (IsNativeOnlyConn w1) with (IsNativeOnlyConn w).
    destruct Hok as [-> | ->]; [done | by rewrite andb_false_r]. }
  rewrite Hrej.
  assert (Hp2 : fPanelName (accept_key i key w1) = fPanelName w).
  { unfold accept_key. by destruct (fKeys w1 !! key). }
  rewrite Hp2. done.
Qed.

(** A READY on the system channel from a Pending connection that is not
    turned away: the key, if known, is consumed and names the process; then
    the window with a panel name submits SHOWPANEL through [Send] and moves
    the connection to stage 5, the window without one announces CONN_READY
    and moves it to stage 10. *)
Lemma ready_handshake w i conn f key :
  can_transmit w ->
  fConn w !! i = Some conn ->
  fReady conn = 0 ->
  nchannel f = 0 ->
  cdata f = "READY=" +:+ key ->
  HasKey w key = true \/ IsNativeOnlyConn w = false ->
  fPanelName w <> EmptyString \/ fDataCallback w = true ->
  exists w' out c',
    ProcessWS_data w i conn f = mkResult (Returns true) w' out /\
    fKeys w' = delete key (fKeys w) /\
    fConn w' !! i = Some c' /\
    fConnId c' = fConnId conn /\ fWSId c' = fWSId conn /\
    fProcId c' = default (fProcId conn) (fKeys w !! key) /\
    fReady c' = (if decide (fPanelName w = EmptyString) then 10 else 5).
Proof.
  intros Hw Hi Hpend Hch Hcd Hok Hcb.
  rewrite (ProcessWS_data_ready w i conn f key) by done. cbn zeta.
  set (w1 := update_conn i (fun _ => booked conn f) w).
  assert (Hw1 : can_transmit w1).
  { apply can_transmit_update_conn; [done|]. intros c Hc. by simplify_eq. }
  assert (Hi1 : fConn w1 !! i = Some (booked conn f)).
  { simpl. rewrite list_lookup_alter_eq, Hi. done. }
  set (w2 := accept_key i key w1).
  set (c2 := set_fProcId (default (fProcId conn) (fKeys w !! key)) (booked conn f)).
  assert (Hk2 : fKeys w2 = delete key (fKeys w)).
  { subst w2. unfold accept_key. change (fKeys w1) with (fKeys w).
    destruct (fKeys w !! key) eqn:E; [done|]. simpl. by rewrite delete_id. }
  assert (Hi2 : fConn w2 !! i = Some c2).
  { subst w2 c2. unfold accept_key. change (fKeys w1) with (fKeys w).
    destruct (fKeys w !! key); simpl.
    - by rewrite !list_lookup_alter_eq, Hi.
    - rewrite list_lookup_alter_eq, Hi. by destruct conn. }
  assert (Hw2 : can_transmit w2).
  { subst w2. unfold accept_key. destruct (fKeys w1 !! key); [|done].
    by apply (can_transmit_update_conn w1 i (set_fProcId _)). }
  assert (Hd2 : fDataCallback w2 = fDataCallback w).
  { subst w2. unfold accept_key. by destruct (fKeys w1 !! key). }
  assert (Hfin : forall w3 out r,
    can_transmit w3 -> fKeys w3 = fKeys w2 ->
    (exists c3, fConn w3 !! i = Some c3 /\ same_identity c2 c3) ->
    exists w' out' c',
      finish (update_conn i (set_fReady r) w3) out = mkResult (Returns true) w' out' /\
      fKeys w' = delete key (fKeys w) /\ fConn w' !! i = Some c' /\
      fConnId c' = fConnId conn /\ fWSId c' = fWSId conn /\
      fProcId c' = default (fProcId conn) (fKeys w !! key) /\ fReady c' = r).
  { intros w3 out r Hw3 Hk3 (c3 & Hi3 & Hid3).
    destruct (finish_returns (update_conn i (set_fReady r) w3) out) as (c5 & o5 & -> & Hid5).
    { by apply can_transmit_update_conn. }
    assert (Hi4 : fConn (update_conn i (set_fReady r) w3) !! i = Some (set_fReady r c3)).
    { simpl. by rewrite list_lookup_alter_eq, Hi3. }
    destruct (Forall2_same_identity_lookup _ _ _ _ Hid5 Hi4) as (c' & Hc' & (?&?&?&?&?)).
    exists (set_fConn c5 (update_conn i (set_fReady r) w3)), (out ++ o5), c'.
    destruct Hid3 as (?&?&?&?&?).
    split; [done|]. split; [simpl; congruence|]. split; [done|].
    simpl in *. repeat split; congruence. }
  destruct (decide (fPanelName w = EmptyString)) as [Hp|Hp].
  - rewrite Hp. simpl. unfold call_fDataCallback. rewrite Hd2.
    destruct Hcb as [?| ->]; [done|].
    apply Hfin; [done | done | exists c2; split; [done | apply same_identity_refl]].
  - assert (negb (String.length (fPanelName w) =? 0)%nat = true) as ->.
    { destruct (fPanelName w); done. }
    destruct (SubmitData_returns w2 (fConnId conn) true
                ("SHOWPANEL:" +:+ fPanelName w) 1 Hw2) as [[w3 o3] E].
    unfold Send. rewrite E.
    apply SubmitData_spec in E as (c3 & -> & Hid3 & _).
    apply Hfin; [by apply can_transmit_set_fConn | done |].
    by apply (Forall2_same_identity_lookup _ _ _ _ Hid3).
Qed.

End Handshake.

(** ** Submitting to one connection *)

Section SingleTarget.

Lemma SubmitData_loop_skip h maxq connid txt chid conns cnt data :
  connid <> 0 -> Forall (fun c => fConnId c <> connid) conns ->
  SubmitData_loop h maxq connid txt chid conns cnt data = (conns, cnt, data, []).
Proof.
  intros Hid. induction 1 as [|c rest Hc _ IH]; simpl; [done|].
  destruct (Z.eqb_spec connid 0); [done|].
  destruct (Z.eqb_spec connid (fConnId c)); [congruence|]. simpl.
  by rewrite IH.
Qed.

Lemma distinct_ids_cons c rest :
  distinct_ids (c :: rest) ->
  fConnId c <> 0 /\ Forall (fun c' => fConnId c' <> fConnId c) rest /\ distinct_ids rest.
Proof.
  intros [Hnd Hnz]. simpl in Hnd. apply NoDup_cons in Hnd as [Hin Hnd].
  apply Forall_cons in Hnz as [Hc Hnz]. repeat split; try done.
  apply Forall_forall. intros c' Hc' Heq. apply Hin. rewrite <- Heq.
  by apply list_elem_of_fmap_2.
Qed.

(** With distinct ids, a submission addressed to the connection at position
    [i] runs the loop body on that connection and skips all others. *)
Lemma SubmitData_loop_single h maxq txt chid conns i c cnt data :
  distinct_ids conns -> conns !! i = Some c ->
  SubmitData_loop h maxq (fConnId c) txt chid conns cnt data =
    let '(c', cnt1, data1, out) := SubmitData_conn h maxq txt chid c cnt data in
    (<[i := c']> conns, cnt1, data1, out).
Proof.
  revert i. induction conns as [|x rest IH]; intros i Hd Hi; [done|].
  apply distinct_ids_cons in Hd as (Hx & Hrest & Hd).
  destruct i as [|i]; simpl in Hi.
  - injection Hi as ->. simpl.
    destruct (Z.eqb_spec (fConnId c) 0); [done|].
    rewrite Z.eqb_refl. simpl.
    destruct (SubmitData_conn h maxq txt chid c cnt data) as [[[c' k] d] o].
    rewrite SubmitData_loop_skip by done. by rewrite app_nil_r.
  - assert (fConnId c <> fConnId x) as Hne.
    { intros Heq. rewrite Forall_forall in Hrest.
      apply (Hrest c); [by eapply list_elem_of_lookup_2 | done]. }
    assert (fConnId c <> 0) as Hnz.
    { destruct Hd as [_ Hnz]. rewrite Forall_forall in Hnz.
      apply Hnz. by eapply list_elem_of_lookup_2. }
    simpl.
    destruct (Z.eqb_spec (fConnId c) 0); [done|].
    destruct (Z.eqb_spec (fConnId c) (fConnId x)); [done|]. simpl.
    rewrite (IH i) by done.
    by destruct (SubmitData_conn h maxq txt chid c cnt data) as [[[c' k] d] o].
Qed.

End SingleTarget.


(** ** The codec on decimal fields *)

Section Codec.

Lemma append_nil (s : string) : EmptyString +:+ s = s.
Proof. reflexivity. Qed.

Lemma append_cons c (a b : string) : String c a +:+ b = String c (a +:+ b).
Proof. reflexivity. Qed.

Lemma advance_app u s : advance (String.length u) (u +:+ s) = s.
Proof.
  induction u as [|c u IH]; [rewrite append_nil; by destruct s|].
  by rewrite append_cons.
Qed.

Lemma append_assoc (a b c : string) : (a +:+ b) +:+ c = a +:+ (b +:+ c).
Proof.
  induction a as [|x a IH]; [done|]. rewrite !append_cons. by f_equal.
Qed.

Lemma length_append (a b : string) :
  String.length (a +:+ b) = (String.length a + String.length b)%nat.
Proof.
  induction a as [|x a IH]; [done|]. rewrite append_cons. simpl. by f_equal.
Qed.

Lemma substring_all s : String.substring 0 (String.length s) s = s.
Proof. induction s as [|c s IH]; simpl; [done | by f_equal]. Qed.

Lemma isdigit_not_space c : isdigit c = true -> isspace c = false.
Proof.
  unfold isdigit, isspace. intros H.
  apply andb_true_iff in H as [H1 H2].
  apply Nat.leb_le in H1, H2.
  destruct (Nat.eqb_spec (nat_of_ascii c) 32); [lia|].
  destruct (Nat.leb_spec (nat_of_ascii c) 13); [lia|].
  by rewrite andb_false_r.
Qed.

Lemma isdigit_not_sign c : isdigit c = true -> c <> "-"%char /\ c <> "+"%char.
Proof. intros H. split; intros ->; done. Qed.

(** Reading a digit run that ends at a colon. *)
Lemma scan_digits_run u acc rest :
  all_digits u = true ->
  scan_digits acc (u +:+ String ":" rest) = (digits_value acc u, String.length u).
Proof.
  revert acc. induction u as [|c u IH]; intros acc Hu; [done|].
  simpl in Hu. apply andb_true_iff in Hu as [Hc Hu].
  rewrite append_cons. simpl. by rewrite Hc, IH.
Qed.

Lemma digits_value_mono u acc : all_digits u = true -> 0 <= acc -> acc <= digits_value acc u.
Proof.
  revert acc. induction u as [|c u IH]; intros acc Hu Hacc; simpl in *; [lia|].
  apply andb_true_iff in Hu as [Hc Hu].
  assert (0 <= digit_val c).
  { unfold isdigit in Hc. apply andb_true_iff in Hc as [H1 _].
    apply Nat.leb_le in H1. unfold digit_val. lia. }
  specialize (IH (10 * acc + digit_val c) Hu). lia.
Qed.

(** [strtoul] on a field of the interface grammar. *)
Lemma strtoul_uint u rest :
  uint_token u = true ->
  strtoul (u +:+ String ":" rest) =
    (if ULONG_MAX <? digits_value 0 u then ULONG_MAX else digits_value 0 u,
     String.length u).
Proof.
  unfold uint_token. intros H. apply andb_true_iff in H as [Hne Hu].
  destruct u as [|c u]; [done|]. clear Hne.
  pose proof Hu as Hu'. simpl in Hu'. apply andb_true_iff in Hu' as [Hc _].
  unfold strtoul.
  rewrite append_cons.
  assert (count_space (String c (u +:+ String ":" rest)) = O) as ->.
  { simpl. by rewrite isdigit_not_space. }
  cbn [advance].
  destruct (isdigit_not_sign c Hc) as [Hm Hp].
  assert ((match String c (u +:+ String ":" rest) with
           | String "-" _ => (true, 1%nat)
           | String "+" _ => (false, 1%nat)
           | _ => (false, O)
           end : bool * nat) = (false, O)) as ->.
  { destruct c as [[] [] [] [] [] [] [] []]; done. }
  cbn [advance]. rewrite <- append_cons, scan_digits_run by done. done.
Qed.

Lemma digits_value_snoc u c acc :
  digits_value acc (u +:+ String c EmptyString) = 10 * digits_value acc u + digit_val c.
Proof.
  revert acc. induction u as [|x u IH]; intros acc; [done|].
  rewrite append_cons. simpl. by rewrite IH.
Qed.

Lemma all_digits_snoc u c :
  all_digits (u +:+ String c EmptyString) = all_digits u && isdigit c.
Proof.
  induction u as [|x u IH]; [simpl; by rewrite andb_true_r|].
  rewrite append_cons. simpl. rewrite IH. by rewrite andb_assoc.
Qed.

(** Strings seen from their last byte. *)
Lemma string_snoc_ind (P : string -> Prop) :
  P EmptyString -> (forall u c, P u -> P (u +:+ String c EmptyString)) -> forall u, P u.
Proof.
  intros Hnil Hsnoc u.
  assert (forall n u, String.length u = n -> P u) as H; [|by eapply H].
  clear u. induction n as [|n IH]; intros u Hu.
  { destruct u; [done | discriminate]. }
  assert (exists v c, u = v +:+ String c EmptyString /\ String.length v = n) as (v & c & -> & Hv).
  { clear IH. revert n Hu. induction u as [|x u IHu]; intros n Hu; [discriminate|].
    destruct u as [|y u].
    - exists EmptyString, x. split; [done|]. simpl in *. lia.
    - destruct n as [|n]; [discriminate|].
      destruct (IHu n) as (v & c & Hv & Hlen); [simpl in *; lia|].
      exists (String x v), c. rewrite append_cons, <- Hv. split; [done|].
      simpl in *. lia. }
  apply Hsnoc. by apply IH.
Qed.

Lemma digit_val_range c : isdigit c = true -> 0 <= digit_val c <= 9.
Proof.
  unfold isdigit, digit_val. intros H. apply andb_true_iff in H as [H1 H2].
  apply Nat.leb_le in H1, H2. lia.
Qed.

Lemma pretty_N_char_digit c :
  isdigit c = true -> pretty_N_char (Z.to_N (digit_val c)) = c.
Proof. destruct c as [[] [] [] [] [] [] [] []]; intros H; try done. Qed.

(** Printing the value of a digit run that continues a number [acc > 0]
    puts the run in front of what is already printed. *)
Lemma pretty_N_go_digits u :
  all_digits u = true ->
  forall acc s, 0 < acc ->
    pretty_N_go (Z.to_N (digits_value acc u)) s = pretty_N_go (Z.to_N acc) (u +:+ s).
Proof.
  induction u as [|u c IH] using string_snoc_ind; intros Hu acc s Hacc; [done|].
  rewrite all_digits_snoc in Hu. apply andb_true_iff in Hu as [Hu Hc].
  rewrite digits_value_snoc, append_assoc, append_cons, append_nil.
  pose proof (digits_value_mono u acc Hu ltac:(lia)) as Hmono.
  pose proof (digit_val_range c Hc) as Hd.
  rewrite pretty_N_go_step by lia.
  replace (Z.to_N (10 * digits_value acc u + digit_val c) `div` 10)%N
    with (Z.to_N (digits_value acc u)).
  2:{ apply (N.div_unique _ _ _ (Z.to_N (digit_val c))); lia. }
  replace (Z.to_N (10 * digits_value acc u + digit_val c) `mod` 10)%N
    with (Z.to_N (digit_val c)).
  2:{ apply (N.mod_unique _ _ (Z.to_N (digits_value acc u))); lia. }
  rewrite pretty_N_char_digit by done. by apply IH.
Qed.

Lemma to_string_pos x : 0 < x -> to_string x = pretty_N_go (Z.to_N x) EmptyString.
Proof. destruct x; done. Qed.

Lemma append_nil_r (s : string) : s +:+ EmptyString = s.
Proof. induction s as [|c s IH]; [done|]. rewrite append_cons. by f_equal. Qed.

(** [std::to_string] gives back a canonical field from its value. *)
Lemma to_string_canonical u :
  canonical_uint u = true -> to_string (digits_value 0 u) = u.
Proof.
  unfold canonical_uint, uint_token. intros H.
  apply andb_true_iff in H as [H _]. apply andb_true_iff in H as [H Hlead].
  apply andb_true_iff in H as [Hne Hu].
  destruct u as [|c u]; [done|]. clear Hne.
  simpl in Hu. apply andb_true_iff in Hu as [Hc Hu].
  pose proof (digit_val_range c Hc) as Hd.
  assert (digit_val c = 0 -> c = "0"%char) as Hzero.
  { intros Hz. rewrite <- (pretty_N_char_digit c Hc), Hz. done. }
  destruct (decide (digit_val c = 0)) as [Hz|Hnz].
  - rewrite (Hzero Hz) in *. destruct u; [done | discriminate].
  - simpl. rewrite Z.add_0_l.
    pose proof (digits_value_mono u (digit_val c) Hu ltac:(lia)).
    rewrite to_string_pos by lia.
    rewrite pretty_N_go_digits by (done || lia).
    rewrite pretty_N_go_step by lia.
    replace (Z.to_N (digit_val c) `div` 10)%N with 0%N
      by (rewrite N.div_small; lia).
    replace (Z.to_N (digit_val c) `mod` 10)%N with (Z.to_N (digit_val c))
      by (rewrite N.mod_small; lia).
    by rewrite pretty_N_go_0, pretty_N_char_digit, append_nil_r.
Qed.

Lemma substring_ge s m :
  (String.length s <= m)%nat -> String.substring 0 m s = s.
Proof.
  revert m. induction s as [|c s IH]; intros m Hm; [by destruct m|].
  destruct m as [|m]; simpl in *; [lia|]. f_equal. apply IH. lia.
Qed.

Lemma c_str_digits u s : all_digits u = true -> c_str (u +:+ s) = u +:+ c_str s.
Proof.
  induction u as [|c u IH]; intros Hu; [done|].
  simpl in Hu. apply andb_true_iff in Hu as [Hc Hu].
  rewrite !append_cons. simpl. rewrite IH by done.
  destruct (Ascii.eqb_spec c NUL) as [->|]; done.
Qed.

(** Decoding a frame of the interface grammar: each field is read to its
    colon, values above [ULONG_MAX] are clamped, the rest is the payload. *)
Lemma decode_wire_frame u1 u2 u3 p :
  uint_token u1 = true -> uint_token u2 = true -> uint_token u3 = true ->
  let clamp v := if ULONG_MAX <? v then ULONG_MAX else v in
  decode_frame (wire_frame u1 u2 u3 p) (Zlength (wire_frame u1 u2 u3 p)) =
    Accepted (mkFrame (clamp (digits_value 0 u1)) (clamp (digits_value 0 u2))
                      (clamp (digits_value 0 u3)) p).
Proof.
  intros H1 H2 H3 clamp. unfold decode_frame, wire_frame, Zlength.
  rewrite !length_append.
  rewrite !(append_cons ":" EmptyString), !append_nil.
  rewrite (strtoul_uint u1) by done. rewrite advance_app.
  rewrite (strtoul_uint u2) by done. rewrite advance_app.
  rewrite (strtoul_uint u3) by done. rewrite advance_app.
  cbn [String.length].
  set (n := (String.length u1 + 1 + String.length u2 + 1 + String.length u3 + 1)%nat).
  assert (0 <= to_unsigned (Z.of_nat n) <= Z.of_nat n) as Hn.
  { unfold to_unsigned. split; [apply Z.mod_pos_bound; lia|].
    apply Z.mod_le; lia. }
  match goal with |- context [?a <? ?b] => destruct (Z.ltb_spec a b) as [Hlt|Hge] end.
  { subst n. lia. }
  rewrite substring_ge; [done|]. subst n. lia.
Qed.

(** C8, amended.  A frame whose three integers are in canonical decimal
    form (digits only, no leading zero, value up to [INT_MAX]), whose second
    integer is not 0, and whose bytes contain no NUL decodes; and when
    [SendDataViaConnection] re-encodes the decoded fields as text, over a
    connection that can transmit and carries the first two integers as its
    receive count and send credits, the one thing it hands to the transport
    is the bytes of the frame. *)
Theorem canonical_frame_roundtrip u1 u2 u3 p c :
  canonical_uint u1 = true -> canonical_uint u2 = true -> canonical_uint u3 = true ->
  0 < digits_value 0 u2 ->
  c_str p = p ->
  fWSId c <> 0 ->
  exists f,
    decode_frame (wire_frame u1 u2 u3 p) (Zlength (wire_frame u1 u2 u3 p)) = Accepted f /\
    (SendDataViaConnection true
       (set_counters (to_int (ackn_oper f)) (to_int (can_send f))
                     (fClientCredits c) c)
       true (cdata f) (to_int (nchannel f))).2 =
      [SendCharStarWS (fWSId c) (wire_frame u1 u2 u3 p)].
Proof.
  intros H1 H2 H3 Hcr Hp Hws.
  assert (forall u, canonical_uint u = true ->
            uint_token u = true /\ all_digits u = true /\
            0 <= digits_value 0 u <= INT_MAX) as Hcan.
  { intros u Hu. unfold canonical_uint in Hu.
    apply andb_true_iff in Hu as [Hu Hmax]. apply andb_true_iff in Hu as [Htok _].
    pose proof Htok as Htok'. unfold uint_token in Htok'.
    apply andb_true_iff in Htok' as [_ Hd].
    apply Z.leb_le in Hmax.
    pose proof (digits_value_mono u 0 Hd ltac:(lia)). done. }
  destruct (Hcan u1 H1) as (T1 & D1 & R1).
  destruct (Hcan u2 H2) as (T2 & D2 & R2).
  destruct (Hcan u3 H3) as (T3 & D3 & R3).
  eexists. split; [by apply decode_wire_frame|].
  unfold INT_MAX in *.
  assert (forall v, 0 <= v <= 2147483647 ->
            to_int (if ULONG_MAX <? v then ULONG_MAX else v) = v) as Hint.
  { intros v Hv. unfold ULONG_MAX, to_int.
    destruct (Z.ltb_spec 18446744073709551615 v); [lia|].
    rewrite Z.mod_small; lia. }
  cbn [ackn_oper can_send nchannel cdata].
  rewrite !Hint by done.
  rewrite SendDataViaConnection_sent by done. cbn [snd fWSId fRecvCount fSendCredits set_counters].
  unfold frame_prefix.
  rewrite !to_string_canonical by done.
  unfold wire_frame. rewrite !append_assoc.
  rewrite !(append_cons ":" EmptyString), !append_nil.
  rewrite (c_str_digits u1) by done. simpl (c_str (String _ _)).
  rewrite (c_str_digits u2) by done. simpl (c_str (String _ _)).
  rewrite (c_str_digits u3) by done. simpl (c_str (String _ _)).
  by rewrite Hp.
Qed.

Lemma canonical_frame_roundtrip_witness :
  exists f,
    decode_frame (wire_frame "12" "3" "1" "hello")
                 (Zlength (wire_frame "12" "3" "1" "hello")) = Accepted f /\
    (SendDataViaConnection true
       (set_counters (to_int (ackn_oper f)) (to_int (can_send f))
                     (fClientCredits (newWebConn 0 1 7)) (newWebConn 0 1 7))
       true (cdata f) (to_int (nchannel f))).2 =
      [SendCharStarWS (fWSId (newWebConn 0 1 7)) (wire_frame "12" "3" "1" "hello")].
Proof.
  apply (canonical_frame_roundtrip "12" "3" "1" "hello" (newWebConn 0 1 7));
    (reflexivity || discriminate).
Defined.

(** C8 as stated fails on two frames of the interface grammar.  With
    leading zeros in its first integer a frame decodes, and re-encoding the
    decoded fields gives other bytes.  With 0 as its second integer a frame
    decodes, and re-encoding the decoded fields gives nothing at all: a
    connection with no send credit only logs. *)
Lemma leading_zeros_not_reproduced :
  uint_token "007" = true /\ uint_token "1" = true /\
  decode_frame (wire_frame "007" "1" "1" "x") (Zlength (wire_frame "007" "1" "1" "x")) =
    Accepted (mkFrame 7 1 1 "x") /\
  (SendDataViaConnection true
     (set_counters (to_int (ackn_oper (mkFrame 7 1 1 "x"))) (to_int (can_send (mkFrame 7 1 1 "x")))
                   (fClientCredits (newWebConn 0 1 7)) (newWebConn 0 1 7))
     true (cdata (mkFrame 7 1 1 "x")) (to_int (nchannel (mkFrame 7 1 1 "x")))).2 =
    [SendCharStarWS 7 "7:1:1:x"] /\
  "7:1:1:x" <> wire_frame "007" "1" "1" "x" /\
  canonical_uint "1" = true /\ canonical_uint "0" = true /\
  decode_frame (wire_frame "1" "0" "1" "x") (Zlength (wire_frame "1" "0" "1" "x")) =
    Accepted (mkFrame 1 0 1 "x") /\
  (SendDataViaConnection true
     (set_counters (to_int (ackn_oper (mkFrame 1 0 1 "x"))) (to_int (can_send (mkFrame 1 0 1 "x")))
                   (fClientCredits (newWebConn 0 1 7)) (newWebConn 0 1 7))
     true (cdata (mkFrame 1 0 1 "x")) (to_int (nchannel (mkFrame 1 0 1 "x")))).2 =
    [LogError "No credits to send text data via connection"].
Proof. repeat split; try reflexivity. discriminate. Qed.

End Codec.

(** ** Malformed frames *)

Section Malformed.













End Malformed.

(** ** Copy and move in a broadcast *)

Section CopyMove.

Lemma to_int_small x : 0 <= x <= INT_MAX -> to_int x = x.
Proof. unfold to_int, INT_MAX. intros H. rewrite Z.mod_small; lia. Qed.

Lemma enqueue_count_le maxq connid conns :
  (enqueue_count maxq connid conns <= targets connid conns)%nat.
Proof.
  induction conns as [|c rest IH]; simpl; [lia|].
  unfold enqueues. destruct (targeted connid c); simpl; [|lia].
  destruct (_ && _); lia.
Qed.

Lemma skip_test connid c :
  negb (connid =? 0) && negb (connid =? fConnId c) = negb (targeted connid c).
Proof. unfold targeted. by rewrite negb_orb. Qed.

(** The loop passes over the connections it skips. *)
Lemma SubmitData_loop_skips h maxq connid txt chid conns cnt data d :
  targets connid conns = O ->
  SubmitData_loop h maxq connid txt chid conns cnt data = (conns, cnt, data, []) /\
  Forall2 (queue_after maxq connid chid txt d) conns conns.
Proof.
  induction conns as [|c rest IH]; intros Ht; [by split; [|constructor]|].
  cbn [targets] in Ht.
  destruct (targeted connid c) eqn:Hc; [done|].
  destruct (IH Ht) as [E Hall].
  cbn [SubmitData_loop]. rewrite skip_test, Hc, E. split; [done|].
  constructor; [|done]. unfold queue_after, enqueues. by rewrite Hc.
Qed.

(** The loop of [SubmitData]: who enqueues, what is left of the counter, and
    where the payload is afterwards. *)
Lemma SubmitData_loop_moves h maxq connid txt chid data conns :
  forall cnt,
    Z.of_nat (targets connid conns) <= cnt <= INT_MAX ->
    let r := SubmitData_loop h maxq connid txt chid conns cnt data in
    let m := Z.of_nat (enqueue_count maxq connid conns) in
    Forall2 (queue_after maxq connid chid txt data) conns r.1.1.1 /\
    r.1.1.2 = cnt - m /\
    r.1.2 = (if (0 <? m) && (m =? cnt) then EmptyString else data).
Proof.
  induction conns as [|c rest IH]; intros cnt Hcnt.
  { simpl. split; [constructor|]. split; [lia | done]. }
  cbn zeta. cbn [targets] in Hcnt.
  pose proof (enqueue_count_le maxq connid rest) as Hle.
  assert (enqueues maxq connid c =
          targeted connid c &&
          negb ((length (fQueue c) =? 0)%nat && (0 <? fSendCredits c)) &&
          (Z.of_nat (length (fQueue c)) <? maxq)) as He by done.
  cbn [SubmitData_loop enqueue_count]. rewrite skip_test.
  destruct (targeted connid c) eqn:Ht.
  2:{ cbn [negb andb] in *. rewrite He.
      destruct (IH cnt ltac:(lia)) as (Hall & Hk & Hdata).
      destruct (SubmitData_loop h maxq connid txt chid rest cnt data) as [[[r1 k1] d1] o1].
      cbn [fst snd] in *. cbn [Nat.add].
      split; [constructor; [unfold queue_after; by rewrite He | done]|]. done. }
  cbn [negb andb] in *.
  unfold SubmitData_conn.
  destruct ((length (fQueue c) =? 0)%nat && (0 <? fSendCredits c)) eqn:Hd.
  - assert (enqueues maxq connid c = false) as Hen by exact He.
    rewrite Hen.
    pose proof (SendDataViaConnection_queue h c txt data chid) as Hq.
    destruct (SendDataViaConnection h c txt data chid) as [c' o0].
    destruct (IH cnt ltac:(lia)) as (Hall & Hk & Hdata).
    destruct (SubmitData_loop h maxq connid txt chid rest cnt data) as [[[r1 k1] d1] o1].
    cbn [fst snd] in *. cbn [Nat.add].
    split; [constructor; [unfold queue_after; by rewrite Hen | done]|].
    split; [lia|]. rewrite Hdata.
    destruct (Z.eqb_spec (Z.of_nat (enqueue_count maxq connid rest)) cnt); [lia|]. done.
  - destruct (Z.ltb_spec (Z.of_nat (length (fQueue c))) maxq) as [Hroom|Hfull].
    + assert (enqueues maxq connid c = true) as Hen by exact He.
      rewrite Hen.
      rewrite to_int_small by lia.
      destruct (Z.eqb_spec (cnt - 1) 0) as [Hz|Hnz].
      * assert (targets connid rest = O) as Hnone by lia.
        destruct (SubmitData_loop_skips h maxq connid txt chid rest (cnt - 1)
                    EmptyString data Hnone) as [-> Hall].
        assert (enqueue_count maxq connid rest = O) as -> by lia.
        cbn [fst snd Nat.add].
        split; [constructor; [unfold queue_after; by rewrite Hen | done]|].
        split; [lia|].
        destruct (Z.eqb_spec (Z.of_nat 1) cnt); [done | lia].
      * destruct (IH (cnt - 1) ltac:(lia)) as (Hall & Hk & Hdata).
        destruct (SubmitData_loop h maxq connid txt chid rest (cnt - 1) data)
          as [[[r1 k1] d1] o1].
        cbn [fst snd] in *. cbn [Nat.add].
        split; [constructor; [unfold queue_after; by rewrite Hen | done]|].
        split; [lia|]. rewrite Hdata.
        replace (0 <? Z.of_nat (S (enqueue_count maxq connid rest))) with true
          by (symmetry; apply Z.ltb_lt; lia).
        destruct (Z.eqb_spec (Z.of_nat (enqueue_count maxq connid rest)) (cnt - 1))
          as [E1|E1];
          destruct (Z.eqb_spec (Z.of_nat (S (enqueue_count maxq connid rest))) cnt)
            as [E2|E2];
          try lia.
        -- destruct (Z.ltb_spec 0 (Z.of_nat (enqueue_count maxq connid rest)));
             [done | lia].
        -- by rewrite andb_false_r.
    + assert (enqueues maxq connid c = false) as Hen by exact He.
      rewrite Hen.
      destruct (IH cnt ltac:(lia)) as (Hall & Hk & Hdata).
      destruct (SubmitData_loop h maxq connid txt chid rest cnt data) as [[[r1 k1] d1] o1].
      cbn [fst snd] in *. cbn [Nat.add].
      split; [constructor; [unfold queue_after; by rewrite Hen | done]|].
      split; [lia|]. rewrite Hdata.
      destruct (Z.eqb_spec (Z.of_nat (enqueue_count maxq connid rest)) cnt); [lia|]. done.
Qed.

(** C6, amended.  In the loop of a submission that starts with a counter
    [cnt] of at least the number of connections it does not skip
    ([SubmitData] starts a broadcast with the number of connections, and a
    submission to one connection id with 1): every connection that takes
    the enqueue branch (it is not skipped, it cannot transmit at once, and
    its queue has room) gets the item with the full payload at the end of
    its queue, and every other queue is left alone; as long as fewer than
    [cnt] connections have been visited the payload is still with the
    caller, so every enqueue before the last of [cnt] is a copy; and after
    the loop the payload is gone exactly when the number of enqueues has
    reached [cnt]: it is moved by the last of [cnt] enqueues, which is the
    only enqueue of a submission to one connection, and it is never moved
    in a broadcast in which some connection transmits at once or
    overflows. *)
Theorem broadcast_copies_then_moves h maxq connid txt chid conns cnt data :
  Z.of_nat (targets connid conns) <= cnt <= INT_MAX ->
  Forall2 (queue_after maxq connid chid txt data) conns
    (SubmitData_loop h maxq connid txt chid conns cnt data).1.1.1 /\
  (forall n, Z.of_nat (targets connid (take n conns)) < cnt ->
     (SubmitData_loop h maxq connid txt chid (take n conns) cnt data).1.2 = data) /\
  (SubmitData_loop h maxq connid txt chid conns cnt data).1.2 =
    (if (0 <? Z.of_nat (enqueue_count maxq connid conns)) &&
        (Z.of_nat (enqueue_count maxq connid conns) =? cnt)
     then EmptyString else data).
Proof.
  intros Hcnt.
  destruct (SubmitData_loop_moves h maxq connid txt chid data conns cnt Hcnt)
    as (Hall & _ & Hdata).
  split; [done|]. split; [|done].
  intros n Hn.
  destruct (SubmitData_loop_moves h maxq connid txt chid data (take n conns) cnt)
    as (_ & _ & ->); [lia|].
  pose proof (enqueue_count_le maxq connid (take n conns)).
  destruct (Z.eqb_spec (Z.of_nat (enqueue_count maxq connid (take n conns))) cnt); [lia|].
  by rewrite andb_false_r.
Qed.

(** A broadcast to three connections, and a submission to the second of
    them. *)
Lemma broadcast_copies_then_moves_witness :
  (Forall2 (queue_after 10 0 1 true "abc") (fConn Sample.crowd)
    (SubmitData_loop true 10 0 true 1 (fConn Sample.crowd) 3 "abc").1.1.1 /\
  (forall n, Z.of_nat (targets 0 (take n (fConn Sample.crowd))) < 3 ->
     (SubmitData_loop true 10 0 true 1 (take n (fConn Sample.crowd)) 3 "abc").1.2 = "abc") /\
  (SubmitData_loop true 10 0 true 1 (fConn Sample.crowd) 3 "abc").1.2 =
    (if (0 <? Z.of_nat (enqueue_count 10 0 (fConn Sample.crowd))) &&
        (Z.of_nat (enqueue_count 10 0 (fConn Sample.crowd)) =? 3)
     then EmptyString else "abc")) /\
  (Forall2 (queue_after 10 2 1 true "abc") (fConn Sample.crowd)
    (SubmitData_loop true 10 2 true 1 (fConn Sample.crowd) 1 "abc").1.1.1 /\
  (forall n, Z.of_nat (targets 2 (take n (fConn Sample.crowd))) < 1 ->
     (SubmitData_loop true 10 2 true 1 (take n (fConn Sample.crowd)) 1 "abc").1.2 = "abc") /\
  (SubmitData_loop true 10 2 true 1 (fConn Sample.crowd) 1 "abc").1.2 =
    (if (0 <? Z.of_nat (enqueue_count 10 2 (fConn Sample.crowd))) &&
        (Z.of_nat (enqueue_count 10 2 (fConn Sample.crowd)) =? 1)
     then EmptyString else "abc")).
Proof.
  split.
  - apply (broadcast_copies_then_moves true 10 0 true 1 (fConn Sample.crowd) 3 "abc").
    vm_compute. split; discriminate.
  - apply (broadcast_copies_then_moves true 10 2 true 1 (fConn Sample.crowd) 1 "abc").
    vm_compute. split; discriminate.
Defined.

(** A submission to one connection id moves the payload at its enqueue. *)
Lemma single_target_enqueue_moves h maxq txt chid c data :
  negb ((length (fQueue c) =? 0)%nat && (0 <? fSendCredits c)) = true ->
  Z.of_nat (length (fQueue c)) < maxq ->
  SubmitData_conn h maxq txt chid c 1 data =
    (set_fQueue (fQueue c ++ [mkItem chid txt data]) c, 0, EmptyString, []).
Proof.
  intros Hd Hroom. unfold SubmitData_conn.
  apply negb_true_iff in Hd. rewrite Hd.
  destruct (Z.ltb_spec (Z.of_nat (length (fQueue c))) maxq); [done | lia].
Qed.

(** C6 as stated fails on its order: in a broadcast to three connections
    that all enqueue, the caller still holds the payload after the first
    enqueue (a copy), and has lost it after the last (the move). *)
Lemma first_enqueue_is_a_copy :
  fConn Sample.crowd = [newWebConn 0 1 7; newWebConn 0 2 8; newWebConn 0 3 9] /\
  SubmitData_loop true 10 0 true 1 [newWebConn 0 1 7] 3 "abc" =
    ([set_fQueue [mkItem 1 true "abc"] (newWebConn 0 1 7)], 2, "abc", []) /\
  (SubmitData_loop true 10 0 true 1 (fConn Sample.crowd) 3 "abc").1.2 = EmptyString.
Proof. repeat split. Qed.

End CopyMove.

(** ** Bounded queues *)

Section Bounded.

Lemma drained_refl c : drained c c.
Proof. by split. Qed.

Lemma drained_trans c1 c2 c3 : drained c1 c2 -> drained c2 c3 -> drained c1 c3.
Proof.
  intros [S1 E1] [S2 E2]. split; [by etrans|].
  intros H. rewrite (E1 H) in *. by apply E2.
Qed.

Lemma CheckDataToSend_conn_drained h c : drained c (CheckDataToSend_conn h c).1.1.
Proof.
  unfold CheckDataToSend_conn.
  destruct (Z.leb_spec (fSendCredits c) 0) as [|Hcr]; [apply drained_refl|].
  destruct (fQueue c) as [|item rest] eqn:Hq.
  - destruct (_ && _); [|apply drained_refl].
    pose proof (SendDataViaConnection_queue h c true "KEEPALIVE" 0) as Hs.
    destruct (SendDataViaConnection _ _ _ _ _) as [c' o]. simpl in *.
    split; [by rewrite Hs, Hq | lia].
  - destruct (SendDataViaConnection _ _ _ _ _) as [c' o]. simpl.
    split; [|lia]. rewrite Hq. by apply suffix_cons_r.
Qed.

Lemma CheckDataToSend_sweep_drained h conns :
  Forall2 drained conns (CheckDataToSend_sweep h conns).1.1.
Proof.
  induction conns as [|c rest IH]; simpl; [constructor|].
  pose proof (CheckDataToSend_conn_drained h c) as Hc.
  destruct (CheckDataToSend_conn h c) as [[c' o1] a1].
  destruct (CheckDataToSend_sweep h rest) as [[rest' o2] a2].
  by constructor.
Qed.

Lemma Forall2_drained_trans l1 l2 l3 :
  Forall2 drained l1 l2 -> Forall2 drained l2 l3 -> Forall2 drained l1 l3.
Proof.
  intros H. revert l3. induction H; intros l3 H3; inversion H3; subst; constructor;
    eauto using drained_trans.
Qed.

Lemma CheckDataToSend_loop_drained fuel h once conns conns' out :
  CheckDataToSend_loop fuel h once conns = Some (conns', out) ->
  Forall2 drained conns conns'.
Proof.
  revert conns conns' out.
  induction fuel as [|fuel IH]; intros conns conns' out; simpl; [done|].
  pose proof (CheckDataToSend_sweep_drained h conns) as Hd.
  destruct (CheckDataToSend_sweep h conns) as [[c1 o1] any]. simpl in *.
  destruct (any && negb once).
  - destruct (CheckDataToSend_loop fuel h once c1) as [[c2 o2]|] eqn:E; [|done].
    intros [= <- <-]. eauto using Forall2_drained_trans.
  - by intros [= <- <-].
Qed.

Lemma CheckDataToSend_drained once w w' out :
  CheckDataToSend once w = Some (w', out) ->
  exists conns', w' = set_fConn conns' w /\ Forall2 drained (fConn w) conns'.
Proof.
  unfold CheckDataToSend.
  destruct (CheckDataToSend_loop _ _ _ _) as [[conns' o]|] eqn:E; [|done].
  intros [= <- <-]. exists conns'. split; [done|].
  by eapply CheckDataToSend_loop_drained.
Qed.

Lemma queue_bounded_drained w conns' :
  queue_bounded w -> Forall2 drained (fConn w) conns' ->
  queue_bounded (set_fConn conns' w).
Proof.
  unfold queue_bounded. simpl. generalize (fMaxQueueLength w) as m. intros m Hb Hd.
  induction Hd as [|c c' l l' [Hs _] _ IH]; [constructor|].
  inversion Hb; subst. constructor; [|by apply IH].
  apply suffix_length in Hs. lia.
Qed.

Lemma CheckDataToSend_bounded once w w' out :
  queue_bounded w -> CheckDataToSend once w = Some (w', out) -> queue_bounded w'.
Proof.
  intros Hb E. apply CheckDataToSend_drained in E as (conns' & -> & Hd).
  by apply queue_bounded_drained.
Qed.

Lemma SubmitData_conn_bounded h maxq txt chid c cnt data :
  Z.of_nat (length (fQueue c)) <= maxq ->
  Z.of_nat (length (fQueue (SubmitData_conn h maxq txt chid c cnt data).1.1.1)) <= maxq.
Proof.
  intros Hb. unfold SubmitData_conn.
  destruct (_ && _).
  - pose proof (SendDataViaConnection_queue h c txt data chid) as Hq.
    destruct (SendDataViaConnection _ _ _ _ _) as [c' o]. simpl in *. by rewrite Hq.
  - destruct (Z.ltb_spec (Z.of_nat (length (fQueue c))) maxq); simpl; [|done].
    rewrite length_app. simpl. lia.
Qed.

Lemma SubmitData_loop_bounded h maxq connid txt chid conns cnt data :
  Forall (fun c => Z.of_nat (length (fQueue c)) <= maxq) conns ->
  Forall (fun c => Z.of_nat (length (fQueue c)) <= maxq)
         (SubmitData_loop h maxq connid txt chid conns cnt data).1.1.1.
Proof.
  intros Hb. revert cnt data.
  induction Hb as [|c rest Hc _ IH]; intros cnt data; simpl; [constructor|].
  destruct (_ && _).
  { specialize (IH cnt data).
    destruct (SubmitData_loop h maxq connid txt chid rest cnt data) as [[[r1 k1] d1] o1].
    by constructor. }
  pose proof (SubmitData_conn_bounded h maxq txt chid c cnt data Hc) as Hc'.
  destruct (SubmitData_conn h maxq txt chid c cnt data) as [[[c' k] d] o0].
  specialize (IH k d).
  destruct (SubmitData_loop h maxq connid txt chid rest k d) as [[[r1 k1] d1] o1].
  by constructor.
Qed.

Lemma SubmitData_bounded w connid txt data chid w' out :
  queue_bounded w -> SubmitData w connid txt data chid = Some (w', out) ->
  queue_bounded w'.
Proof.
  intros Hb. unfold SubmitData.
  match goal with |- context [SubmitData_loop ?h ?m ?i ?t ?c ?l ?k ?d] =>
    pose proof (SubmitData_loop_bounded h m i t c l k d Hb) as Hl;
    destruct (SubmitData_loop h m i t c l k d) as [[[l1 k1] d1] o1] end.
  destruct (CheckDataToSend false _) as [[w2 o2]|] eqn:E; [|done].
  intros [= <- <-]. eapply CheckDataToSend_bounded; [|exact E]. exact Hl.
Qed.

Lemma queue_bounded_update_conn w i f :
  queue_bounded w ->
  (forall c, fConn w !! i = Some c -> fQueue (f c) = fQueue c) ->
  queue_bounded (update_conn i f w).
Proof.
  intros Hb Hf. unfold queue_bounded. simpl.
  apply Forall_alter; [done|]. intros c Hc Hle. by rewrite Hf.
Qed.

Lemma queue_bounded_erase_conn w i : queue_bounded w -> queue_bounded (erase_conn i w).
Proof. intros Hb. unfold queue_bounded. simpl. by apply Forall_delete. Qed.

Lemma queue_bounded_accept_key w i key :
  queue_bounded w -> queue_bounded (accept_key i key w).
Proof.
  intros Hb. unfold accept_key. destruct (fKeys w !! key); [|done].
  by apply (queue_bounded_update_conn w i (set_fProcId _)).
Qed.

Lemma finish_bounded w out : queue_bounded w -> queue_bounded (window (finish w out)).
Proof.
  intros Hb. unfold finish.
  destruct (CheckDataToSend false w) as [[w' o]|] eqn:E; simpl; [|done].
  by eapply CheckDataToSend_bounded.
Qed.

Lemma call_fDataCallback_bounded w connid data k :
  queue_bounded w -> (forall out, queue_bounded (window (k out))) ->
  queue_bounded (window (call_fDataCallback w connid data k)).
Proof. intros Hb Hk. unfold call_fDataCallback. by destruct (fDataCallback w). Qed.

Lemma ProcessWS_data_bounded w i conn f :
  fConn w !! i = Some conn -> queue_bounded w ->
  queue_bounded (window (ProcessWS_data w i conn f)).
Proof.
  intros Hi Hb. unfold ProcessWS_data.
  set (w1 := update_conn i (fun _ => booked conn f) w).
  assert (Hb1 : queue_bounded w1).
  { apply queue_bounded_update_conn; [done|]. intros c Hc. by simplify_eq. }
  assert (Hr : forall r w0, queue_bounded w0 ->
                 queue_bounded (update_conn i (set_fReady r) w0)).
  { intros r w0 H0. by apply queue_bounded_update_conn. }
  destruct (nchannel f =? 0).
  - destruct (_ && _); [|by apply finish_bounded].
    destruct (_ && _); [by apply queue_bounded_erase_conn|].
    pose proof (queue_bounded_accept_key w1 i (substr 6 (cdata f)) Hb1) as Hb2.
    destruct (negb _).
    + destruct (Send _ _ _) as [[w3 o3]|] eqn:E; [|done].
      apply finish_bounded, Hr. by eapply SubmitData_bounded.
    + apply call_fDataCallback_bounded; [done|]. intros. by apply finish_bounded, Hr.
  - destruct (_ && _).
    + destruct (String.eqb _ _).
      * apply call_fDataCallback_bounded; [done|]. intros. by apply finish_bounded, Hr.
      * apply call_fDataCallback_bounded; [done|]. intros.
        by apply finish_bounded, queue_bounded_erase_conn.
    + destruct (nchannel f =? 1).
      * apply call_fDataCallback_bounded; [done|]. intros. by apply finish_bounded.
      * destruct (fCallBack _); [by apply finish_bounded | done].
Qed.

Lemma ProcessWS_bounded w arg :
  0 <= fMaxQueueLength w -> queue_bounded w -> queue_bounded (window (ProcessWS w arg)).
Proof.
  intros Hmax Hb. unfold ProcessWS.
  destruct (_ =? 0); [done|].
  destruct (IsMethod arg "WS_CONNECT"); [by destruct (_ && _)|].
  destruct (IsMethod arg "WS_READY").
  { destruct (find_conn _ _); [done|]. unfold queue_bounded. simpl.
    apply Forall_app. split; [done|]. repeat constructor. simpl. done. }
  destruct (IsMethod arg "WS_CLOSE").
  { destruct (find_conn _ _) as [i|]; [|done].
    destruct (fConn w !! i); [|done]. by apply queue_bounded_erase_conn. }
  destruct (negb _); [done|].
  destruct (find_conn _ _) as [i|]; [|done].
  destruct (fConn w !! i) as [conn|] eqn:Hi; [|done].
  destruct (_ <=? 0); [done|].
  destruct (decode_frame _ _); [done|].
  by apply ProcessWS_data_bounded.
Qed.

Lemma ProcessWS_fMaxQueueLength w arg :
  fMaxQueueLength (window (ProcessWS w arg)) = fMaxQueueLength w.
Proof.
  assert (Hfin : forall w0 out, fMaxQueueLength (window (finish w0 out)) = fMaxQueueLength w0).
  { intros w0 out. unfold finish.
    destruct (CheckDataToSend false w0) as [[w' o]|] eqn:E; [|done].
    by apply CheckDataToSend_spec in E as (? & -> & _). }
  assert (Hcb : forall w0 id d k,
            (forall out, fMaxQueueLength (window (k out)) = fMaxQueueLength w0) ->
            fMaxQueueLength (window (call_fDataCallback w0 id d k)) = fMaxQueueLength w0).
  { intros w0 id d k Hk. unfold call_fDataCallback. by destruct (fDataCallback w0). }
  unfold ProcessWS.
  destruct (_ =? 0); [done|].
  destruct (IsMethod arg "WS_CONNECT"); [by destruct (_ && _)|].
  destruct (IsMethod arg "WS_READY"); [by destruct (find_conn _ _)|].
  destruct (IsMethod arg "WS_CLOSE").
  { destruct (find_conn _ _) as [i|]; [|done]. by destruct (fConn w !! i). }
  destruct (negb _); [done|].
  destruct (find_conn _ _) as [i|]; [|done].
  destruct (fConn w !! i) as [conn|] eqn:Hi; [|done].
  destruct (_ <=? 0); [done|].
  destruct (decode_frame _ _) as [|f]; [done|].
  unfold ProcessWS_data.
  set (w1 := update_conn i (fun _ => booked conn f) w).
  destruct (nchannel f =? 0).
  - destruct (_ && _); [|by rewrite Hfin].
    destruct (_ && _); [done|].
    assert (fMaxQueueLength (accept_key i (substr 6 (cdata f)) w1) = fMaxQueueLength w) as Hk.
    { unfold accept_key. by destruct (fKeys w1 !! _). }
    destruct (negb _).
    + destruct (Send _ _ _) as [[w3 o3]|] eqn:E; [|done].
      apply SubmitData_spec in E as (? & -> & _). by rewrite Hfin.
    + rewrite Hcb; [done|]. intros. by rewrite Hfin.
  - destruct (_ && _).
    + destruct (String.eqb _ _); (rewrite Hcb; [done|]); intros; by rewrite Hfin.
    + destruct (nchannel f =? 1).
      * rewrite Hcb; [done|]. intros. by rewrite Hfin.
      * destruct (fCallBack _); [by rewrite Hfin | done].
Qed.

(** Every call keeps the queues within the maximum. *)
Lemma call_bounded w c w' out :
  0 <= fMaxQueueLength w -> queue_bounded w -> call w c = Some (w', out) ->
  fMaxQueueLength w' = fMaxQueueLength w /\ queue_bounded w'.
Proof.
  intros Hmax Hb. destruct c as [arg|connid txt data chid|once]; simpl.
  - pose proof (ProcessWS_bounded w arg Hmax Hb).
    pose proof (ProcessWS_fMaxQueueLength w arg).
    destruct (outcome (ProcessWS w arg)); [| |done]; by intros [= <- <-].
  - intros E. split; [|by eapply SubmitData_bounded].
    by apply SubmitData_spec in E as (? & -> & _).
  - intros E. split; [|by eapply CheckDataToSend_bounded].
    by apply CheckDataToSend_spec in E as (? & -> & _).
Qed.

Lemma run_bounded cs w w' out :
  0 <= fMaxQueueLength w -> queue_bounded w -> run w cs = Some (w', out) ->
  fMaxQueueLength w' = fMaxQueueLength w /\ queue_bounded w'.
Proof.
  revert w out. induction cs as [|c cs IH]; intros w out Hmax Hb; simpl.
  { by intros [= <- <-]. }
  destruct (call w c) as [[w1 o1]|] eqn:E1; [|done].
  destruct (run w1 cs) as [[w2 o2]|] eqn:E2; [|done].
  intros [= <- <-].
  destruct (call_bounded _ _ _ _ Hmax Hb E1) as [Hm1 Hb1].
  destruct (IH w1 o2) as [Hm2 Hb2]; [lia | done | done |]. split; [congruence | done].
Qed.

End Bounded.

(** ** Overflow *)

Section Overflow.

Lemma SubmitData_conn_overflow h maxq txt chid c cnt data :
  fQueue c <> [] \/ fSendCredits c <= 0 ->
  maxq <= Z.of_nat (length (fQueue c)) ->
  SubmitData_conn h maxq txt chid c cnt data =
    (c, cnt, data, [LogError "Maximum queue length achieved"]).
Proof.
  intros Hnd Hfull. unfold SubmitData_conn.
  assert ((length (fQueue c) =? 0)%nat && (0 <? fSendCredits c) = false) as ->.
  { destruct Hnd as [Hq|Hcr].
    - destruct (fQueue c); done.
    - destruct (Z.ltb_spec 0 (fSendCredits c)); [lia | by rewrite andb_false_r]. }
  destruct (Z.ltb_spec (Z.of_nat (length (fQueue c))) maxq); [lia | done].
Qed.

Lemma SubmitData_loop_overflow h maxq connid txt chid conns i c cnt data :
  conns !! i = Some c ->
  connid = 0 \/ connid = fConnId c ->
  fQueue c <> [] \/ fSendCredits c <= 0 ->
  maxq <= Z.of_nat (length (fQueue c)) ->
  let r := SubmitData_loop h maxq connid txt chid conns cnt data in
  r.1.1.1 !! i = Some c /\ LogError "Maximum queue length achieved" ∈ r.2.
Proof.
  intros Hi Htarget Hnd Hfull. revert i cnt data Hi.
  induction conns as [|x rest IH]; intros i cnt data Hi; [done|].
  destruct i as [|i]; simpl in Hi.
  - injection Hi as ->. simpl.
    assert (negb (connid =? 0) && negb (connid =? fConnId c) = false) as ->.
    { destruct Htarget as [-> | ->]; [done|]. rewrite Z.eqb_refl. by rewrite andb_false_r. }
    rewrite SubmitData_conn_overflow by done.
    destruct (SubmitData_loop h maxq connid txt chid rest cnt data) as [[[r1 k1] d1] o1].
    simpl. split; [done | apply list_elem_of_here].
  - simpl. destruct (_ && _).
    + specialize (IH i cnt data Hi).
      destruct (SubmitData_loop h maxq connid txt chid rest cnt data) as [[[r1 k1] d1] o1].
      by simpl in *.
    + destruct (SubmitData_conn h maxq txt chid x cnt data) as [[[x' k] d] o0].
      specialize (IH i k d Hi).
      destruct (SubmitData_loop h maxq connid txt chid rest k d) as [[[r1 k1] d1] o1].
      simpl in *. destruct IH. split; [done|]. apply elem_of_app. by right.
Qed.

(** C5.  Whatever calls have been made on a window whose queues were within
    the maximum (a new window has none), they still are.  In the window so
    reached, a submission to a connection that can neither transmit
    directly nor enqueue takes the overflow branch, which leaves the
    connection as it is and writes the error line; over the whole call the
    line is in the log, nothing has been added to the queue (it is what
    was there, less what the drain pass at the end may have transmitted
    from its front), and the connection is untouched when it has no send
    credits. *)
Theorem queue_bounded_overflow_reported w0 cs w out :
  0 <= fMaxQueueLength w0 ->
  queue_bounded w0 ->
  run w0 cs = Some (w, out) ->
  queue_bounded w /\
  forall connid txt data chid i c,
    can_transmit w ->
    fConn w !! i = Some c ->
    connid = 0 \/ connid = fConnId c ->
    fQueue c <> [] \/ fSendCredits c <= 0 ->
    fMaxQueueLength w <= Z.of_nat (length (fQueue c)) ->
    (forall cnt,
       SubmitData_conn (fWSHandler w) (fMaxQueueLength w) txt chid c cnt data =
         (c, cnt, data, [LogError "Maximum queue length achieved"])) /\
    exists w' out' c',
      SubmitData w connid txt data chid = Some (w', out') /\
      LogError "Maximum queue length achieved" ∈ out' /\
      fConn w' !! i = Some c' /\
      fQueue c' `suffix_of` fQueue c /\
      (fSendCredits c <= 0 -> c' = c).
Proof.
  intros Hmax Hb Hrun.
  split; [by eapply run_bounded|].
  intros connid txt data chid i c Hw Hi Htarget Hnd Hfull.
  split; [intros; by apply SubmitData_conn_overflow|].
  destruct (SubmitData_returns w connid txt data chid Hw) as [[w' out'] E].
  pose proof E as E0. unfold SubmitData in E.
  match type of E with context [SubmitData_loop ?h ?m ?id ?t ?ch ?l ?k ?d] =>
    pose proof (SubmitData_loop_overflow h m id t ch l i c k d Hi Htarget Hnd Hfull) as Hl;
    destruct (SubmitData_loop h m id t ch l k d) as [[[l1 k1] d1] o1] end.
  simpl in Hl. destruct Hl as [Hi1 Hlog].
  destruct (CheckDataToSend false _) as [[w2 o2]|] eqn:E2; [|done].
  injection E as Ew Eo.
  apply CheckDataToSend_drained in E2 as (conns' & -> & Hd). simpl in Hd.
  destruct (Forall2_lookup_l _ _ _ _ _ Hd Hi1) as (c' & Hc' & Hs & He).
  exists w', out', c'. split; [done|]. rewrite <- Ew, <- Eo.
  split; [apply elem_of_app; by left|]. done.
Qed.

Lemma queue_bounded_overflow_reported_witness :
  queue_bounded Sample.stuffed /\
  exists w' out' c',
    SubmitData Sample.stuffed 1 true "b" 1 = Some (w', out') /\
    LogError "Maximum queue length achieved" ∈ out' /\
    fConn w' !! 0%nat = Some c' /\
    fQueue c' `suffix_of` fQueue Sample.stuffed_conn /\
    (fSendCredits Sample.stuffed_conn <= 0 -> c' = Sample.stuffed_conn).
Proof.
  destruct (queue_bounded_overflow_reported Sample.narrow Sample.stuffing
              Sample.stuffed []) as [Hb Hdrop].
  - done.
  - constructor.
  - reflexivity.
  - split; [exact Hb|].
    destruct (Hdrop 1 true "b" 1 0%nat Sample.stuffed_conn) as [_ H].
    + split; [reflexivity|]. repeat constructor. done.
    + reflexivity.
    + right. reflexivity.
    + left. done.
    + simpl. lia.
    + exact H.
Defined.

Lemma CheckDataToSend_conn_idle h c :
  (CheckDataToSend_conn h c).2 = false ->
  (CheckDataToSend_conn h c).1.1 = c /\ quiescent c.
Proof.
  unfold CheckDataToSend_conn, quiescent.
  destruct (Z.leb_spec (fSendCredits c) 0); [by split; [|left]|].
  destruct (fQueue c) as [|item rest].
  - destruct (_ && _); [by destruct (SendDataViaConnection _ _ _ _ _)|].
    by split; [|right].
  - by destruct (SendDataViaConnection _ _ _ _ _).
Qed.

Lemma CheckDataToSend_sweep_idle h conns :
  (CheckDataToSend_sweep h conns).2 = false ->
  (CheckDataToSend_sweep h conns).1.1 = conns /\ Forall quiescent conns.
Proof.
  induction conns as [|c rest IH]; simpl; [by split|].
  pose proof (CheckDataToSend_conn_idle h c) as Hc.
  destruct (CheckDataToSend_conn h c) as [[c' o1] a1].
  destruct (CheckDataToSend_sweep h rest) as [[rest' o2] a2]. simpl in *.
  intros Hany. apply orb_false_iff in Hany as [-> ->].
  destruct (Hc eq_refl) as [-> ?], (IH eq_refl) as [-> ?]. by split; [|constructor].
Qed.

Lemma CheckDataToSend_loop_quiescent fuel h conns l o :
  CheckDataToSend_loop fuel h false conns = Some (l, o) -> Forall quiescent l.
Proof.
  revert conns l o. induction fuel as [|fuel IH]; intros conns l o; simpl; [done|].
  pose proof (CheckDataToSend_sweep_idle h conns) as Hidle.
  destruct (CheckDataToSend_sweep h conns) as [[c1 o1] any]. simpl in *.
  destruct any; simpl.
  - destruct (CheckDataToSend_loop fuel h false c1) as [[c2 o2]|] eqn:E; [|done].
    intros [= <- <-]. by eapply IH.
  - intros [= <- <-]. by destruct (Hidle eq_refl) as [-> ?].
Qed.

(** A drain pass that runs to its end leaves every connection quiescent, so
    a connection that then can neither transmit directly nor enqueue has no
    send credits, and an overflowing submission leaves it untouched. *)
Lemma CheckDataToSend_quiescent w w' out :
  CheckDataToSend false w = Some (w', out) -> Forall quiescent (fConn w').
Proof.
  unfold CheckDataToSend.
  destruct (CheckDataToSend_loop _ _ _ _) as [[l o]|] eqn:E; [|done].
  intros [= <- <-]. by eapply CheckDataToSend_loop_quiescent.
Qed.

End Overflow.

(** ** READY on a window with a panel *)

Section Panel.

Lemma fmap_alter_fConnId (f : WebConn -> WebConn) (i : nat) (l : list WebConn) :
  (forall c, l !! i = Some c -> fConnId (f c) = fConnId c) ->
  fConnId <$> alter f i l = fConnId <$> l.
Proof.
  revert i. induction l as [|x l IH]; intros [|i] Hf; simpl; try done.
  - by rewrite (Hf x).
  - f_equal. apply IH. intros c Hc. by apply Hf.
Qed.

Lemma distinct_ids_alter (f : WebConn -> WebConn) (i : nat) (l : list WebConn) :
  (forall c, l !! i = Some c -> fConnId (f c) = fConnId c) ->
  distinct_ids l -> distinct_ids (alter f i l).
Proof.
  intros Hf [Hnd Hnz]. split; [by rewrite fmap_alter_fConnId|].
  apply Forall_alter; [done|]. intros c Hc Hne. by rewrite Hf.
Qed.

(** The window in which the SHOWPANEL directive is submitted, and the
    connection it is submitted to. *)
Lemma accept_key_booked w i conn f key :
  fConn w !! i = Some conn ->
  let w2 := accept_key i key (update_conn i (fun _ => booked conn f) w) in
  let c2 := set_fProcId (default (fProcId conn) (fKeys w !! key)) (booked conn f) in
  fConn w2 !! i = Some c2 /\
  fWSHandler w2 = fWSHandler w /\ fMaxQueueLength w2 = fMaxQueueLength w /\
  (can_transmit w -> can_transmit w2) /\
  (distinct_ids (fConn w) -> distinct_ids (fConn w2)).
Proof.
  intros Hi. cbn zeta. set (w1 := update_conn i (fun _ => booked conn f) w).
  assert (Hi1 : fConn w1 !! i = Some (booked conn f)).
  { simpl. by rewrite list_lookup_alter_eq, Hi. }
  assert (Hw1 : can_transmit w -> can_transmit w1).
  { intros Hw. apply can_transmit_update_conn; [done|]. intros c Hc. by simplify_eq. }
  assert (Hd1 : distinct_ids (fConn w) -> distinct_ids (fConn w1)).
  { intros Hd. apply distinct_ids_alter; [|done]. intros c Hc. by simplify_eq. }
  unfold accept_key. change (fKeys w1) with (fKeys w).
  destruct (fKeys w !! key) as [procid|]; simpl.
  - split; [by rewrite !list_lookup_alter_eq, Hi|]. split; [done|]. split; [done|].
    split.
    + intros Hw. by apply (can_transmit_update_conn w1 i (set_fProcId procid)); auto.
    + intros Hd. apply distinct_ids_alter; [done | by apply Hd1].
  - split; [rewrite list_lookup_alter_eq, Hi; by destruct conn|]. auto.
Qed.

(** A decoded data event of a registered connection reaches lines 250-298. *)
Lemma ProcessWS_data_event w arg i conn f :
  can_transmit w ->
  IsMethod arg "WS_DATA" = true ->
  find_conn (GetWSId arg) (fConn w) = Some i ->
  fConn w !! i = Some conn ->
  0 < GetPostDataLength arg ->
  decode_frame (GetPostData arg) (GetPostDataLength arg) = Accepted f ->
  ProcessWS w arg = ProcessWS_data w i conn f.
Proof.
  intros [_ Hws] Hm Hfind Hi Hlen Hdec.
  assert (Hwsid : GetWSId arg <> 0).
  { apply find_conn_Some in Hfind as (c & Hc & <-). simplify_eq.
    rewrite Forall_forall in Hws. apply Hws. by eapply list_elem_of_lookup_2. }
  unfold ProcessWS. destruct (Z.eqb_spec (GetWSId arg) 0); [done|].
  unfold IsMethod in *. rewrite (IsMethod_true _ _ Hm). simpl.
  rewrite Hfind, Hi. destruct (Z.leb_spec (GetPostDataLength arg) 0); [lia|].
  by rewrite Hdec.
Qed.

(** C2, amended.  On a window with a panel name, a READY on channel 0 from
    a Pending connection that is not turned away (its key is in the Key
    Table, or the window is not native-only) is accepted and moves the
    connection to stage 5.  The directive SHOWPANEL:<name> is submitted
    through [Send], that is as text on channel 1: when the connection's
    queue is empty and it has send credits once the frame's acknowledged
    count is added, the directive is the first thing handed to the
    transport, with channel id 1 in its prefix; when it has no send credit
    and its queue has room, the directive is put at the end of its queue. *)
Theorem ready_submits_showpanel w arg i conn f key :
  can_transmit w ->
  distinct_ids (fConn w) ->
  IsMethod arg "WS_DATA" = true ->
  find_conn (GetWSId arg) (fConn w) = Some i ->
  fConn w !! i = Some conn ->
  0 < GetPostDataLength arg ->
  decode_frame (GetPostData arg) (GetPostDataLength arg) = Accepted f ->
  nchannel f = 0 ->
  cdata f = "READY=" +:+ key ->
  fReady conn = 0 ->
  fPanelName w <> EmptyString ->
  HasKey w key = true \/ IsNativeOnlyConn w = false ->
  exists w' out c',
    ProcessWS w arg = mkResult (Returns true) w' out /\
    fConn w' !! i = Some c' /\ fReady c' = 5 /\
    (fQueue conn = [] -> 0 < to_int (fSendCredits conn + ackn_oper f) ->
     exists rest,
       out = SendCharStarWS (fWSId conn)
               (c_str (frame_prefix (to_int (fRecvCount conn + 1))
                                    (to_int (fSendCredits conn + ackn_oper f)) 1
                       +:+ "SHOWPANEL:" +:+ fPanelName w)) :: rest) /\
    (to_int (fSendCredits conn + ackn_oper f) <= 0 ->
     Z.of_nat (length (fQueue conn)) < fMaxQueueLength w ->
     fQueue c' = fQueue conn ++ [mkItem 1 true ("SHOWPANEL:" +:+ fPanelName w)]).
Proof.
  intros Hw Hd Hm Hfind Hi Hlen Hdec Hch Hcd Hpend Hpanel Hok.
  assert (Hws : fWSId conn <> 0).
  { destruct Hw as [_ Hws]. rewrite Forall_forall in Hws.
    apply Hws. by eapply list_elem_of_lookup_2. }
  rewrite (ProcessWS_data_event w arg i conn f) by done.
  destruct (ready_handshake w i conn f key) as (w' & out & c' & E & _ & Hc' & _ & _ & _ & Hr);
    auto.
  exists w', out, c'. split; [done|]. split; [done|].
  split; [by destruct (decide (fPanelName w = EmptyString))|].
  rewrite (ProcessWS_data_ready w i conn f key) in E by done. cbn zeta in E.
  destruct (accept_key_booked w i conn f key Hi) as (Hi2 & Hh2 & Hm2 & Hw2 & Hd2).
  set (w2 := accept_key i key (update_conn i (fun _ => booked conn f) w)) in *.
  set (c2 := set_fProcId (default (fProcId conn) (fKeys w !! key)) (booked conn f)) in *.
  assert (negb (String.length (fPanelName w) =? 0)%nat = true) as Hlenp.
  { destruct (fPanelName w); done. }
  rewrite Hlenp in E.
  unfold Send, SubmitData in E.
  change (fConnId conn) with (fConnId c2) in E.
  rewrite (SubmitData_loop_single _ _ _ _ _ i c2) in E by auto.
  unfold SubmitData_conn in E.
  change (fQueue c2) with (fQueue conn) in E.
  change (fSendCredits c2) with (to_int (fSendCredits conn + ackn_oper f)) in E.
  rewrite Hh2, Hm2 in E. destruct Hw as [Hh _]. rewrite Hh in E.
  split.
  - intros Hq Hcr. rewrite Hq in E.
    destruct (Z.ltb_spec 0 (to_int (fSendCredits conn + ackn_oper f))); [|lia].
    simpl in E.
    rewrite SendDataViaConnection_sent in E by done.
    change (fWSId c2) with (fWSId conn) in E.
    change (fRecvCount c2) with (to_int (fRecvCount conn + 1)) in E.
    change (fSendCredits c2) with (to_int (fSendCredits conn + ackn_oper f)) in E.
    destruct (CheckDataToSend false _) as [[w3 o3]|]; [|done].
    unfold finish in E. destruct (CheckDataToSend false _) as [[w4 o4]|]; [|done].
    injection E as _ <-. by eexists.
  - intros Hcr Hroom.
    destruct (Z.ltb_spec 0 (to_int (fSendCredits conn + ackn_oper f))); [lia|].
    rewrite andb_false_r in E.
    destruct (Z.ltb_spec (Z.of_nat (length (fQueue conn))) (fMaxQueueLength w)); [|lia].
    set (c3 := set_fQueue (fQueue conn ++ [mkItem 1 true ("SHOWPANEL:" +:+ fPanelName w)]) c2)
      in *.
    assert (Hidle : forall w0 w1 o1 c0,
              CheckDataToSend false w0 = Some (w1, o1) ->
              fConn w0 !! i = Some c0 -> fSendCredits c0 <= 0 ->
              fConn w1 !! i = Some c0).
    { intros w0 w1 o1 c0 E0 Hc0 Hcr0.
      apply CheckDataToSend_drained in E0 as (l & -> & Hdr).
      destruct (Forall2_lookup_l _ _ _ _ _ Hdr Hc0) as (c1 & Hc1 & _ & Hsame).
      simpl. by rewrite Hc1, (Hsame Hcr0). }
    destruct (CheckDataToSend false _) as [[w3 o3]|] eqn:E3; [|done].
    assert (fConn w3 !! i = Some c3) as Hi3.
    { apply (Hidle _ _ _ c3 E3); [|done]. simpl.
      apply list_lookup_insert_eq. by eapply lookup_lt_Some. }
    unfold finish in E.
    destruct (CheckDataToSend false (update_conn i (set_fReady 5) w3))
      as [[w4 o4]|] eqn:E4; [|done].
    assert (fConn w4 !! i = Some (set_fReady 5 c3)) as Hi4.
    { apply (Hidle _ _ _ (set_fReady 5 c3) E4); [|done]. simpl.
      by rewrite list_lookup_alter_eq, Hi3. }
    injection E as <- _. by simplify_eq.
Qed.

Lemma ready_submits_showpanel_witness :
  exists w' out c',
    ProcessWS Sample.fit (data_event 7 "1:0:0:READY=abc") = mkResult (Returns true) w' out /\
    fConn w' !! 0%nat = Some c' /\ fReady c' = 5 /\
    (fQueue (newWebConn 0 1 7) = [] ->
     0 < to_int (fSendCredits (newWebConn 0 1 7) + ackn_oper (mkFrame 1 0 0 "READY=abc")) ->
     exists rest,
       out = SendCharStarWS (fWSId (newWebConn 0 1 7))
               (c_str (frame_prefix (to_int (fRecvCount (newWebConn 0 1 7) + 1))
                         (to_int (fSendCredits (newWebConn 0 1 7)
                                  + ackn_oper (mkFrame 1 0 0 "READY=abc"))) 1
                       +:+ "SHOWPANEL:" +:+ fPanelName Sample.fit)) :: rest) /\
    (to_int (fSendCredits (newWebConn 0 1 7) + ackn_oper (mkFrame 1 0 0 "READY=abc")) <= 0 ->
     Z.of_nat (length (fQueue (newWebConn 0 1 7))) < fMaxQueueLength Sample.fit ->
     fQueue c' = fQueue (newWebConn 0 1 7)
                 ++ [mkItem 1 true ("SHOWPANEL:" +:+ fPanelName Sample.fit)]).
Proof.
  apply (ready_submits_showpanel Sample.fit (data_event 7 "1:0:0:READY=abc") 0%nat
           (newWebConn 0 1 7) (mkFrame 1 0 0 "READY=abc") "abc").
  - split; [reflexivity|]. repeat constructor. done.
  - split; [|repeat constructor; done]. apply NoDup_singleton.
  - reflexivity.
  - reflexivity.
  - reflexivity.
  - done.
  - reflexivity.
  - reflexivity.
  - reflexivity.
  - reflexivity.
  - done.
  - left. reflexivity.
Defined.

(** C2 as stated fails on the channel: the directive leaves with channel
    id 1 in its prefix, not on the system channel 0. *)
Lemma showpanel_leaves_on_channel_1 :
  effects (ProcessWS Sample.fit (data_event 7 "1:0:0:READY=abc")) =
    [SendCharStarWS 7 "1:1:1:SHOWPANEL:fit"] /\
  decode_frame "1:1:1:SHOWPANEL:fit" (Zlength "1:1:1:SHOWPANEL:fit") =
    Accepted (mkFrame 1 1 1 "SHOWPANEL:fit") /\
  "1:1:1:SHOWPANEL:fit" <> frame_prefix 1 1 0 +:+ "SHOWPANEL:fit".
Proof. split; [reflexivity|]. split; [reflexivity|]. discriminate. Qed.






End Panel.

(** ** Order of transmission on one connection *)

Section Order.

Lemma wire_order_trans wsid q1 es1 q2 es2 q3 :
  wire_order wsid q1 es1 q2 -> wire_order wsid q2 es2 q3 ->
  wire_order wsid q1 (es1 ++ es2) q3.
Proof.
  induction 1 as [q|it q e es q' Hf _ IH|q e es q' Hf _ IH]; intros H2; simpl.
  - done.
  - apply wire_item; auto.
  - apply wire_keepalive; auto.
Qed.

Lemma wire_order_frame wsid q es q' more :
  wire_order wsid q es q' -> wire_order wsid (q ++ more) es (q' ++ more).
Proof.
  induction 1 as [q|it q e es q' Hf _ IH|q e es q' Hf _ IH]; simpl.
  - apply wire_done.
  - by apply wire_item.
  - by apply wire_keepalive.
Qed.

Lemma events_for_app wsid out1 out2 :
  events_for wsid (out1 ++ out2) = events_for wsid out1 ++ events_for wsid out2.
Proof. apply filter_app. Qed.

Lemma events_for_foreign wsid out : foreign wsid out -> events_for wsid out = [].
Proof.
  induction 1 as [|e out He _ IH]; [done|].
  unfold events_for in *. rewrite filter_cons. by destruct (decide _).
Qed.

Lemma foreign_app wsid out1 out2 :
  foreign wsid out1 -> foreign wsid out2 -> foreign wsid (out1 ++ out2).
Proof. intros. by apply Forall_app. Qed.

Lemma SendDataViaConnection_foreign wsid h c txt data chid :
  fWSId c <> wsid -> foreign wsid (SendDataViaConnection h c txt data chid).2.
Proof.
  intros Hne. unfold SendDataViaConnection.
  destruct (_ || _); [by repeat constructor|].
  destruct (_ <=? _); [by repeat constructor|].
  destruct txt; repeat constructor; simpl; congruence.
Qed.

Lemma CheckDataToSend_conn_foreign wsid h c :
  fWSId c <> wsid -> foreign wsid (CheckDataToSend_conn h c).1.2.
Proof.
  intros Hne. unfold CheckDataToSend_conn.
  destruct (_ <=? _); [constructor|].
  destruct (fQueue c) as [|item rest].
  - destruct (_ && _); [|constructor].
    pose proof (SendDataViaConnection_foreign wsid h c true "KEEPALIVE" 0 Hne).
    by destruct (SendDataViaConnection _ _ _ _ _).
  - pose proof (SendDataViaConnection_foreign wsid h c (fText item) (fData item)
                  (fChID item) Hne).
    by destruct (SendDataViaConnection _ _ _ _ _).
Qed.

Lemma CheckDataToSend_sweep_foreign wsid h conns :
  wsid ∉ fWSId <$> conns -> foreign wsid (CheckDataToSend_sweep h conns).1.2.
Proof.
  induction conns as [|c rest IH]; intros Hnin; simpl; [constructor|].
  rewrite fmap_cons in Hnin. apply not_elem_of_cons in Hnin as [Hne Hnin].
  pose proof (CheckDataToSend_conn_foreign wsid h c ltac:(congruence)) as Hc.
  specialize (IH Hnin).
  destruct (CheckDataToSend_conn h c) as [[c' o1] a1].
  destruct (CheckDataToSend_sweep h rest) as [[rest' o2] a2].
  by apply foreign_app.
Qed.

Lemma SubmitData_conn_foreign wsid h maxq txt chid c cnt data :
  fWSId c <> wsid -> foreign wsid (SubmitData_conn h maxq txt chid c cnt data).2.
Proof.
  intros Hne. unfold SubmitData_conn.
  destruct (_ && _).
  - pose proof (SendDataViaConnection_foreign wsid h c txt data chid Hne).
    by destruct (SendDataViaConnection _ _ _ _ _).
  - destruct (_ <? _); by repeat constructor.
Qed.

Lemma SubmitData_loop_foreign wsid h maxq connid txt chid conns cnt data :
  wsid ∉ fWSId <$> conns ->
  foreign wsid (SubmitData_loop h maxq connid txt chid conns cnt data).2.
Proof.
  revert cnt data. induction conns as [|c rest IH]; intros cnt data Hnin; simpl;
    [constructor|].
  rewrite fmap_cons in Hnin. apply not_elem_of_cons in Hnin as [Hne Hnin].
  destruct (_ && _).
  { specialize (IH cnt data Hnin).
    by destruct (SubmitData_loop h maxq connid txt chid rest cnt data) as [[[r1 k1] d1] o1]. }
  pose proof (SubmitData_conn_foreign wsid h maxq txt chid c cnt data ltac:(congruence)) as Hc.
  destruct (SubmitData_conn h maxq txt chid c cnt data) as [[[c' k] d] o0].
  specialize (IH k d Hnin).
  destruct (SubmitData_loop h maxq connid txt chid rest k d) as [[[r1 k1] d1] o1].
  by apply foreign_app.
Qed.

(** A transmission shows as the frame of its item. *)
Lemma sent_frame c txt data chid :
  fWSId c <> 0 -> 0 < fSendCredits c ->
  exists e,
    events_for (fWSId c) (SendDataViaConnection true c txt data chid).2 = [e] /\
    frame_of (fWSId c) (mkItem chid txt data) e.
Proof.
  intros Hws Hcr. rewrite SendDataViaConnection_sent by done. simpl.
  unfold events_for. rewrite filter_cons.
  destruct txt; simpl; rewrite decide_True by done;
    (eexists; split; [reflexivity|]);
    by exists (fRecvCount c), (fSendCredits c).
Qed.

(** One turn of a connection in the drain loop: nothing, or the front item
    goes out, or a keep-alive does. *)
Lemma CheckDataToSend_conn_order c :
  fWSId c <> 0 ->
  let r := CheckDataToSend_conn true c in
  wire_order (fWSId c) (fQueue c) (events_for (fWSId c) r.1.2) (fQueue r.1.1).
Proof.
  intros Hws. unfold CheckDataToSend_conn.
  destruct (Z.leb_spec (fSendCredits c) 0) as [|Hcr]; [apply wire_done|].
  destruct (fQueue c) as [|item rest] eqn:Hq.
  - destruct (_ && _); [|simpl; rewrite Hq; apply wire_done].
    destruct (sent_frame c true "KEEPALIVE" 0 Hws Hcr) as (e & He & Hf).
    pose proof (SendDataViaConnection_queue true c true "KEEPALIVE" 0) as Hs.
    destruct (SendDataViaConnection _ _ _ _ _) as [c' o]. simpl in *.
    rewrite He, Hs, Hq. apply wire_keepalive; [done | apply wire_done].
  - destruct (sent_frame c (fText item) (fData item) (fChID item) Hws Hcr) as (e & He & Hf).
    destruct (SendDataViaConnection _ _ _ _ _) as [c' o]. simpl in *.
    rewrite He. apply wire_item; [by destruct item | apply wire_done].
Qed.

Lemma Forall2_same_identity_wsids l l' :
  Forall2 same_identity l l' -> fWSId <$> l' = fWSId <$> l.
Proof. induction 1 as [|c c' l l' (?&?&?) _ IH]; [done|]. rewrite !fmap_cons. by f_equal. Qed.

Lemma Forall2_same_identity_ids l l' :
  Forall2 same_identity l l' -> fConnId <$> l' = fConnId <$> l.
Proof. induction 1 as [|c c' l l' (?&?) _ IH]; [done|]. rewrite !fmap_cons. by f_equal. Qed.

Lemma lookup_wsid_elem (conns : list WebConn) i c :
  conns !! i = Some c -> fWSId c ∈ fWSId <$> conns.
Proof. intros Hi. apply list_elem_of_fmap_2. by eapply list_elem_of_lookup_2. Qed.

(** One sweep, seen from the connection at position [i]. *)
Lemma CheckDataToSend_sweep_order conns i c :
  Forall (fun c => fWSId c <> 0) conns ->
  NoDup (fWSId <$> conns) ->
  conns !! i = Some c ->
  let r := CheckDataToSend_sweep true conns in
  exists c',
    r.1.1 !! i = Some c' /\
    wire_order (fWSId c) (fQueue c) (events_for (fWSId c) r.1.2) (fQueue c').
Proof.
  intros Hws. revert i. induction Hws as [|x rest Hx Hrest IH]; intros i Hnd Hi; [done|].
  rewrite fmap_cons in Hnd. apply NoDup_cons in Hnd as [Hnin Hnd]. simpl.
  pose proof (CheckDataToSend_conn_order x Hx) as Hxo.
  destruct i as [|i]; simpl in Hi.
  - injection Hi as ->.
    pose proof (CheckDataToSend_sweep_foreign (fWSId c) true rest Hnin) as Hf.
    destruct (CheckDataToSend_conn true c) as [[c' o1] a1].
    destruct (CheckDataToSend_sweep true rest) as [[rest' o2] a2].
    simpl in *. exists c'. split; [done|].
    by rewrite events_for_app, (events_for_foreign _ o2), app_nil_r.
  - assert (fWSId x <> fWSId c) as Hne.
    { intros Heq. apply Hnin. rewrite Heq. by eapply lookup_wsid_elem. }
    pose proof (CheckDataToSend_conn_foreign (fWSId c) true x Hne) as Hf.
    destruct (IH i Hnd Hi) as (c' & Hc' & Ho).
    destruct (CheckDataToSend_conn true x) as [[x' o1] a1].
    destruct (CheckDataToSend_sweep true rest) as [[rest' o2] a2].
    simpl in *. exists c'. split; [done|].
    by rewrite events_for_app, (events_for_foreign _ o1).
Qed.

(** The whole drain loop, seen from the connection at position [i]: its
    queue leaves from the front, in order. *)
Lemma CheckDataToSend_loop_order fuel once conns conns' out i c :
  Forall (fun c => fWSId c <> 0) conns ->
  NoDup (fWSId <$> conns) ->
  conns !! i = Some c ->
  CheckDataToSend_loop fuel true once conns = Some (conns', out) ->
  exists c',
    conns' !! i = Some c' /\
    wire_order (fWSId c) (fQueue c) (events_for (fWSId c) out) (fQueue c').
Proof.
  revert conns conns' out c.
  induction fuel as [|fuel IH]; intros conns conns' out c Hws Hnd Hi; simpl; [done|].
  destruct (CheckDataToSend_sweep_order conns i c Hws Hnd Hi) as (c1 & Hc1 & Ho1).
  pose proof (CheckDataToSend_sweep_identity true conns) as Hid.
  destruct (CheckDataToSend_sweep true conns) as [[l1 o1] any]. simpl in *.
  destruct (any && negb once).
  - destruct (CheckDataToSend_loop fuel true once l1) as [[l2 o2]|] eqn:E; [|done].
    intros [= <- <-].
    destruct (Forall2_same_identity_lookup _ _ _ _ Hid Hi) as (c1' & Hc1' & (_ & Hw1 & _)).
    simplify_eq.
    destruct (IH l1 l2 o2 c1) as (c2 & Hc2 & Ho2); try done.
    { by eapply Forall2_same_identity_wsid. }
    { by rewrite (Forall2_same_identity_wsids _ _ Hid). }
    exists c2. split; [done|]. rewrite events_for_app.
    eapply wire_order_trans; [done|]. by rewrite <- Hw1.
  - intros [= <- <-]. by exists c1.
Qed.

Lemma negb_targeted connid c :
  negb (connid =? 0) && negb (connid =? fConnId c) = negb (targeted connid c).
Proof. unfold targeted. by rewrite negb_orb. Qed.

Lemma SubmitData_loop_untargeted h maxq connid txt chid conns cnt d :
  targets connid conns = O ->
  SubmitData_loop h maxq connid txt chid conns cnt d = (conns, cnt, d, []).
Proof.
  induction conns as [|x rest IH]; intros Hz; simpl in *; [done|].
  rewrite negb_targeted. destruct (targeted connid x); [done|].
  simpl. by rewrite IH.
Qed.

(** The loop body of [SubmitData] on a connection: the item goes out at
    once from an empty queue, or to the end of the queue, or nowhere. *)
Lemma SubmitData_conn_order maxq txt chid c cnt data :
  fWSId c <> 0 ->
  let r := SubmitData_conn true maxq txt chid c cnt data in
  exists accepted,
    accepted `sublist_of` [mkItem chid txt data] /\
    wire_order (fWSId c) (fQueue c ++ accepted) (events_for (fWSId c) r.2)
               (fQueue r.1.1.1).
Proof.
  intros Hws. unfold SubmitData_conn.
  destruct ((length (fQueue c) =? 0)%nat && (0 <? fSendCredits c)) eqn:Hd.
  - apply andb_true_iff in Hd as [Hq Hcr].
    apply Nat.eqb_eq in Hq. apply Z.ltb_lt in Hcr.
    destruct (fQueue c) eqn:Hqc; [|done].
    destruct (sent_frame c txt data chid Hws Hcr) as (e & He & Hf).
    pose proof (SendDataViaConnection_queue true c txt data chid) as Hs.
    destruct (SendDataViaConnection _ _ _ _ _) as [c' o]. simpl in *.
    exists [mkItem chid txt data]. split; [done|].
    rewrite He, Hs, Hqc. apply wire_item; [done | apply wire_done].
  - destruct (Z.of_nat (length (fQueue c)) <? maxq); simpl.
    + exists [mkItem chid txt data]. split; [done | apply wire_done].
    + exists []. split; [apply sublist_nil_l|]. rewrite app_nil_r. apply wire_done.
Qed.

Lemma SubmitData_conn_counter h maxq txt chid c cnt data :
  1 <= cnt <= INT_MAX ->
  let r := SubmitData_conn h maxq txt chid c cnt data in
  (r.1.1.2 = cnt /\ r.1.2 = data) \/
  (r.1.1.2 = cnt - 1 /\ r.1.2 = if cnt - 1 =? 0 then EmptyString else data).
Proof.
  intros Hcnt. unfold SubmitData_conn.
  destruct (_ && _).
  - destruct (SendDataViaConnection _ _ _ _ _). by left.
  - destruct (_ <? _); simpl; [|by left].
    right. by rewrite to_int_small by lia.
Qed.

(** The loop of [SubmitData], seen from the connection at position [i]. *)
Lemma SubmitData_loop_order maxq connid txt chid data conns :
  forall i c cnt dcur,
    Forall (fun c => fWSId c <> 0) conns ->
    NoDup (fWSId <$> conns) ->
    conns !! i = Some c ->
    targets connid conns = O \/
      (dcur = data /\ Z.of_nat (targets connid conns) <= cnt <= INT_MAX) ->
    let r := SubmitData_loop true maxq connid txt chid conns cnt dcur in
    exists c1 accepted,
      r.1.1.1 !! i = Some c1 /\
      accepted `sublist_of`
        (if targeted connid c then [mkItem chid txt data] else []) /\
      wire_order (fWSId c) (fQueue c ++ accepted) (events_for (fWSId c) r.2)
                 (fQueue c1).
Proof.
  induction conns as [|x rest IH]; intros i c cnt dcur Hws Hnd Hi Hinv; [done|].
  destruct Hinv as [Hz | [-> Hcnt]].
  { cbn zeta. rewrite SubmitData_loop_untargeted by done. simpl.
    exists c, []. split; [done|]. split; [apply sublist_nil_l|].
    rewrite app_nil_r. apply wire_done. }
  apply Forall_cons in Hws as [Hx Hws].
  rewrite fmap_cons in Hnd. apply NoDup_cons in Hnd as [Hnin Hnd].
  simpl. rewrite negb_targeted. simpl in Hcnt.
  destruct (targeted connid x) eqn:Ht; simpl.
  - pose proof (SubmitData_conn_order maxq txt chid x cnt data Hx) as Hxo.
    pose proof (SubmitData_conn_counter true maxq txt chid x cnt data ltac:(lia)) as Hk.
    pose proof (fun H => SubmitData_conn_foreign (fWSId c) true maxq txt chid x cnt data H)
      as Hxf.
    destruct (SubmitData_conn true maxq txt chid x cnt data) as [[[x' k] d] o0].
    simpl in Hxo, Hk, Hxf.
    assert (targets connid rest = O \/
            (d = data /\ Z.of_nat (targets connid rest) <= k <= INT_MAX)) as Hrest.
    { destruct Hk as [[-> ->] | [-> ->]]; [right; split; [done | lia]|].
      destruct (Z.eqb_spec (cnt - 1) 0); [left; lia | right; split; [done | lia]]. }
    destruct i as [|i]; simpl in Hi.
    + injection Hi as ->. rewrite Ht.
      pose proof (SubmitData_loop_foreign (fWSId c) true maxq connid txt chid rest k d Hnin)
        as Hf.
      destruct (SubmitData_loop true maxq connid txt chid rest k d) as [[[r1 k1] d1] o1].
      simpl in *. destruct Hxo as (accepted & Hsub & Ho).
      exists x', accepted. split; [done|]. split; [done|].
      by rewrite events_for_app, (events_for_foreign _ o1), app_nil_r.
    + assert (fWSId x <> fWSId c) as Hne.
      { intros Heq. apply Hnin. rewrite Heq. by eapply lookup_wsid_elem. }
      destruct (IH i c k d Hws Hnd Hi Hrest) as (c1 & accepted & Hc1 & Hsub & Ho).
      destruct (SubmitData_loop true maxq connid txt chid rest k d) as [[[r1 k1] d1] o1].
      simpl in *. exists c1, accepted. split; [done|]. split; [done|].
      by rewrite events_for_app, (events_for_foreign _ o0) by auto.
  - destruct i as [|i]; simpl in Hi.
    + injection Hi as ->. rewrite Ht.
      pose proof (SubmitData_loop_foreign (fWSId c) true maxq connid txt chid rest cnt data
                    Hnin) as Hf.
      destruct (SubmitData_loop true maxq connid txt chid rest cnt data) as [[[r1 k1] d1] o1].
      simpl in *. exists c, []. split; [done|]. split; [done|].
      rewrite (events_for_foreign _ o1), app_nil_r by done. apply wire_done.
    + destruct (IH i c cnt data Hws Hnd Hi) as (c1 & accepted & Hc1 & Hsub & Ho).
      { right. split; [done | lia]. }
      destruct (SubmitData_loop true maxq connid txt chid rest cnt data) as [[[r1 k1] d1] o1].
      simpl in *. by exists c1, accepted.
Qed.

Lemma in_order_set_fConn w conns' :
  in_order w -> Forall2 same_identity (fConn w) conns' ->
  in_order (set_fConn conns' w).
Proof.
  intros (Hw & [Hnd Hnz] & Hws & Hlen) Hid.
  split; [by apply can_transmit_set_fConn|]. simpl.
  split; [split|split].
  - by rewrite (Forall2_same_identity_ids _ _ Hid).
  - clear -Hid Hnz. induction Hid as [|c c' l l' (Hc & _) _ IH]; [constructor|].
    inversion Hnz; subst. constructor; [congruence | auto].
  - by rewrite (Forall2_same_identity_wsids _ _ Hid).
  - by rewrite <- (Forall2_length _ _ _ Hid).
Qed.

Lemma targets_broadcast conns : targets 0 conns = length conns.
Proof. induction conns as [|x rest IH]; simpl; [done | by rewrite IH]. Qed.

Lemma targets_single connid conns :
  connid <> 0 -> distinct_ids conns -> (targets connid conns <= 1)%nat.
Proof.
  intros Hid. induction conns as [|x rest IH]; intros Hd; simpl; [lia|].
  apply distinct_ids_cons in Hd as (Hx & Hrest & Hd). specialize (IH Hd).
  unfold targeted at 1. destruct (Z.eqb_spec connid 0); [done|].
  destruct (Z.eqb_spec connid (fConnId x)) as [->|]; simpl; [|lia].
  assert (targets (fConnId x) rest = O) as ->; [|lia].
  clear IH Hd. induction Hrest as [|y rest Hy _ IH]; simpl; [done|].
  unfold targeted at 1. destruct (Z.eqb_spec (fConnId x) 0); [done|].
  destruct (Z.eqb_spec (fConnId x) (fConnId y)); [congruence|]. simpl. done.
Qed.

(** A drain pass, seen from one connection. *)
Lemma CheckDataToSend_order once w i c :
  in_order w -> fConn w !! i = Some c ->
  exists w' out c',
    CheckDataToSend once w = Some (w', out) /\
    in_order w' /\ fConn w' !! i = Some c' /\ same_identity c c' /\
    wire_order (fWSId c) (fQueue c) (events_for (fWSId c) out) (fQueue c').
Proof.
  intros Hord Hi. pose proof Hord as ([Hh Hws] & _ & Hnd & _).
  destruct (CheckDataToSend_returns once w (conj Hh Hws)) as (conns' & out & E & Hid & _).
  exists (set_fConn conns' w), out.
  pose proof E as E'. unfold CheckDataToSend in E'. rewrite Hh in E'.
  destruct (CheckDataToSend_loop _ _ _ _) as [[l o]|] eqn:El; [|done].
  injection E' as <- <-.
  destruct (CheckDataToSend_loop_order _ _ _ _ _ i c Hws Hnd Hi El) as (c' & Hc' & Ho).
  destruct (Forall2_same_identity_lookup _ _ _ _ Hid Hi) as (c'' & Hc'' & Hsame).
  simplify_eq. exists c'.
  split; [done|]. split; [by apply in_order_set_fConn|]. done.
Qed.

(** A submission, seen from one connection. *)
Lemma SubmitData_order w connid txt data chid i c :
  in_order w -> fConn w !! i = Some c ->
  exists w' out c' accepted,
    SubmitData w connid txt data chid = Some (w', out) /\
    in_order w' /\ fConn w' !! i = Some c' /\ same_identity c c' /\
    accepted `sublist_of` submitted_to (fConnId c) (CallSubmitData connid txt data chid) /\
    wire_order (fWSId c) (fQueue c ++ accepted) (events_for (fWSId c) out) (fQueue c').
Proof.
  intros Hord Hi. pose proof Hord as ([Hh Hws] & Hd & Hnd & Hlen).
  unfold SubmitData. rewrite Hh.
  set (cnt := if connid =? 0 then to_int (Z.of_nat (length (fConn w))) else 1).
  assert (Z.of_nat (targets connid (fConn w)) <= cnt <= INT_MAX) as Hcnt.
  { subst cnt. destruct (Z.eqb_spec connid 0) as [->|Hne].
    - rewrite targets_broadcast, to_int_small by lia. lia.
    - pose proof (targets_single connid (fConn w) Hne Hd). unfold INT_MAX. lia. }
  destruct (SubmitData_loop_order (fMaxQueueLength w) connid txt chid data (fConn w)
              i c cnt data Hws Hnd Hi (or_intror (conj eq_refl Hcnt)))
    as (c1 & accepted & Hc1 & Hsub & Ho1).
  pose proof (SubmitData_loop_spec true (fMaxQueueLength w) connid txt chid (fConn w)
                cnt data) as [Hid1 _].
  destruct (SubmitData_loop true (fMaxQueueLength w) connid txt chid (fConn w) cnt data)
    as [[[l1 k1] d1] o1].
  simpl in Hc1, Ho1, Hid1.
  assert (in_order (set_fConn l1 w)) as Hord1 by (by apply in_order_set_fConn).
  destruct (Forall2_same_identity_lookup _ _ _ _ Hid1 Hi) as (c1' & Hc1' & Hsame1).
  simplify_eq.
  destruct (CheckDataToSend_order false (set_fConn l1 w) i c1 Hord1 Hc1)
    as (w' & o2 & c' & E & Hord' & Hc' & Hsame2 & Ho2).
  rewrite E. exists w', (o1 ++ o2), c', accepted.
  split; [done|]. split; [done|]. split; [done|].
  split; [by eapply same_identity_trans|].
  split; [done|].
  rewrite events_for_app. eapply wire_order_trans; [done|].
  destruct Hsame1 as (_ & <- & _). done.
Qed.

Lemma call_order w cl i c :
  in_order w -> fConn w !! i = Some c -> is_send_call cl = true ->
  exists w' out c' accepted,
    call w cl = Some (w', out) /\
    in_order w' /\ fConn w' !! i = Some c' /\ same_identity c c' /\
    accepted `sublist_of` submitted_to (fConnId c) cl /\
    wire_order (fWSId c) (fQueue c ++ accepted) (events_for (fWSId c) out) (fQueue c').
Proof.
  intros Hord Hi Hcl. destruct cl as [arg|connid txt data chid|once]; [done| |]; simpl.
  - by apply SubmitData_order.
  - destruct (CheckDataToSend_order once w i c Hord Hi) as (w' & out & c' & E & ? & ? & ? & ?).
    exists w', out, c', []. rewrite app_nil_r. done.
Qed.

(** C7.  On a window in working order, every sequence of submissions and
    drain passes comes back, and for each connection: of the items submitted
    to it (to its id, or to all), in the order of the calls, some are
    accepted (the others met a full queue); the frames handed to the
    transport for its websocket transmit the items of its former queue
    followed by the accepted ones, from the front, one after the other and
    without a gap, keep-alives apart; what has not been transmitted is its
    queue afterwards. *)
Theorem per_connection_order cs w i c :
  in_order w ->
  fConn w !! i = Some c ->
  Forall (fun cl => is_send_call cl = true) cs ->
  exists w' out c' accepted,
    run w cs = Some (w', out) /\
    fConn w' !! i = Some c' /\ same_identity c c' /\
    accepted `sublist_of` (cs ≫= submitted_to (fConnId c)) /\
    wire_order (fWSId c) (fQueue c ++ accepted) (events_for (fWSId c) out) (fQueue c').
Proof.
  revert w c. induction cs as [|cl cs IH]; intros w c Hord Hi Hcs; simpl.
  { exists w, [], c, []. rewrite app_nil_r.
    split; [done|]. split; [done|]. split; [apply same_identity_refl|].
    split; [done | apply wire_done]. }
  apply Forall_cons in Hcs as [Hcl Hcs].
  destruct (call_order w cl i c Hord Hi Hcl)
    as (w1 & o1 & c1 & a1 & E1 & Hord1 & Hc1 & Hsame1 & Hsub1 & Ho1).
  destruct (IH w1 c1 Hord1 Hc1 Hcs) as (w2 & o2 & c2 & a2 & E2 & Hc2 & Hsame2 & Hsub2 & Ho2).
  rewrite E1, E2. exists w2, (o1 ++ o2), c2, (a1 ++ a2).
  pose proof Hsame1 as (Hid & Hws & _). rewrite Hid in Hsub2. rewrite Hws in Ho2.
  split; [done|]. split; [done|]. split; [by eapply same_identity_trans|].
  split; [by apply sublist_app|].
  rewrite events_for_app, app_assoc.
  eapply wire_order_trans; [by apply wire_order_frame | done].
Qed.

Lemma per_connection_order_witness :
  exists w' out c' accepted,
    run Sample.duo Sample.traffic = Some (w', out) /\
    fConn w' !! 0%nat = Some c' /\ same_identity (newWebConn 2 1 7) c' /\
    accepted `sublist_of` (Sample.traffic ≫= submitted_to (fConnId (newWebConn 2 1 7))) /\
    wire_order (fWSId (newWebConn 2 1 7)) (fQueue (newWebConn 2 1 7) ++ accepted)
      (events_for (fWSId (newWebConn 2 1 7)) out) (fQueue c').
Proof.
  apply (per_connection_order Sample.traffic Sample.duo 0%nat (newWebConn 2 1 7)).
  - split; [split; [reflexivity|]|split; [split|split]].
    + repeat constructor; done.
    + apply (bool_decide_unpack _). vm_compute. exact I.
    + repeat constructor; done.
    + apply (bool_decide_unpack _). vm_compute. exact I.
    + vm_compute. discriminate.
  - reflexivity.
  - repeat constructor.
Defined.

End Order.

(** ** Send credits *)

Section Credits.

(** A frame goes to the transport only from a connection with send credits,
    and costs it one. *)
Lemma transmission_needs_credit h c txt data chid c' e :
  SendDataViaConnection h c txt data chid = (c', [e]) ->
  effect_wsid e <> None ->
  0 < fSendCredits c /\ fSendCredits c' = to_int (fSendCredits c - 1).
Proof.
  unfold SendDataViaConnection.
  destruct (_ || _); [by intros [= <- <-] []|].
  destruct (Z.leb_spec (fSendCredits c) 0); [by intros [= <- <-] []|].
  destruct txt; intros [= <- <-] _; done.
Qed.

(** Booking an acknowledged count that keeps the sum within [int] adds it
    to the credits. *)
Lemma booked_credits_in_range conn f :
  0 <= fSendCredits conn -> 0 <= ackn_oper f ->
  fSendCredits conn + ackn_oper f <= INT_MAX ->
  fSendCredits (booked conn f) = fSendCredits conn + ackn_oper f.
Proof. intros. simpl. apply to_int_small. lia. Qed.

(** C4 at its failing input.  The connection of [Sample.plain] has no send
    credit; the peer acknowledges 2147483648 operations in one frame; the
    sum does not fit the [int] counter, and the connection is left with a
    negative number of send credits. *)
Theorem send_credits_wrap_negative :
  fSendCredits <$> fConn Sample.plain = [0] /\
  decode_frame "2147483648:0:1:x" (Zlength "2147483648:0:1:x") =
    Accepted (mkFrame 2147483648 0 1 "x") /\
  outcome (ProcessWS Sample.plain (data_event 7 "2147483648:0:1:x")) = Returns true /\
  fSendCredits <$> fConn (window (ProcessWS Sample.plain (data_event 7 "2147483648:0:1:x")))
    = [-2147483648].
Proof. repeat split. Qed.

Lemma SendDataViaConnection_credits h c txt data chid :
  credits_ok c -> credits_ok (SendDataViaConnection h c txt data chid).1.
Proof.
  unfold credits_ok, SendDataViaConnection. intros Hc.
  destruct (_ || _); [done|].
  destruct (Z.leb_spec (fSendCredits c) 0); [done|].
  destruct txt; simpl; rewrite to_int_small; lia.
Qed.

Lemma CheckDataToSend_conn_credits h c :
  credits_ok c -> credits_ok (CheckDataToSend_conn h c).1.1.
Proof.
  intros Hc. unfold CheckDataToSend_conn.
  destruct (_ <=? _); [done|].
  destruct (fQueue c) as [|item rest].
  - destruct (_ && _); [|done].
    pose proof (SendDataViaConnection_credits h c true "KEEPALIVE" 0 Hc).
    by destruct (SendDataViaConnection _ _ _ _ _).
  - pose proof (SendDataViaConnection_credits h c (fText item) (fData item) (fChID item) Hc).
    by destruct (SendDataViaConnection _ _ _ _ _).
Qed.

Lemma CheckDataToSend_sweep_credits h conns :
  Forall credits_ok conns -> Forall credits_ok (CheckDataToSend_sweep h conns).1.1.
Proof.
  induction 1 as [|c rest Hc _ IH]; simpl; [constructor|].
  pose proof (CheckDataToSend_conn_credits h c Hc).
  destruct (CheckDataToSend_conn h c) as [[c' o1] a1].
  destruct (CheckDataToSend_sweep h rest) as [[rest' o2] a2].
  by constructor.
Qed.

Lemma CheckDataToSend_loop_credits fuel h once conns conns' out :
  Forall credits_ok conns ->
  CheckDataToSend_loop fuel h once conns = Some (conns', out) ->
  Forall credits_ok conns'.
Proof.
  revert conns conns' out.
  induction fuel as [|fuel IH]; intros conns conns' out Hc; simpl; [done|].
  pose proof (CheckDataToSend_sweep_credits h conns Hc) as H1.
  destruct (CheckDataToSend_sweep h conns) as [[c1 o1] any]. simpl in *.
  destruct (any && negb once).
  - destruct (CheckDataToSend_loop fuel h once c1) as [[c2 o2]|] eqn:E; [|done].
    intros [= <- <-]. eauto.
  - by intros [= <- <-].
Qed.

Lemma CheckDataToSend_credits once w w' out :
  Forall credits_ok (fConn w) -> CheckDataToSend once w = Some (w', out) ->
  Forall credits_ok (fConn w').
Proof.
  intros Hc. unfold CheckDataToSend.
  destruct (CheckDataToSend_loop _ _ _ _) as [[l o]|] eqn:E; [|done].
  intros [= <- <-]. by eapply CheckDataToSend_loop_credits.
Qed.

Lemma SubmitData_loop_credits h maxq connid txt chid conns cnt data :
  Forall credits_ok conns ->
  Forall credits_ok (SubmitData_loop h maxq connid txt chid conns cnt data).1.1.1.
Proof.
  intros Hc. revert cnt data.
  induction Hc as [|c rest Hc _ IH]; intros cnt data; simpl; [constructor|].
  destruct (_ && _).
  { specialize (IH cnt data).
    destruct (SubmitData_loop h maxq connid txt chid rest cnt data) as [[[r1 k1] d1] o1].
    by constructor. }
  assert (credits_ok (SubmitData_conn h maxq txt chid c cnt data).1.1.1) as Hc'.
  { unfold SubmitData_conn. destruct (_ && _).
    - pose proof (SendDataViaConnection_credits h c txt data chid Hc).
      by destruct (SendDataViaConnection _ _ _ _ _).
    - by destruct (_ <? _). }
  destruct (SubmitData_conn h maxq txt chid c cnt data) as [[[c' k] d] o0].
  specialize (IH k d).
  destruct (SubmitData_loop h maxq connid txt chid rest k d) as [[[r1 k1] d1] o1].
  by constructor.
Qed.

Lemma SubmitData_credits w connid txt data chid w' out :
  Forall credits_ok (fConn w) -> SubmitData w connid txt data chid = Some (w', out) ->
  Forall credits_ok (fConn w').
Proof.
  intros Hc. unfold SubmitData.
  match goal with |- context [SubmitData_loop ?h ?m ?i ?t ?c ?l ?k ?d] =>
    pose proof (SubmitData_loop_credits h m i t c l k d Hc) as Hl;
    destruct (SubmitData_loop h m i t c l k d) as [[[l1 k1] d1] o1] end.
  destruct (CheckDataToSend false _) as [[w2 o2]|] eqn:E; [|done].
  intros [= <- <-]. eapply CheckDataToSend_credits; [|exact E]. exact Hl.
Qed.

(** Without the narrowing at line 250, the counter stays a number of
    frames: an inbound data frame whose acknowledged count keeps the sum
    within [int] leaves every connection with send credits between 0 and
    [INT_MAX]. *)
Lemma ProcessWS_data_credits w i conn f :
  Forall credits_ok (fConn w) ->
  fConn w !! i = Some conn ->
  0 <= ackn_oper f ->
  fSendCredits conn + ackn_oper f <= INT_MAX ->
  Forall credits_ok (fConn (window (ProcessWS_data w i conn f))).
Proof.
  intros Hall Hi Hack Hsum. unfold ProcessWS_data.
  assert (Hconn : credits_ok conn).
  { rewrite Forall_forall in Hall. apply Hall. by eapply list_elem_of_lookup_2. }
  set (w1 := update_conn i (fun _ => booked conn f) w).
  assert (H1 : Forall credits_ok (fConn w1)).
  { simpl. apply Forall_alter; [done|]. intros c _ _.
    unfold credits_ok in *. rewrite booked_credits_in_range by lia. lia. }
  assert (Hup : forall (g : WebConn -> WebConn) w0,
            (forall c, fSendCredits (g c) = fSendCredits c) ->
            Forall credits_ok (fConn w0) -> Forall credits_ok (fConn (update_conn i g w0))).
  { intros g w0 Hg H0. simpl. apply Forall_alter; [done|].
    intros c _ Hc. unfold credits_ok. by rewrite Hg. }
  assert (Hf : forall w0 out, Forall credits_ok (fConn w0) ->
            Forall credits_ok (fConn (window (finish w0 out)))).
  { intros w0 out H0. unfold finish.
    destruct (CheckDataToSend false w0) as [[w' o]|] eqn:E; [|done].
    by eapply CheckDataToSend_credits. }
  assert (He : forall w0, Forall credits_ok (fConn w0) ->
            Forall credits_ok (fConn (erase_conn i w0))).
  { intros w0 H0. simpl. by apply Forall_delete. }
  assert (Hcb : forall w0 id d k, Forall credits_ok (fConn w0) ->
            (forall out, Forall credits_ok (fConn (window (k out)))) ->
            Forall credits_ok (fConn (window (call_fDataCallback w0 id d k)))).
  { intros w0 id d k H0 Hk. unfold call_fDataCallback. by destruct (fDataCallback w0). }
  destruct (nchannel f =? 0).
  - destruct (_ && _); [|by apply Hf].
    destruct (_ && _); [by apply He|].
    assert (H2 : Forall credits_ok (fConn (accept_key i (substr 6 (cdata f)) w1))).
    { unfold accept_key. destruct (fKeys w1 !! _); [|done]. by apply (Hup (set_fProcId _)). }
    destruct (negb _).
    + destruct (Send _ _ _) as [[w3 o3]|] eqn:E; [|done].
      apply Hf, (Hup (set_fReady 5)); [done|]. by eapply SubmitData_credits.
    + apply Hcb; [done|]. intros. by apply Hf, (Hup (set_fReady 10)).
  - destruct (_ && _).
    + destruct (String.eqb _ _).
      * apply Hcb; [done|]. intros. by apply Hf, (Hup (set_fReady 10)).
      * apply Hcb; [done|]. intros. by apply Hf, He.
    + destruct (nchannel f =? 1).
      * apply Hcb; [done|]. intros. by apply Hf.
      * destruct (fCallBack _); [by apply Hf | done].
Qed.

End Credits.

(** ** Working order is kept by inbound events *)

Section Reachable.

Lemma narrows_refl w : narrows w w.
Proof. by repeat split. Qed.

Lemma narrows_trans w1 w2 w3 : narrows w1 w2 -> narrows w2 w3 -> narrows w1 w3.
Proof.
  intros (H1 & C1 & S1) (H2 & C2 & S2).
  split; [congruence|]. split; [congruence|]. by etrans.
Qed.

Lemma conn_ids_alter (f : WebConn -> WebConn) (i : nat) (l : list WebConn) :
  (forall c, l !! i = Some c -> fConnId (f c) = fConnId c /\ fWSId (f c) = fWSId c) ->
  conn_ids (alter f i l) = conn_ids l.
Proof.
  unfold conn_ids. revert i. induction l as [|x l IH]; intros [|i] Hf; simpl; try done.
  - destruct (Hf x eq_refl) as [-> ->]. done.
  - f_equal. apply IH. intros c Hc. by apply Hf.
Qed.

Lemma conn_ids_same_identity l l' :
  Forall2 same_identity l l' -> conn_ids l' = conn_ids l.
Proof.
  unfold conn_ids. induction 1 as [|c c' l l' (Hi & Hw & _) _ IH]; [done|].
  rewrite !fmap_cons. by rewrite Hi, Hw, IH.
Qed.

Lemma narrows_update_conn w i f :
  (forall c, fConn w !! i = Some c -> fConnId (f c) = fConnId c /\ fWSId (f c) = fWSId c) ->
  narrows w (update_conn i f w).
Proof. intros Hf. repeat split; simpl. by rewrite conn_ids_alter. Qed.

Lemma narrows_erase_conn w i : narrows w (erase_conn i w).
Proof. repeat split; simpl. apply fmap_sublist, sublist_delete. Qed.

Lemma narrows_accept_key w i key : narrows w (accept_key i key w).
Proof.
  unfold accept_key. destruct (fKeys w !! key); [|apply narrows_refl].
  repeat split; simpl. by rewrite conn_ids_alter.
Qed.

Lemma narrows_set_fConn w conns' :
  Forall2 same_identity (fConn w) conns' -> narrows w (set_fConn conns' w).
Proof. intros Hid. repeat split; simpl. by rewrite (conn_ids_same_identity _ _ Hid). Qed.

Lemma narrows_finish w out : narrows w (window (finish w out)).
Proof.
  unfold finish. destruct (CheckDataToSend false w) as [[w' o]|] eqn:E; [|apply narrows_refl].
  apply CheckDataToSend_spec in E as (l & -> & Hid & _). by apply narrows_set_fConn.
Qed.

Lemma narrows_call_fDataCallback w0 w connid data k :
  narrows w0 w -> (forall out, narrows w0 (window (k out))) ->
  narrows w0 (window (call_fDataCallback w connid data k)).
Proof. intros Hw Hk. unfold call_fDataCallback. by destruct (fDataCallback w). Qed.

Lemma ProcessWS_data_narrows w i conn f :
  fConn w !! i = Some conn -> narrows w (window (ProcessWS_data w i conn f)).
Proof.
  intros Hi. unfold ProcessWS_data.
  set (w1 := update_conn i (fun _ => booked conn f) w).
  assert (H1 : narrows w w1).
  { apply narrows_update_conn. intros c Hc. by simplify_eq. }
  assert (Hr : forall r w0, narrows w w0 ->
                 narrows w (window (finish (update_conn i (set_fReady r) w0) [])) /\
                 forall out, narrows w (window (finish (update_conn i (set_fReady r) w0) out))).
  { intros r w0 H0.
    assert (forall out, narrows w (window (finish (update_conn i (set_fReady r) w0) out))); [|done].
    intros out. eapply narrows_trans; [|apply narrows_finish].
    eapply narrows_trans; [done|]. by apply narrows_update_conn. }
  assert (Hf : forall w0 out, narrows w w0 -> narrows w (window (finish w0 out))).
  { intros w0 out H0. eapply narrows_trans; [done | apply narrows_finish]. }
  destruct (nchannel f =? 0).
  - destruct (_ && _); [|by apply Hf].
    destruct (_ && _); [by eapply narrows_trans; [|apply narrows_erase_conn]|].
    assert (H2 : narrows w (accept_key i (substr 6 (cdata f)) w1)).
    { eapply narrows_trans; [done | apply narrows_accept_key]. }
    destruct (negb _).
    + destruct (Send _ _ _) as [[w3 o3]|] eqn:E; [|done].
      apply SubmitData_spec in E as (l & -> & Hid & _).
      apply Hr. eapply narrows_trans; [done | by apply narrows_set_fConn].
    + apply narrows_call_fDataCallback; [done|]. intros. by apply Hr.
  - destruct (_ && _).
    + destruct (String.eqb _ _).
      * apply narrows_call_fDataCallback; [done|]. intros. by apply Hr.
      * apply narrows_call_fDataCallback; [done|]. intros. apply Hf.
        eapply narrows_trans; [done | apply narrows_erase_conn].
    + destruct (nchannel f =? 1).
      * apply narrows_call_fDataCallback; [done|]. intros. by apply Hf.
      * destruct (fCallBack _); [by apply Hf | done].
Qed.

Lemma well_formed_narrows w w' : well_formed w -> narrows w w' -> well_formed w'.
Proof.
  intros (Hh & Hids & Hws & Hall & Hcnt) (Hh' & Hc' & Hsub).
  assert (forall l, fConnId <$> l = fst <$> conn_ids l) as Hfst.
  { intros l. unfold conn_ids. rewrite <- list_fmap_compose. done. }
  assert (forall l, fWSId <$> l = snd <$> conn_ids l) as Hsnd.
  { intros l. unfold conn_ids. rewrite <- list_fmap_compose. done. }
  split; [congruence|].
  split. { rewrite Hfst. eapply sublist_NoDup; [|by apply fmap_sublist]. by rewrite <- Hfst. }
  split. { rewrite Hsnd. eapply sublist_NoDup; [|by apply fmap_sublist]. by rewrite <- Hsnd. }
  split; [|by rewrite Hc'].
  apply Forall_forall. intros c' Hin. rewrite Hc'.
  assert ((fConnId c', fWSId c') ∈ conn_ids (fConn w)) as Hc.
  { eapply elem_of_sublist; [|done]. unfold conn_ids. by apply list_elem_of_fmap_2'
      with (x := c'). }
  unfold conn_ids in Hc. apply list_elem_of_fmap in Hc as (c & Heq & Hc).
  injection Heq as -> ->. rewrite Forall_forall in Hall. by apply Hall.
Qed.

(** An inbound event leaves a well-formed window well-formed, as long as
    the connection counter stays below [INT_MAX]. *)
Lemma ProcessWS_well_formed w arg :
  well_formed w -> fConnCnt w < INT_MAX -> well_formed (window (ProcessWS w arg)).
Proof.
  intros Hwf Hroom. unfold ProcessWS.
  destruct (Z.eqb_spec (GetWSId arg) 0); [done|].
  destruct (IsMethod arg "WS_CONNECT"); [by destruct (_ && _)|].
  destruct (IsMethod arg "WS_READY").
  { destruct (find_conn _ _) eqn:Hfind; [done|]. simpl.
    destruct Hwf as (Hh & Hids & Hws & Hall & Hcnt). unfold INT_MAX in *.
    assert (to_unsigned (fConnCnt w + 1) = fConnCnt w + 1) as Hc.
    { unfold to_unsigned. apply Z.mod_small. lia. }
    rewrite Hc. rewrite Forall_forall in Hall.
    split; [done|]. simpl. rewrite !fmap_app. simpl.
    split.
    { apply NoDup_app. split; [done|]. split; [|apply NoDup_singleton].
      intros x Hx Hx'. apply list_elem_of_singleton in Hx' as ->.
      apply list_elem_of_fmap in Hx as (c & Heq & Hin). specialize (Hall c Hin). lia. }
    split.
    { apply NoDup_app. split; [done|]. split; [|apply NoDup_singleton].
      intros x Hx Hx'. apply list_elem_of_singleton in Hx' as ->.
      apply list_elem_of_fmap in Hx as (c & Heq & Hin).
      clear -Hfind Hin Heq. induction (fConn w) as [|y l IH]; [by apply elem_of_nil in Hin|].
      simpl in Hfind. destruct (Z.eqb_spec (fWSId y) (GetWSId arg)); [done|].
      destruct (find_conn (GetWSId arg) l); [done|].
      apply elem_of_cons in Hin as [->|Hin]; [congruence | by apply IH]. }
    split; [|unfold INT_MAX; lia].
    apply Forall_app. split.
    - apply Forall_forall. intros c Hin. specialize (Hall c Hin). lia.
    - repeat constructor; simpl; lia. }
  destruct (IsMethod arg "WS_CLOSE").
  { destruct (find_conn _ _) as [i|]; [|done].
    destruct (fConn w !! i); [|done].
    eapply well_formed_narrows; [done | apply narrows_erase_conn]. }
  destruct (negb _); [done|].
  destruct (find_conn _ _) as [i|]; [|done].
  destruct (fConn w !! i) as [conn|] eqn:Hi; [|done].
  destruct (_ <=? 0); [done|].
  destruct (decode_frame _ _); [done|].
  eapply well_formed_narrows; [done | by apply ProcessWS_data_narrows].
Qed.

Lemma ProcessWS_fConnCnt w arg :
  0 <= fConnCnt w < INT_MAX ->
  fConnCnt w <= fConnCnt (window (ProcessWS w arg)) <= fConnCnt w + 1.
Proof.
  intros Hc. unfold ProcessWS.
  destruct (_ =? 0); [simpl; lia|].
  destruct (IsMethod arg "WS_CONNECT"); [destruct (_ && _); simpl; lia|].
  destruct (IsMethod arg "WS_READY").
  { destruct (find_conn _ _); simpl; [lia|].
    unfold to_unsigned, INT_MAX in *. rewrite Z.mod_small; lia. }
  destruct (IsMethod arg "WS_CLOSE").
  { destruct (find_conn _ _) as [i|]; [|simpl; lia].
    destruct (fConn w !! i); simpl; lia. }
  destruct (negb _); [simpl; lia|].
  destruct (find_conn _ _) as [i|]; [|simpl; lia].
  destruct (fConn w !! i) as [conn|] eqn:Hi; [|simpl; lia].
  destruct (_ <=? 0); [simpl; lia|].
  destruct (decode_frame _ _); [simpl; lia|].
  destruct (ProcessWS_data_narrows w i conn f Hi) as (_ & -> & _). lia.
Qed.

(** Every window reached from a new one by inbound events is well-formed
    (with fewer than [INT_MAX] events, the counter cannot wrap). *)
Lemma after_events_well_formed args w :
  well_formed w -> fConnCnt w + Z.of_nat (length args) <= INT_MAX ->
  well_formed (after_events w args).
Proof.
  revert w. induction args as [|arg args IH]; intros w Hwf Hlen; simpl in *; [done|].
  pose proof Hwf as (_ & _ & _ & _ & Hc).
  apply IH; [apply ProcessWS_well_formed; [done | lia]|].
  pose proof (ProcessWS_fConnCnt w arg ltac:(lia)). lia.
Qed.

Lemma new_window_well_formed limit maxq init panel native cb :
  well_formed (new_window limit maxq init panel native cb).
Proof. repeat split; try constructor; done. Qed.

(** A well-formed window is in working order. *)
Lemma well_formed_in_order w : well_formed w -> in_order w.
Proof.
  intros (Hh & Hids & Hws & Hall & Hcnt).
  split; [split; [done | eapply Forall_impl; [done | by intros c [? _]]]|].
  split; [split; [done | eapply Forall_impl; [done | intros c [_ ?]; simpl in *; lia]]|].
  split; [done|].
  assert (length (fConnId <$> fConn w) <= length (seqZ 1 (fConnCnt w)))%nat as Hlen.
  { apply submseteq_length, NoDup_submseteq; [done|].
    intros x Hx. apply list_elem_of_fmap in Hx as (c & -> & Hin).
    rewrite Forall_forall in Hall. specialize (Hall c Hin).
    apply elem_of_seqZ. lia. }
  rewrite length_fmap, length_seqZ in Hlen. lia.
Qed.

End Reachable.

(** ** The registry of connections *)

Section Registry.

Lemma find_conn_None wsid conns :
  find_conn wsid conns = None <-> wsid ∉ fWSId <$> conns.
Proof.
  induction conns as [|c rest IH].
  - split; [intros _; apply not_elem_of_nil | done].
  - rewrite fmap_cons, not_elem_of_cons. simpl.
    destruct (Z.eqb_spec (fWSId c) wsid) as [->|Hne].
    + split; [done | by intros [? _]].
    + rewrite fmap_None, IH. split; [by intros; split | by intros [_ ?]].
Qed.

Lemma find_conn_last wsid conns c :
  wsid ∉ fWSId <$> conns -> fWSId c = wsid ->
  find_conn wsid (conns ++ [c]) = Some (length conns).
Proof.
  intros Hnin <-. induction conns as [|x rest IH]; simpl.
  - by rewrite Z.eqb_refl.
  - rewrite fmap_cons in Hnin. apply not_elem_of_cons in Hnin as [Hne Hnin].
    destruct (Z.eqb_spec (fWSId x) (fWSId c)); [congruence|].
    by rewrite IH.
Qed.

Lemma NoDup_delete_lookup {A} (l : list A) i x :
  NoDup l -> l !! i = Some x -> x ∉ delete i l.
Proof.
  intros Hnd Hi Hin. apply list_elem_of_lookup in Hin as [j Hj].
  destruct (decide (j < i)%nat).
  - rewrite list_lookup_delete_lt in Hj by done.
    pose proof (NoDup_lookup _ _ _ _ Hnd Hi Hj). lia.
  - rewrite list_lookup_delete_ge in Hj by lia.
    pose proof (NoDup_lookup _ _ _ _ Hnd Hi Hj). lia.
Qed.

Lemma find_conn_delete wsid conns i :
  NoDup (fWSId <$> conns) -> find_conn wsid conns = Some i ->
  find_conn wsid (delete i conns) = None.
Proof.
  intros Hnd Hf. apply find_conn_None. rewrite list_fmap_delete.
  apply find_conn_Some in Hf as (c & Hc & <-).
  apply NoDup_delete_lookup; [done|]. by rewrite list_lookup_fmap, Hc.
Qed.

Lemma delete_alter_same {A} (f : A -> A) i (l : list A) :
  delete i (alter f i l) = delete i l.
Proof.
  revert i. induction l as [|x l IH]; intros [|i]; simpl; try done.
  f_equal. apply IH.
Qed.

(** A request has one method name. *)
Lemma other_methods arg m m' :
  IsMethod arg m = true -> m <> m' -> IsMethod arg m' = false.
Proof.
  unfold IsMethod. intros H%String.eqb_eq Hne. apply String.eqb_neq. congruence.
Qed.

(** X1.  A WS_READY event for a websocket id that a connection already has
    is refused: [ProcessWS] returns false, logs one line that carries the
    websocket id in decimal, and leaves the window as it was.  For a
    websocket id that no connection has it is accepted whatever the
    connection limit and the number of connections: the counter is
    incremented, a Pending connection with the new counter value as its id
    is appended to the registry, nothing is sent or announced, and later
    events for this websocket id find the connection at the last position. *)
Theorem ws_ready_registers w arg :
  IsMethod arg "WS_READY" = true ->
  GetWSId arg <> 0 ->
  (GetWSId arg ∈ fWSId <$> fConn w ->
   ProcessWS w arg =
     mkResult (Returns false) w
       [LogError ("WSHandle with given websocket id " +:+ to_string (GetWSId arg)
                  +:+ " already exists")]) /\
  (GetWSId arg ∉ fWSId <$> fConn w ->
   let c := newWebConn (fInitCredits w) (to_unsigned (fConnCnt w + 1)) (GetWSId arg) in
   let w' := set_fConn (fConn w ++ [c]) (set_fConnCnt (to_unsigned (fConnCnt w + 1)) w) in
   ProcessWS w arg = mkResult (Returns true) w' [] /\
   find_conn (GetWSId arg) (fConn w') = Some (length (fConn w))).
Proof.
  intros Hm Hws. unfold ProcessWS.
  rewrite (proj2 (Z.eqb_neq _ _) Hws).
  rewrite (other_methods arg _ "WS_CONNECT" Hm) by done. rewrite Hm.
  split; intros Hin.
  - destruct (find_conn _ _) eqn:E; [done|]. by apply find_conn_None in E.
  - pose proof (proj2 (find_conn_None _ _) Hin) as ->. simpl.
    split; [done|]. by apply find_conn_last.
Qed.

Lemma ws_ready_registers_witness :
  ProcessWS Sample.full (Sample.ws_ready 7) =
    mkResult (Returns false) Sample.full
      [LogError "WSHandle with given websocket id 7 already exists"] /\
  ProcessWS Sample.full (Sample.ws_ready 8) =
    mkResult (Returns true)
      (set_fConn (fConn Sample.full ++ [newWebConn 0 2 8]) (set_fConnCnt 2 Sample.full))
      [] /\
  find_conn 8 (fConn Sample.full ++ [newWebConn 0 2 8]) = Some 1%nat.
Proof.
  split.
  - refine (proj1 (ws_ready_registers Sample.full (Sample.ws_ready 7) _ _) _);
      [reflexivity | discriminate |].
    apply (bool_decide_unpack _). vm_compute. exact I.
  - refine (proj2 (ws_ready_registers Sample.full (Sample.ws_ready 8) _ _) _);
      [reflexivity | discriminate |].
    apply (bool_decide_unpack _). vm_compute. exact I.
Defined.

(** X2.  A WS_CLOSE event for the websocket of a registered connection
    (websocket ids being distinct) returns true; the data callback, if one is
    set, hears CONN_CLOSED with the connection id, the manager is asked to
    halt the connection's process, and the connection is erased.  Afterwards
    no connection has this websocket id, and every data event for it is
    refused with a log line and without any change. *)
Theorem ws_close_forgets w arg i conn :
  IsMethod arg "WS_CLOSE" = true ->
  GetWSId arg <> 0 ->
  NoDup (fWSId <$> fConn w) ->
  find_conn (GetWSId arg) (fConn w) = Some i ->
  fConn w !! i = Some conn ->
  ProcessWS w arg =
    mkResult (Returns true) (erase_conn i w)
      ((if fDataCallback w then [DataCallback (fConnId conn) "CONN_CLOSED"] else [])
       ++ [HaltClient (fProcId conn)]) /\
  find_conn (GetWSId arg) (fConn (erase_conn i w)) = None /\
  forall buf,
    ProcessWS (erase_conn i w) (data_event (GetWSId arg) buf) =
      mkResult (Returns false) (erase_conn i w)
        [LogError "Get websocket data without valid connection - ignore!!!"].
Proof.
  intros Hm Hws Hnd Hf Hi.
  pose proof (find_conn_delete _ _ _ Hnd Hf) as Hgone.
  split; [|split; [done|]].
  - unfold ProcessWS. rewrite (proj2 (Z.eqb_neq _ _) Hws).
    rewrite (other_methods arg _ "WS_CONNECT" Hm) by done.
    rewrite (other_methods arg _ "WS_READY" Hm) by done.
    by rewrite Hm, Hf, Hi.
  - intros buf. unfold ProcessWS.
    change (GetWSId (data_event (GetWSId arg) buf)) with (GetWSId arg).
    change (fConn (erase_conn i w)) with (delete i (fConn w)).
    rewrite (proj2 (Z.eqb_neq _ _) Hws), Hgone. reflexivity.
Qed.

Lemma ws_close_forgets_witness :
  ProcessWS Sample.plain (Scene.ws_close 7) =
    mkResult (Returns true) (erase_conn 0 Sample.plain)
      ((if fDataCallback Sample.plain
        then [DataCallback (fConnId (newWebConn 0 1 7)) "CONN_CLOSED"] else [])
       ++ [HaltClient (fProcId (newWebConn 0 1 7))]) /\
  find_conn (GetWSId (Scene.ws_close 7)) (fConn (erase_conn 0 Sample.plain)) = None /\
  forall buf,
    ProcessWS (erase_conn 0 Sample.plain) (data_event (GetWSId (Scene.ws_close 7)) buf) =
      mkResult (Returns false) (erase_conn 0 Sample.plain)
        [LogError "Get websocket data without valid connection - ignore!!!"].
Proof.
  apply (ws_close_forgets Sample.plain (Scene.ws_close 7) 0%nat (newWebConn 0 1 7)).
  - reflexivity.
  - discriminate.
  - repeat constructor. apply not_elem_of_nil.
  - reflexivity.
  - reflexivity.
Defined.

End Registry.

(** ** What a data frame leads to *)

Section Dispatch.

(** [ProcessWS_data_event] for any window: the null websocket id is the only
    one [ProcessWS] does not look up. *)
Lemma ProcessWS_data_frame w arg i conn f :
  GetWSId arg <> 0 ->
  IsMethod arg "WS_DATA" = true ->
  find_conn (GetWSId arg) (fConn w) = Some i ->
  fConn w !! i = Some conn ->
  0 < GetPostDataLength arg ->
  decode_frame (GetPostData arg) (GetPostDataLength arg) = Accepted f ->
  ProcessWS w arg = ProcessWS_data w i conn f.
Proof.
  intros Hws Hm Hf Hi Hlen Hdec. unfold ProcessWS.
  rewrite (proj2 (Z.eqb_neq _ _) Hws).
  rewrite (other_methods arg _ "WS_CONNECT" Hm) by done.
  rewrite (other_methods arg _ "WS_READY" Hm) by done.
  rewrite (other_methods arg _ "WS_CLOSE" Hm) by done.
  rewrite Hm, Hf, Hi. simpl negb. cbn iota.
  destruct (Z.leb_spec (GetPostDataLength arg) 0); [lia|]. by rewrite Hdec.
Qed.


(** X3.  On a window that accepts pre-authorized sessions only, a READY from
    a Pending connection with a key that is not in the Key Table is turned
    away: [ProcessWS] returns false and the connection is erased, and that is
    all: the data callback hears nothing (no CONN_CLOSED), the manager is not
    asked to halt a process, nothing is sent or logged, and the Key Table is
    as before. *)
Theorem unknown_key_turned_away w arg i conn f key :
  GetWSId arg <> 0 ->
  IsMethod arg "WS_DATA" = true ->
  find_conn (GetWSId arg) (fConn w) = Some i ->
  fConn w !! i = Some conn ->
  0 < GetPostDataLength arg ->
  decode_frame (GetPostData arg) (GetPostDataLength arg) = Accepted f ->
  nchannel f = 0 ->
  cdata f = "READY=" +:+ key ->
  fReady conn = 0 ->
  fKeys w !! key = None ->
  IsNativeOnlyConn w = true ->
  ProcessWS w arg = mkResult (Returns false) (erase_conn i w) [].
Proof.
  intros Hws Hm Hf Hi Hlen Hdec Hch Hcd Hpend Hkey Hnat.
  rewrite (ProcessWS_data_frame w arg i conn f) by done.
  unfold ProcessWS_data. rewrite Hch, Hcd. simpl (_ =? _). cbn iota.
  rewrite starts_with_app. change (substr 6 ("READY=" +:+ key)) with key.
  change (fReady (booked conn f)) with (fReady conn). rewrite Hpend. cbn [andb Z.eqb].
  set (w1 := update_conn i (fun _ => booked conn f) w).
  change (IsNativeOnlyConn w1) with (IsNativeOnlyConn w). rewrite Hnat.
  assert (HasKey w1 key = false) as ->.
  { unfold HasKey. change (fKeys w1) with (fKeys w). rewrite Hkey.
    apply bool_decide_eq_false. by intros [? ?]. }
  simpl. f_equal. unfold erase_conn, w1, update_conn. simpl.
  by rewrite delete_alter_same.
Qed.

Lemma unknown_key_turned_away_witness :
  ProcessWS Scene.locked (data_event 7 "1:0:0:READY=guess") =
    mkResult (Returns false) (erase_conn 0 Scene.locked) [].
Proof.
  apply (unknown_key_turned_away Scene.locked (data_event 7 "1:0:0:READY=guess") 0%nat
           (newWebConn 0 1 7) (mkFrame 1 0 0 "READY=guess") "guess");
    try reflexivity; discriminate.
Defined.

(** X4.  A key of the Key Table serves once.  When a Pending connection
    sends READY with a key that the table maps to a process, [ProcessWS]
    returns true, the connection carries that process afterwards, and the key
    is no longer in the table ([HasKey] is false for it), the other keys
    being kept. *)
Theorem key_consumed_once w arg i conn f key procid :
  can_transmit w ->
  IsMethod arg "WS_DATA" = true ->
  find_conn (GetWSId arg) (fConn w) = Some i ->
  fConn w !! i = Some conn ->
  0 < GetPostDataLength arg ->
  decode_frame (GetPostData arg) (GetPostDataLength arg) = Accepted f ->
  nchannel f = 0 ->
  cdata f = "READY=" +:+ key ->
  fReady conn = 0 ->
  fKeys w !! key = Some procid ->
  fPanelName w <> EmptyString \/ fDataCallback w = true ->
  exists w' out c',
    ProcessWS w arg = mkResult (Returns true) w' out /\
    fConn w' !! i = Some c' /\
    fProcId c' = procid /\
    fKeys w' = delete key (fKeys w) /\
    HasKey w' key = false.
Proof.
  intros Hw Hm Hf Hi Hlen Hdec Hch Hcd Hpend Hkey Hcb.
  rewrite (ProcessWS_data_event w arg i conn f) by done.
  destruct (ready_handshake w i conn f key) as (w' & out & c' & E & Hk & Hc' & _ & _ & Hp & _);
    try done.
  { left. unfold HasKey. rewrite Hkey. by apply bool_decide_eq_true. }
  exists w', out, c'. rewrite Hkey in Hp.
  split; [done|]. split; [done|]. split; [done|]. split; [done|].
  unfold HasKey. rewrite Hk, lookup_delete_eq. apply bool_decide_eq_false. by intros [? ?].
Qed.

Lemma key_consumed_once_witness :
  exists w' out c',
    ProcessWS Sample.fit (data_event 7 "1:0:0:READY=abc") = mkResult (Returns true) w' out /\
    fConn w' !! 0%nat = Some c' /\
    fProcId c' = "proc1" /\
    fKeys w' = delete "abc" (fKeys Sample.fit) /\
    HasKey w' "abc" = false.
Proof.
  apply (key_consumed_once Sample.fit (data_event 7 "1:0:0:READY=abc") 0%nat
           (newWebConn 0 1 7) (mkFrame 1 0 0 "READY=abc") "abc" "proc1");
    try reflexivity.
  - split; [reflexivity|]. repeat constructor. discriminate.
  - by left.
Defined.







(** X8.  On a window without a data callback, a well-formed frame on
    channel 1 makes [ProcessWS] leave by the exception of the empty
    [std::function], whatever the panel name and the stage: the frame's
    numbers are already booked on the connection, the connection stays in
    the registry, and nothing is sent, logged or drained. *)
Theorem unset_callback_throws w arg i conn f :
  GetWSId arg <> 0 ->
  IsMethod arg "WS_DATA" = true ->
  find_conn (GetWSId arg) (fConn w) = Some i ->
  fConn w !! i = Some conn ->
  0 < GetPostDataLength arg ->
  decode_frame (GetPostData arg) (GetPostDataLength arg) = Accepted f ->
  nchannel f = 1 ->
  fDataCallback w = false ->
  ProcessWS w arg = mkResult Throws (update_conn i (fun _ => booked conn f) w) [].
Proof.
  intros Hws Hm Hf Hi Hlen Hdec Hch Hcb.
  rewrite (ProcessWS_data_frame w arg i conn f) by done.
  unfold ProcessWS_data. rewrite Hch. simpl (_ =? _). cbn iota.
  set (w1 := update_conn i (fun _ => booked conn f) w).
  unfold call_fDataCallback. change (fDataCallback w1) with (fDataCallback w). rewrite Hcb.
  destruct (_ && _); [|done]. by destruct (String.eqb _ _).
Qed.

Lemma unset_callback_throws_witness :
  ProcessWS Scene.mute (data_event 7 "0:0:1:hello") =
    mkResult Throws
      (update_conn 0 (fun _ => booked (newWebConn 0 1 7) (mkFrame 0 0 1 "hello")) Scene.mute)
      [].
Proof.
  apply (unset_callback_throws Scene.mute (data_event 7 "0:0:1:hello") 0%nat
           (newWebConn 0 1 7) (mkFrame 0 0 1 "hello"));
    try reflexivity; discriminate.
Defined.

(** X9.  A frame on the system channel 0 that is not the first READY of its
    connection (the payload does not begin with READY=, or the connection has
    left the Pending stage) is swallowed: no callback hears of it, no key is
    consumed, no connection is added, erased or moved to another stage; the
    frame's numbers are booked, the drain runs, and [ProcessWS] returns
    true.  The window and the effects of the call are those of the drain on
    the window in which the connection has one more frame received, the
    acknowledged operations added to its send credits and the client's
    credits recorded; the connection's queue can only have lost items from
    its front, and a connection that has no send credit after the booking
    ends with exactly the booked numbers. *)
Theorem system_channel_swallowed w arg i conn f :
  can_transmit w ->
  IsMethod arg "WS_DATA" = true ->
  find_conn (GetWSId arg) (fConn w) = Some i ->
  fConn w !! i = Some conn ->
  0 < GetPostDataLength arg ->
  decode_frame (GetPostData arg) (GetPostDataLength arg) = Accepted f ->
  nchannel f = 0 ->
  starts_with "READY=" (cdata f) = false \/ fReady conn <> 0 ->
  exists w' out c',
    ProcessWS w arg = mkResult (Returns true) w' out /\
    CheckDataToSend false
      (update_conn i
         (fun _ => set_counters (to_int (fRecvCount conn + 1))
                                (to_int (fSendCredits conn + ackn_oper f))
                                (to_int (can_send f)) conn) w) = Some (w', out) /\
    Forall send_effect out /\
    Forall2 same_identity (fConn w) (fConn w') /\
    fKeys w' = fKeys w /\
    fConn w' !! i = Some c' /\
    fQueue c' `suffix_of` fQueue conn /\
    (to_int (fSendCredits conn + ackn_oper f) <= 0 ->
     c' = set_counters (to_int (fRecvCount conn + 1))
                       (to_int (fSendCredits conn + ackn_oper f))
                       (to_int (can_send f)) conn).
Proof.
  intros Hw Hm Hf Hi Hlen Hdec Hch Hno.
  rewrite (ProcessWS_data_event w arg i conn f) by done.
  unfold ProcessWS_data. rewrite Hch. simpl (_ =? _). cbn iota.
  change (set_counters (to_int (fRecvCount conn + 1))
            (to_int (fSendCredits conn + ackn_oper f)) (to_int (can_send f)) conn)
    with (booked conn f).
  set (w1 := update_conn i (fun _ => booked conn f) w).
  change (fReady (booked conn f)) with (fReady conn).
  assert (starts_with "READY=" (cdata f) && (fReady conn =? 0) = false) as ->.
  { destruct Hno as [-> | Hst]; [done|].
    rewrite (proj2 (Z.eqb_neq _ _) Hst). apply andb_false_r. }
  assert (Hw1 : can_transmit w1).
  { apply can_transmit_update_conn; [done|]. intros c Hc. by simplify_eq. }
  assert (Hi1 : fConn w1 !! i = Some (booked conn f)).
  { simpl. by rewrite list_lookup_alter_eq, Hi. }
  destruct (CheckDataToSend_returns false w1 Hw1) as (l & o & E & Hid & Hs).
  destruct (CheckDataToSend_drained _ _ _ _ E) as (l' & El & Hdr).
  destruct (Forall2_lookup_l _ _ _ _ _ Hdr Hi1) as (c' & Hc' & Hsuf & Hsame).
  unfold finish. rewrite E.
  exists (set_fConn l w1), o, c'.
  split; [done|]. split; [done|]. split; [done|].
  split.
  { simpl. eapply Forall2_same_identity_trans; [|exact Hid].
    simpl. apply (alter_same_identity _ _ _ conn); [done|]. by repeat split. }
  split; [done|].
  split; [by rewrite El|]. split; [done|]. exact Hsame.
Qed.

Lemma system_channel_swallowed_witness :
  exists w' out c',
    ProcessWS Sample.plain (data_event 7 "0:0:0:PING") = mkResult (Returns true) w' out /\
    CheckDataToSend false
      (update_conn 0%nat
         (fun _ => set_counters (to_int (fRecvCount (newWebConn 0 1 7) + 1))
                                (to_int (fSendCredits (newWebConn 0 1 7) + ackn_oper (mkFrame 0 0 0 "PING")))
                                (to_int (can_send (mkFrame 0 0 0 "PING"))) (newWebConn 0 1 7)) Sample.plain) = Some (w', out) /\
    Forall send_effect out /\
    Forall2 same_identity (fConn Sample.plain) (fConn w') /\
    fKeys w' = fKeys Sample.plain /\
    fConn w' !! 0%nat = Some c' /\
    fQueue c' `suffix_of` fQueue (newWebConn 0 1 7) /\
    (to_int (fSendCredits (newWebConn 0 1 7) + ackn_oper (mkFrame 0 0 0 "PING")) <= 0 ->
     c' = set_counters (to_int (fRecvCount (newWebConn 0 1 7) + 1))
                       (to_int (fSendCredits (newWebConn 0 1 7) + ackn_oper (mkFrame 0 0 0 "PING")))
                       (to_int (can_send (mkFrame 0 0 0 "PING"))) (newWebConn 0 1 7)).
Proof.
  apply (system_channel_swallowed Sample.plain (data_event 7 "0:0:0:PING") 0%nat
           (newWebConn 0 1 7) (mkFrame 0 0 0 "PING"));
    try reflexivity.
  - split; [reflexivity|]. repeat constructor. discriminate.
  - by left.
Defined.

End Dispatch.

(** ** What is printed is what is read *)

Section Printing.

Lemma pretty_N_char_decimal d :
  (d < 10)%N ->
  isdigit (pretty_N_char d) = true /\ digit_val (pretty_N_char d) = Z.of_N d.
Proof.
  intros Hd.
  assert (d = 0 \/ d = 1 \/ d = 2 \/ d = 3 \/ d = 4 \/ d = 5 \/ d = 6 \/ d = 7 \/
          d = 8 \/ d = 9)%N as H by lia.
  destruct H as [->|[->|[->|[->|[->|[->|[->|[->|[->| ->]]]]]]]]]; done.
Qed.

(** [pretty_N_go] puts the decimal digits of [n] in front of [s]. *)
Lemma pretty_N_go_decimal n :
  forall s, exists u,
    pretty_N_go n s = u +:+ s /\ all_digits u = true /\
    digits_value 0 u = Z.of_N n /\ ((0 < n)%N -> u <> EmptyString).
Proof.
  induction n as [n IH] using (well_founded_induction N.lt_wf_0). intros s.
  destruct (decide (0 < n)%N) as [Hpos|Hz].
  - rewrite pretty_N_go_step by done.
    destruct (IH (n `div` 10)%N ltac:(apply N.div_lt; lia)
                 (String (pretty_N_char (n `mod` 10)) s)) as (u & -> & Hu & Hv & _).
    destruct (pretty_N_char_decimal (n `mod` 10)%N) as [Hd Hdv].
    { apply N.mod_lt. lia. }
    exists (u +:+ String (pretty_N_char (n `mod` 10)) EmptyString).
    rewrite append_assoc, append_cons, append_nil, all_digits_snoc, digits_value_snoc.
    rewrite Hu, Hd, Hv, Hdv.
    split; [done|]. split; [done|]. split.
    + pose proof (N.div_mod n 10 ltac:(lia)). lia.
    + intros _. by destruct u.
  - assert (n = 0%N) as -> by lia. exists EmptyString.
    rewrite pretty_N_go_0. split; [done|]. split; [done|]. split; [done | lia].
Qed.

(** [std::to_string] of an [int] that is not negative is a field of the
    interface grammar, and its value is the number printed. *)
Lemma to_string_decimal x :
  0 <= x -> uint_token (to_string x) = true /\ digits_value 0 (to_string x) = x.
Proof.
  intros Hx. destruct (decide (x = 0)) as [->|Hnz]; [done|].
  rewrite to_string_pos by lia.
  destruct (pretty_N_go_decimal (Z.to_N x) EmptyString) as (u & -> & Hu & Hv & Hne).
  rewrite append_nil_r. unfold uint_token. rewrite Hu, Hv.
  split; [|lia]. rewrite andb_true_r.
  destruct u; [|done]. exfalso. apply Hne; [lia | done].
Qed.

(** The decimal form of an [int] has no NUL byte. *)
Lemma c_str_to_string x s : c_str (to_string x +:+ s) = to_string x +:+ c_str s.
Proof.
  assert (forall p, c_str (pretty (N.pos p) +:+ s) = pretty (N.pos p) +:+ c_str s) as Hp.
  { intros p. change (pretty (N.pos p)) with (pretty_N_go (N.pos p) EmptyString).
    destruct (pretty_N_go_decimal (N.pos p) EmptyString) as (u & -> & Hu & _).
    rewrite append_nil_r. by apply c_str_digits. }
  destruct x as [|p|p]; [done | apply Hp |].
  change (to_string (Z.neg p)) with ("-" +:+ pretty (N.pos p)).
  rewrite !append_cons, !append_nil. simpl. by rewrite Hp.
Qed.

Lemma c_str_frame_prefix recv credits chid s :
  c_str (frame_prefix recv credits chid +:+ s) = frame_prefix recv credits chid +:+ c_str s.
Proof.
  unfold frame_prefix. rewrite !append_assoc.
  rewrite !(append_cons ":" EmptyString), !append_nil.
  rewrite c_str_to_string. simpl (c_str (String _ _)).
  rewrite c_str_to_string. simpl (c_str (String _ _)).
  rewrite c_str_to_string. simpl (c_str (String _ _)).
  done.
Qed.

(** X10.  What [SendDataViaConnection] prints, the decoder of [ProcessWS]
    reads back.  For a connection that can transmit, with counters in the
    range of a non-negative [int], and a text payload without NUL byte, the
    buffer handed to the transport decodes, with its own length, to exactly
    the receive count, the send credits and the channel the sender had, and
    the payload. *)
Theorem sent_frame_decodes c data chid :
  fWSId c <> 0 ->
  0 < fSendCredits c <= INT_MAX ->
  0 <= fRecvCount c <= INT_MAX ->
  0 <= chid <= INT_MAX ->
  c_str data = data ->
  exists buf,
    (SendDataViaConnection true c true data chid).2 = [SendCharStarWS (fWSId c) buf] /\
    decode_frame buf (Zlength buf) =
      Accepted (mkFrame (fRecvCount c) (fSendCredits c) chid data).
Proof.
  intros Hws Hcr Hrc Hch Hdata.
  rewrite SendDataViaConnection_sent by (done || lia).
  eexists. split; [reflexivity|].
  rewrite c_str_frame_prefix, Hdata.
  destruct (to_string_decimal (fRecvCount c)) as [T1 V1]; [lia|].
  destruct (to_string_decimal (fSendCredits c)) as [T2 V2]; [lia|].
  destruct (to_string_decimal chid) as [T3 V3]; [lia|].
  replace (frame_prefix (fRecvCount c) (fSendCredits c) chid +:+ data)
    with (wire_frame (to_string (fRecvCount c)) (to_string (fSendCredits c))
                     (to_string chid) data).
  2:{ unfold wire_frame, frame_prefix. by rewrite !append_assoc. }
  rewrite decode_wire_frame by done. rewrite V1, V2, V3.
  unfold INT_MAX, ULONG_MAX in *.
  repeat match goal with |- context [?a <? ?b] => destruct (Z.ltb_spec a b); [lia|] end.
  done.
Qed.

Lemma sent_frame_decodes_witness :
  exists buf,
    (SendDataViaConnection true Scene.idle_conn true "hello" 1).2 =
      [SendCharStarWS (fWSId Scene.idle_conn) buf] /\
    decode_frame buf (Zlength buf) =
      Accepted (mkFrame (fRecvCount Scene.idle_conn) (fSendCredits Scene.idle_conn) 1 "hello").
Proof.
  apply (sent_frame_decodes Scene.idle_conn "hello" 1);
    try reflexivity; try discriminate; vm_compute; split; first [reflexivity | discriminate].
Defined.

(** X11.  A text payload is cut at its first NUL byte on the way out: the
    buffer goes to the transport as a C string, so the transport sees the
    prefix, which has no NUL byte whatever the counters, and the payload up
    to its first NUL.  A binary payload goes out whole, next to a header that
    ends in the binary marker. *)
Theorem text_cut_at_NUL c data chid :
  fWSId c <> 0 ->
  0 < fSendCredits c ->
  (SendDataViaConnection true c true data chid).2 =
    [SendCharStarWS (fWSId c)
       (frame_prefix (fRecvCount c) (fSendCredits c) chid +:+ c_str data)] /\
  (SendDataViaConnection true c false data chid).2 =
    [SendHeaderWS (fWSId c)
       (frame_prefix (fRecvCount c) (fSendCredits c) chid +:+ "$$binary$$") data].
Proof.
  intros Hws Hcr. rewrite !SendDataViaConnection_sent by done.
  by rewrite !c_str_frame_prefix.
Qed.

Lemma text_cut_at_NUL_witness :
  (SendDataViaConnection true Scene.idle_conn true Scene.nul_text 1).2 =
    [SendCharStarWS (fWSId Scene.idle_conn)
       (frame_prefix (fRecvCount Scene.idle_conn) (fSendCredits Scene.idle_conn) 1
        +:+ c_str Scene.nul_text)] /\
  (SendDataViaConnection true Scene.idle_conn false Scene.nul_text 1).2 =
    [SendHeaderWS (fWSId Scene.idle_conn)
       (frame_prefix (fRecvCount Scene.idle_conn) (fSendCredits Scene.idle_conn) 1
        +:+ "$$binary$$") Scene.nul_text].
Proof.
  apply (text_cut_at_NUL Scene.idle_conn Scene.nul_text 1); [discriminate | reflexivity].
Defined.

End Printing.

(** ** The drain loop, connection by connection *)

(** A window that is given in full is in working order, or well-formed, by
    computation. *)
Ltac in_order_by_computation :=
  split; [split; [reflexivity | repeat constructor; done] |
  split; [split; [apply (bool_decide_unpack _); vm_compute; exact I
                 | repeat constructor; done] |
  split; [apply (bool_decide_unpack _); vm_compute; exact I
         | vm_compute; discriminate]]].

Ltac well_formed_by_computation :=
  split; [reflexivity |
  split; [apply (bool_decide_unpack _); vm_compute; exact I |
  split; [apply (bool_decide_unpack _); vm_compute; exact I |
  split; [repeat constructor; done | vm_compute; split; first [reflexivity | discriminate]]]]].

Section Drain.

Lemma CheckDataToSend_conn_settled h c :
  (CheckDataToSend_conn h c).2 = false <-> settled c.
Proof.
  unfold CheckDataToSend_conn, settled, keepalive_due.
  destruct (Z.leb_spec (fSendCredits c) 0) as [Hcr|Hcr]; simpl.
  { split; [by left | done]. }
  destruct (fQueue c) as [|item rest].
  - destruct (_ && _).
    + destruct (SendDataViaConnection _ _ _ _ _). simpl.
      split; [done | intros [? | [_ ?]]; [lia | done]].
    + simpl. split; [by right | done].
  - destruct (SendDataViaConnection _ _ _ _ _). simpl.
    split; [done | intros [? | [? _]]; [lia | done]].
Qed.

Lemma settled_passed_over h c : settled c -> CheckDataToSend_conn h c = (c, [], false).
Proof.
  unfold CheckDataToSend_conn, settled, keepalive_due.
  intros [Hcr | [Hq Hk]].
  - by rewrite (proj2 (Z.leb_le _ _) Hcr).
  - rewrite Hq, Hk. by destruct (_ <=? _).
Qed.

Lemma CheckDataToSend_sweep_settled h conns :
  (CheckDataToSend_sweep h conns).2 = false -> Forall settled conns.
Proof.
  induction conns as [|c rest IH]; simpl; [constructor|].
  pose proof (CheckDataToSend_conn_settled h c) as Hc.
  destruct (CheckDataToSend_conn h c) as [[c' o1] a1].
  destruct (CheckDataToSend_sweep h rest) as [[rest' o2] a2]. simpl in *.
  intros [-> ->]%orb_false_iff. constructor; [by apply Hc | by apply IH].
Qed.

Lemma CheckDataToSend_loop_settled fuel h conns l o :
  CheckDataToSend_loop fuel h false conns = Some (l, o) -> Forall settled l.
Proof.
  revert conns l o. induction fuel as [|fuel IH]; intros conns l o; simpl; [done|].
  pose proof (CheckDataToSend_sweep_settled h conns) as Hs.
  pose proof (CheckDataToSend_sweep_idle h conns) as Hi.
  destruct (CheckDataToSend_sweep h conns) as [[l1 o1] any]. simpl in *.
  destruct any; simpl.
  - destruct (CheckDataToSend_loop fuel h false l1) as [[l2 o2]|] eqn:E; [|done].
    intros [= <- <-]. by eapply IH.
  - intros [= <- <-]. destruct Hi as [-> _]; [done|]. by apply Hs.
Qed.

(** One sweep, at the position [i]. *)
Lemma CheckDataToSend_sweep_at h conns i c :
  NoDup (fWSId <$> conns) ->
  conns !! i = Some c ->
  let r := CheckDataToSend_sweep h conns in
  r.1.1 !! i = Some (CheckDataToSend_conn h c).1.1 /\
  events_for (fWSId c) r.1.2 = events_for (fWSId c) (CheckDataToSend_conn h c).1.2.
Proof.
  revert i. induction conns as [|x rest IH]; intros i Hnd Hi; [done|].
  rewrite fmap_cons in Hnd. apply NoDup_cons in Hnd as [Hnin Hnd]. simpl.
  destruct i as [|i]; simpl in Hi.
  - injection Hi as ->.
    pose proof (CheckDataToSend_sweep_foreign (fWSId c) h rest Hnin) as Hf.
    destruct (CheckDataToSend_conn h c) as [[c' o1] a1].
    destruct (CheckDataToSend_sweep h rest) as [[rest' o2] a2].
    simpl in *. split; [done|].
    by rewrite events_for_app, (events_for_foreign _ o2), app_nil_r.
  - assert (fWSId x <> fWSId c) as Hne.
    { intros Heq. apply Hnin. rewrite Heq. by eapply lookup_wsid_elem. }
    pose proof (CheckDataToSend_conn_foreign (fWSId c) h x Hne) as Hf.
    destruct (IH i Hnd Hi) as [Hc' Ho].
    destruct (CheckDataToSend_conn h x) as [[x' o1] a1].
    destruct (CheckDataToSend_sweep h rest) as [[rest' o2] a2].
    simpl in *. split; [done|].
    by rewrite events_for_app, (events_for_foreign _ o1).
Qed.

(** The drain loop passes over a settled connection in every sweep. *)
Lemma CheckDataToSend_loop_passes fuel h once conns conns' out i c :
  NoDup (fWSId <$> conns) ->
  conns !! i = Some c ->
  settled c ->
  CheckDataToSend_loop fuel h once conns = Some (conns', out) ->
  conns' !! i = Some c /\ events_for (fWSId c) out = [].
Proof.
  revert conns conns' out.
  induction fuel as [|fuel IH]; intros conns conns' out Hnd Hi Hs; simpl; [done|].
  destruct (CheckDataToSend_sweep_at h conns i c Hnd Hi) as [Hc1 Ho1].
  rewrite (settled_passed_over h c Hs) in Hc1, Ho1.
  pose proof (CheckDataToSend_sweep_identity h conns) as Hid.
  destruct (CheckDataToSend_sweep h conns) as [[l1 o1] any]. simpl in *.
  destruct (any && negb once).
  - destruct (CheckDataToSend_loop fuel h once l1) as [[l2 o2]|] eqn:E; [|done].
    intros [= <- <-].
    destruct (IH l1 l2 o2) as [Hc2 Ho2]; try done.
    { by rewrite (Forall2_same_identity_wsids _ _ Hid). }
    split; [done|]. by rewrite events_for_app, Ho1, Ho2.
  - by intros [= <- <-].
Qed.

Lemma CheckDataToSend_passes once w w' out i c :
  NoDup (fWSId <$> fConn w) ->
  fConn w !! i = Some c ->
  settled c ->
  CheckDataToSend once w = Some (w', out) ->
  fConn w' !! i = Some c /\ events_for (fWSId c) out = [].
Proof.
  intros Hnd Hi Hs E. unfold CheckDataToSend in E.
  destruct (CheckDataToSend_loop _ _ _ _) as [[l o]|] eqn:El; [|done].
  injection E as <- <-. simpl. by eapply CheckDataToSend_loop_passes.
Qed.

Lemma CheckDataToSend_settled w w' out :
  CheckDataToSend false w = Some (w', out) -> Forall settled (fConn w').
Proof.
  intros E. unfold CheckDataToSend in E.
  destruct (CheckDataToSend_loop _ _ _ _) as [[l o]|] eqn:El; [|done].
  injection E as <- <-. simpl. by eapply CheckDataToSend_loop_settled.
Qed.

(** X12.  [CheckDataToSend] in its default mode fails to come back exactly
    when some connection is stuck: it has send credits and a keep-alive is
    due, but it cannot transmit (its websocket id is the null id, or the
    window has no handler), so every sweep tries the keep-alive again.  With
    [only_once] it always comes back. *)
Theorem drain_hangs_iff_stuck w :
  (CheckDataToSend false w = None <->
   Exists (fun c => stuck (fWSHandler w) c = true) (fConn w)) /\
  is_Some (CheckDataToSend true w).
Proof.
  split; [split|].
  - intros Hnone.
    destruct (decide (Exists (fun c => stuck (fWSHandler w) c = true) (fConn w)))
      as [|Hno]; [done|].
    exfalso. apply not_Exists_Forall in Hno; [|intros c; apply _].
    destruct (CheckDataToSend_loop_ends_general (sweep_bound (fConn w)) (fWSHandler w)
                false (fConn w)) as [[l o] E].
    { eapply Forall_impl; [exact Hno|]. intros c Hc. simpl in Hc.
      by destruct (stuck (fWSHandler w) c). }
    { apply work_lt_sweep_bound. }
    unfold CheckDataToSend in Hnone. by rewrite E in Hnone.
  - intros Hex. unfold CheckDataToSend.
    by rewrite CheckDataToSend_loop_hangs.
  - unfold CheckDataToSend, sweep_bound. simpl.
    destruct (CheckDataToSend_sweep _ _) as [[l o] any].
    by rewrite andb_false_r.
Qed.

(** X13.  On a window whose connections can transmit, [CheckDataToSend] in
    its default mode comes back, and then every connection is settled: it has
    no send credit left, or its queue is empty and no keep-alive is due.  The
    drain hands frames to the transport or logs, and changes no connection's
    ids, process or stage. *)
Theorem drain_settles w :
  can_transmit w ->
  exists w' out,
    CheckDataToSend false w = Some (w', out) /\
    Forall settled (fConn w') /\
    Forall2 same_identity (fConn w) (fConn w') /\
    Forall send_effect out.
Proof.
  intros Hw.
  destruct (CheckDataToSend_returns false w Hw) as (conns' & out & E & Hid & Hs).
  exists (set_fConn conns' w), out. split; [done|]. split; [|done].
  by eapply CheckDataToSend_settled.
Qed.

Lemma drain_settles_witness :
  exists w' out,
    CheckDataToSend false Scene.lively = Some (w', out) /\
    Forall settled (fConn w') /\
    Forall2 same_identity (fConn Scene.lively) (fConn w') /\
    Forall send_effect out.
Proof.
  apply (drain_settles Scene.lively).
  split; [reflexivity|]. repeat constructor. discriminate.
Defined.

(** X14.  A connection with an empty queue, send credits and a keep-alive
    due (fewer than 3 client credits, more than one frame received since the
    last one sent) gets exactly one frame from a drain of a window in working
    order: the KEEPALIVE text on channel 0, with the receive count and the
    send credits it had in the prefix.  Afterwards its receive count is 0 and
    it has one send credit less; nothing else of it has changed. *)
Theorem keepalive_sent_once w i c :
  in_order w ->
  fConn w !! i = Some c ->
  fQueue c = [] ->
  0 < fSendCredits c <= INT_MAX ->
  keepalive_due c = true ->
  exists w' out,
    CheckDataToSend false w = Some (w', out) /\
    fConn w' !! i =
      Some (set_counters 0 (fSendCredits c - 1) (fClientCredits c) c) /\
    events_for (fWSId c) out =
      [SendCharStarWS (fWSId c)
         (c_str (frame_prefix (fRecvCount c) (fSendCredits c) 0 +:+ "KEEPALIVE"))].
Proof.
  intros Hord Hi Hq Hcr Hk. pose proof Hord as ([Hh Hws] & _ & Hnd & _).
  destruct (CheckDataToSend_returns false w (conj Hh Hws)) as (conns' & out & E & Hid & _).
  exists (set_fConn conns' w), out. split; [done|].
  assert (fWSId c <> 0) as Hc0.
  { eapply (proj1 (Forall_lookup _ _) Hws); eauto. }
  set (c1 := set_counters 0 (fSendCredits c - 1) (fClientCredits c) c).
  assert (CheckDataToSend_conn true c =
            (c1, [SendCharStarWS (fWSId c)
                    (c_str (frame_prefix (fRecvCount c) (fSendCredits c) 0 +:+ "KEEPALIVE"))],
             true)) as Hstep.
  { unfold CheckDataToSend_conn. unfold keepalive_due in Hk.
    destruct (Z.leb_spec (fSendCredits c) 0); [lia|]. rewrite Hq, Hk.
    rewrite SendDataViaConnection_sent by (done || lia).
    rewrite to_int_small by lia. done. }
  assert (settled c1) as Hs1.
  { right. split; [exact Hq|]. unfold keepalive_due. simpl. apply andb_false_r. }
  unfold CheckDataToSend in E. rewrite Hh in E. unfold sweep_bound in E. simpl in E.
  destruct (CheckDataToSend_sweep_at true (fConn w) i c Hnd Hi) as [Hc1 Ho1].
  rewrite Hstep in Hc1, Ho1. simpl in Hc1, Ho1.
  pose proof (CheckDataToSend_sweep_identity true (fConn w)) as Hid1.
  destruct (CheckDataToSend_sweep true (fConn w)) as [[l1 o1] any]. simpl in *.
  assert (events_for (fWSId c) o1 =
            [SendCharStarWS (fWSId c)
               (c_str (frame_prefix (fRecvCount c) (fSendCredits c) 0 +:+ "KEEPALIVE"))])
    as Ho1'.
  { rewrite Ho1. unfold events_for. rewrite filter_cons. simpl.
    by destruct (decide _). }
  destruct any; simpl in E.
  - destruct (CheckDataToSend_loop _ _ _ _) as [[l2 o2]|] eqn:El; [|done].
    injection E as <- <-.
    destruct (CheckDataToSend_loop_passes _ _ _ _ _ _ i c1
                ltac:(by rewrite (Forall2_same_identity_wsids _ _ Hid1)) Hc1 Hs1 El)
      as [Hc2 Ho2].
    split; [done|]. change (fWSId c1) with (fWSId c) in Ho2.
    by rewrite events_for_app, Ho1', Ho2.
  - injection E as <- <-. done.
Qed.

Lemma keepalive_sent_once_witness :
  exists w' out,
    CheckDataToSend false Scene.lively = Some (w', out) /\
    fConn w' !! 0%nat =
      Some (set_counters 0 (fSendCredits Scene.idle_conn - 1)
              (fClientCredits Scene.idle_conn) Scene.idle_conn) /\
    events_for (fWSId Scene.idle_conn) out =
      [SendCharStarWS (fWSId Scene.idle_conn)
         (c_str (frame_prefix (fRecvCount Scene.idle_conn) (fSendCredits Scene.idle_conn) 0
                 +:+ "KEEPALIVE"))].
Proof.
  apply (keepalive_sent_once Scene.lively 0%nat Scene.idle_conn); try reflexivity.
  - in_order_by_computation.
  - vm_compute; split; first [reflexivity | discriminate].
Defined.

Lemma CheckDataToSend_conn_one_frame h c :
  (length (CheckDataToSend_conn h c).1.2 <= 1)%nat /\
  (length (fQueue c) <= S (length (fQueue (CheckDataToSend_conn h c).1.1)))%nat.
Proof.
  assert (forall txt data chid,
            (length (SendDataViaConnection h c txt data chid).2 <= 1)%nat) as Hone.
  { intros. unfold SendDataViaConnection.
    destruct (_ || _); [done|]. destruct (_ <=? _); [done|]. by destruct txt. }
  unfold CheckDataToSend_conn.
  destruct (_ <=? _); [simpl; lia|].
  destruct (fQueue c) as [|item rest] eqn:Hq.
  - destruct (_ && _); [|simpl; lia].
    specialize (Hone true "KEEPALIVE" 0).
    destruct (SendDataViaConnection _ _ _ _ _). simpl in *. lia.
  - specialize (Hone (fText item) (fData item) (fChID item)).
    destruct (SendDataViaConnection _ _ _ _ _). simpl in *. lia.
Qed.

(** X15.  A single pass ([only_once]) over a window with distinct websocket
    ids comes back, hands at most one frame to the transport for each
    connection, and takes at most one item off each queue. *)
Theorem single_pass_one_frame w i c :
  NoDup (fWSId <$> fConn w) ->
  fConn w !! i = Some c ->
  exists w' out c',
    CheckDataToSend true w = Some (w', out) /\
    fConn w' !! i = Some c' /\
    (length (events_for (fWSId c) out) <= 1)%nat /\
    (length (fQueue c) <= S (length (fQueue c')))%nat.
Proof.
  intros Hnd Hi. unfold CheckDataToSend, sweep_bound. simpl.
  destruct (CheckDataToSend_sweep_at (fWSHandler w) (fConn w) i c Hnd Hi) as [Hc1 Ho1].
  destruct (CheckDataToSend_conn_one_frame (fWSHandler w) c) as [Hone Hq].
  destruct (CheckDataToSend_sweep _ _) as [[l o] any]. simpl in *.
  rewrite andb_false_r.
  exists (set_fConn l w), o, (CheckDataToSend_conn (fWSHandler w) c).1.1.
  split; [done|]. split; [done|]. split; [|done].
  rewrite Ho1. unfold events_for.
  etrans; [apply length_filter | done].
Qed.

Lemma single_pass_one_frame_witness :
  exists w' out c',
    CheckDataToSend true Scene.lively = Some (w', out) /\
    fConn w' !! 0%nat = Some c' /\
    (length (events_for (fWSId Scene.idle_conn) out) <= 1)%nat /\
    (length (fQueue Scene.idle_conn) <= S (length (fQueue c')))%nat.
Proof.
  apply (single_pass_one_frame Scene.lively 0%nat Scene.idle_conn); [|reflexivity].
  apply (bool_decide_unpack _). vm_compute. exact I.
Defined.

End Drain.

(** ** Submissions, connection by connection *)

Section Submission.

Lemma targets_lookup connid conns i c :
  conns !! i = Some c -> targeted connid c = true -> (1 <= targets connid conns)%nat.
Proof.
  revert i. induction conns as [|x rest IH]; intros [|i] Hi Ht; simpl in *; try done.
  - injection Hi as ->. rewrite Ht. lia.
  - specialize (IH i Hi Ht). lia.
Qed.

(** The local counter of [SubmitData] decides between copy and move only. *)
Lemma SubmitData_conn_any_counter h maxq txt chid c k k' data :
  (SubmitData_conn h maxq txt chid c k data).1.1.1 =
    (SubmitData_conn h maxq txt chid c k' data).1.1.1 /\
  (SubmitData_conn h maxq txt chid c k data).2 =
    (SubmitData_conn h maxq txt chid c k' data).2.
Proof.
  unfold SubmitData_conn. destruct (_ && _).
  - by destruct (SendDataViaConnection _ _ _ _ _).
  - by destruct (_ <? _).
Qed.

(** The loop of [SubmitData], at the position [i]. *)
Lemma SubmitData_loop_at h maxq connid txt chid data conns :
  forall i c cnt dcur,
    NoDup (fWSId <$> conns) ->
    conns !! i = Some c ->
    targets connid conns = O \/
      (dcur = data /\ Z.of_nat (targets connid conns) <= cnt <= INT_MAX) ->
    let r := SubmitData_loop h maxq connid txt chid conns cnt dcur in
    if targeted connid c
    then r.1.1.1 !! i = Some (SubmitData_conn h maxq txt chid c 1 data).1.1.1 /\
         events_for (fWSId c) r.2 =
           events_for (fWSId c) (SubmitData_conn h maxq txt chid c 1 data).2
    else r.1.1.1 !! i = Some c /\ events_for (fWSId c) r.2 = [].
Proof.
  induction conns as [|x rest IH]; intros i c cnt dcur Hnd Hi Hinv; [done|].
  destruct Hinv as [Hz | [-> Hcnt]].
  { cbn zeta. rewrite SubmitData_loop_untargeted by done. simpl.
    destruct (targeted connid c) eqn:Ht; [|done].
    pose proof (targets_lookup _ _ _ _ Hi Ht). lia. }
  rewrite fmap_cons in Hnd. apply NoDup_cons in Hnd as [Hnin Hnd].
  simpl. rewrite negb_targeted. simpl in Hcnt.
  destruct (targeted connid x) eqn:Ht; simpl.
  - pose proof (SubmitData_conn_counter h maxq txt chid x cnt data ltac:(lia)) as Hk.
    pose proof (fun H => SubmitData_conn_foreign (fWSId c) h maxq txt chid x cnt data H)
      as Hxf.
    destruct (SubmitData_conn_any_counter h maxq txt chid x cnt 1 data) as [Hx1 Hx2].
    destruct (SubmitData_conn h maxq txt chid x cnt data) as [[[x' k] d] o0].
    simpl in Hk, Hxf, Hx1, Hx2.
    assert (targets connid rest = O \/
            (d = data /\ Z.of_nat (targets connid rest) <= k <= INT_MAX)) as Hrest.
    { destruct Hk as [[-> ->] | [-> ->]]; [right; split; [done | lia]|].
      destruct (Z.eqb_spec (cnt - 1) 0); [left; lia | right; split; [done | lia]]. }
    destruct i as [|i]; simpl in Hi.
    + injection Hi as ->. rewrite Ht.
      pose proof (SubmitData_loop_foreign (fWSId c) h maxq connid txt chid rest k d Hnin)
        as Hf.
      destruct (SubmitData_loop h maxq connid txt chid rest k d) as [[[r1 k1] d1] o1].
      simpl in *. split; [by rewrite Hx1|].
      by rewrite events_for_app, (events_for_foreign _ o1), app_nil_r, Hx2.
    + assert (fWSId x <> fWSId c) as Hne.
      { intros Heq. apply Hnin. rewrite Heq. by eapply lookup_wsid_elem. }
      specialize (IH i c k d Hnd Hi Hrest).
      destruct (SubmitData_loop h maxq connid txt chid rest k d) as [[[r1 k1] d1] o1].
      simpl in *. rewrite events_for_app, (events_for_foreign _ o0) by auto. done.
  - destruct i as [|i]; simpl in Hi.
    + injection Hi as ->. rewrite Ht.
      pose proof (SubmitData_loop_foreign (fWSId c) h maxq connid txt chid rest cnt data
                    Hnin) as Hf.
      destruct (SubmitData_loop h maxq connid txt chid rest cnt data) as [[[r1 k1] d1] o1].
      simpl in *. split; [done|]. by apply events_for_foreign.
    + assert (targets connid rest = O \/
              (data = data /\ Z.of_nat (targets connid rest) <= cnt <= INT_MAX)) as Hrest
        by (right; split; [done | lia]).
      specialize (IH i c cnt data Hnd Hi Hrest).
      destruct (SubmitData_loop h maxq connid txt chid rest cnt data) as [[[r1 k1] d1] o1].
      simpl in *. done.
Qed.

(** The counter [SubmitData] starts with covers the connections it is
    addressed to. *)
Lemma SubmitData_counter_covers w connid :
  in_order w ->
  let cnt := if connid =? 0 then to_int (Z.of_nat (length (fConn w))) else 1 in
  Z.of_nat (targets connid (fConn w)) <= cnt <= INT_MAX.
Proof.
  intros (_ & Hd & _ & Hlen). simpl.
  destruct (Z.eqb_spec connid 0) as [->|Hne].
  - rewrite targets_broadcast, to_int_small by lia. lia.
  - pose proof (targets_single connid (fConn w) Hne Hd). unfold INT_MAX. lia.
Qed.

Lemma CanSend_loop_lookup maxq connid direct conns i c :
  CanSend_loop maxq connid direct conns = true ->
  conns !! i = Some c ->
  targeted connid c = true ->
  Z.of_nat (length (fQueue c)) < maxq /\
  (direct = true -> fQueue c = [] /\ fSendCredits c <> 0).
Proof.
  revert i. induction conns as [|x rest IH]; intros i Hcan Hi Ht; [done|].
  simpl in Hcan. rewrite negb_targeted in Hcan.
  destruct i as [|i]; simpl in Hi.
  - injection Hi as ->. rewrite Ht in Hcan. simpl in Hcan.
    destruct (direct && _) eqn:Hd; [done|].
    destruct (Z.leb_spec maxq (Z.of_nat (length (fQueue c)))); [done|].
    split; [done|]. intros ->. simpl in Hd. apply orb_false_iff in Hd as [Hq Hcr].
    split.
    + destruct (fQueue c); [done | discriminate].
    + by apply Z.eqb_neq.
  - destruct (targeted connid x); simpl in Hcan.
    + destruct (direct && _); [done|]. destruct (_ <=? _); [done|]. by eapply IH.
    + by eapply IH.
Qed.

Lemma SendDataViaConnection_no_overflow h c txt data chid :
  Forall (fun e => e <> overflow_line) (SendDataViaConnection h c txt data chid).2.
Proof.
  unfold SendDataViaConnection.
  destruct (_ || _); [by repeat constructor|].
  destruct (_ <=? _); [by repeat constructor|].
  destruct txt; by repeat constructor.
Qed.

Lemma CheckDataToSend_conn_no_overflow h c :
  Forall (fun e => e <> overflow_line) (CheckDataToSend_conn h c).1.2.
Proof.
  unfold CheckDataToSend_conn.
  destruct (_ <=? _); [constructor|].
  destruct (fQueue c) as [|item rest].
  - destruct (_ && _); [|constructor].
    pose proof (SendDataViaConnection_no_overflow h c true "KEEPALIVE" 0).
    by destruct (SendDataViaConnection _ _ _ _ _).
  - pose proof (SendDataViaConnection_no_overflow h c (fText item) (fData item) (fChID item)).
    by destruct (SendDataViaConnection _ _ _ _ _).
Qed.

Lemma CheckDataToSend_sweep_no_overflow h conns :
  Forall (fun e => e <> overflow_line) (CheckDataToSend_sweep h conns).1.2.
Proof.
  induction conns as [|c rest IH]; simpl; [constructor|].
  pose proof (CheckDataToSend_conn_no_overflow h c) as Hc.
  destruct (CheckDataToSend_conn h c) as [[c' o1] a1].
  destruct (CheckDataToSend_sweep h rest) as [[rest' o2] a2].
  by apply Forall_app.
Qed.

Lemma CheckDataToSend_loop_no_overflow fuel h once conns conns' out :
  CheckDataToSend_loop fuel h once conns = Some (conns', out) ->
  Forall (fun e => e <> overflow_line) out.
Proof.
  revert conns conns' out. induction fuel as [|fuel IH]; intros conns conns' out; simpl;
    [done|].
  pose proof (CheckDataToSend_sweep_no_overflow h conns) as Hs.
  destruct (CheckDataToSend_sweep h conns) as [[l1 o1] any]. simpl in Hs.
  destruct (any && negb once).
  - destruct (CheckDataToSend_loop fuel h once l1) as [[l2 o2]|] eqn:E; [|done].
    intros [= <- <-]. apply Forall_app. split; [done | by eapply IH].
  - by intros [= <- <-].
Qed.

Lemma SubmitData_loop_room h maxq connid txt chid conns cnt data :
  CanSend_loop maxq connid false conns = true ->
  Forall (fun e => e <> overflow_line)
         (SubmitData_loop h maxq connid txt chid conns cnt data).2.
Proof.
  revert cnt data. induction conns as [|c rest IH]; intros cnt data Hcan; simpl;
    [constructor|].
  simpl in Hcan. destruct (negb (connid =? 0) && negb (connid =? fConnId c)).
  { specialize (IH cnt data Hcan).
    by destruct (SubmitData_loop h maxq connid txt chid rest cnt data) as [[[r1 k1] d1] o1]. }
  destruct (Z.leb_spec maxq (Z.of_nat (length (fQueue c)))) as [|Hroom]; [done|].
  assert (Forall (fun e => e <> overflow_line)
                 (SubmitData_conn h maxq txt chid c cnt data).2) as Hc.
  { unfold SubmitData_conn. destruct (_ && _).
    - pose proof (SendDataViaConnection_no_overflow h c txt data chid).
      by destruct (SendDataViaConnection _ _ _ _ _).
    - rewrite (proj2 (Z.ltb_lt _ _) Hroom). constructor. }
  destruct (SubmitData_conn h maxq txt chid c cnt data) as [[[c' k] d] o0].
  specialize (IH k d Hcan).
  destruct (SubmitData_loop h maxq connid txt chid rest k d) as [[[r1 k1] d1] o1].
  by apply Forall_app.
Qed.

(** X16.  When [CanSend(connid, false)] says yes, a submission to [connid]
    made next does not lose its item to a full queue: on a window whose
    connections can transmit, [SubmitData] comes back and the line for a full
    queue is not among what it logs. *)
Theorem CanSend_means_no_drop w connid txt data chid :
  can_transmit w ->
  CanSend w connid false = true ->
  exists w' out,
    SubmitData w connid txt data chid = Some (w', out) /\
    overflow_line ∉ out.
Proof.
  intros Hw Hcan.
  destruct (SubmitData_returns w connid txt data chid Hw) as [[w' out] E].
  exists w', out. split; [done|].
  unfold SubmitData in E.
  pose proof (SubmitData_loop_room (fWSHandler w) (fMaxQueueLength w) connid txt chid
                (fConn w) (if connid =? 0 then to_int (Z.of_nat (length (fConn w))) else 1)
                data Hcan) as Hl.
  destruct (SubmitData_loop _ _ _ _ _ _ _ _) as [[[l1 k1] d1] o1]. simpl in Hl.
  destruct (CheckDataToSend false (set_fConn l1 w)) as [[w2 o2]|] eqn:E2; [|done].
  injection E as <- <-.
  unfold CheckDataToSend in E2.
  destruct (CheckDataToSend_loop _ _ _ _) as [[l2 o2']|] eqn:El; [|done].
  injection E2 as <- <-.
  apply CheckDataToSend_loop_no_overflow in El.
  intros Hin. apply elem_of_app in Hin as [Hin|Hin].
  - by apply (proj1 (Forall_forall _ _) Hl _ Hin).
  - by apply (proj1 (Forall_forall _ _) El _ Hin).
Qed.

Lemma CanSend_means_no_drop_witness :
  exists w' out,
    SubmitData Sample.duo 0 true "x" 1 = Some (w', out) /\
    overflow_line ∉ out.
Proof.
  apply (CanSend_means_no_drop Sample.duo 0 true "x" 1); [|reflexivity].
  split; [reflexivity|]. repeat constructor; discriminate.
Defined.

(** X17.  When [CanSend(connid, true)] says yes on a window in working
    order, a submission to [connid] made next goes out at once on every
    connection it is addressed to, provided that connection's send credits
    are not negative: the transport gets exactly one frame for it, the
    submitted payload on the submitted channel behind the counters the
    connection had; afterwards its queue is still empty, its receive count is
    0 and it has one send credit less. *)
Theorem CanSend_direct_transmits w connid txt data chid i c :
  in_order w ->
  CanSend w connid true = true ->
  fConn w !! i = Some c ->
  targeted connid c = true ->
  credits_ok c ->
  exists w' out,
    SubmitData w connid txt data chid = Some (w', out) /\
    fConn w' !! i = Some (set_counters 0 (fSendCredits c - 1) (fClientCredits c) c) /\
    events_for (fWSId c) out =
      [if txt
       then SendCharStarWS (fWSId c)
              (c_str (frame_prefix (fRecvCount c) (fSendCredits c) chid +:+ data))
       else SendHeaderWS (fWSId c)
              (c_str (frame_prefix (fRecvCount c) (fSendCredits c) chid +:+ "$$binary$$"))
              data].
Proof.
  intros Hord Hcan Hi Ht Hcr. pose proof Hord as ([Hh Hws] & Hd & Hnd & Hlen).
  destruct (SubmitData_returns w connid txt data chid (conj Hh Hws)) as [[w' out] E].
  exists w', out. split; [done|].
  destruct (CanSend_loop_lookup _ _ _ _ _ _ Hcan Hi Ht) as [Hroom Hdirect].
  destruct (Hdirect eq_refl) as [Hq Hnz]. clear Hdirect.
  assert (fWSId c <> 0) as Hc0.
  { eapply (proj1 (Forall_lookup _ _) Hws); eauto. }
  assert (0 < fSendCredits c <= INT_MAX) as Hpos by (unfold credits_ok in Hcr; lia).
  set (c1 := set_counters 0 (fSendCredits c - 1) (fClientCredits c) c).
  set (e := if txt
            then SendCharStarWS (fWSId c)
                   (c_str (frame_prefix (fRecvCount c) (fSendCredits c) chid +:+ data))
            else SendHeaderWS (fWSId c)
                   (c_str (frame_prefix (fRecvCount c) (fSendCredits c) chid +:+ "$$binary$$"))
                   data).
  assert (SubmitData_conn true (fMaxQueueLength w) txt chid c 1 data = (c1, 1, data, [e]))
    as Hstep.
  { unfold SubmitData_conn. rewrite Hq. simpl.
    rewrite (proj2 (Z.ltb_lt _ _) (proj1 Hpos)).
    rewrite SendDataViaConnection_sent by (done || lia).
    rewrite to_int_small by lia. done. }
  assert (settled c1) as Hs1.
  { right. split; [exact Hq|]. unfold keepalive_due. simpl. apply andb_false_r. }
  unfold SubmitData in E. rewrite Hh in E.
  pose proof (SubmitData_loop_at true (fMaxQueueLength w) connid txt chid data (fConn w)
                i c _ data Hnd Hi
                (or_intror (conj eq_refl (SubmitData_counter_covers w connid Hord))))
    as Hat.
  cbn zeta in Hat. rewrite Ht, Hstep in Hat.
  pose proof (SubmitData_loop_spec true (fMaxQueueLength w) connid txt chid (fConn w)
                (if connid =? 0 then to_int (Z.of_nat (length (fConn w))) else 1) data)
    as [Hid1 _].
  destruct (SubmitData_loop _ _ _ _ _ _ _ _) as [[[l1 k1] d1] o1].
  simpl in Hat, Hid1. destruct Hat as [Hc1 Ho1].
  destruct (CheckDataToSend false (set_fConn l1 w)) as [[w2 o2]|] eqn:E2; [|done].
  injection E as <- <-.
  destruct (CheckDataToSend_passes false (set_fConn l1 w) w2 o2 i c1) as [Hc2 Ho2];
    try done.
  { simpl. by rewrite (Forall2_same_identity_wsids _ _ Hid1). }
  split; [done|]. change (fWSId c1) with (fWSId c) in Ho2.
  rewrite events_for_app, Ho1, Ho2, app_nil_r.
  unfold events_for. rewrite filter_cons. subst e. destruct txt; simpl; by destruct (decide _).
Qed.

Lemma CanSend_direct_transmits_witness :
  exists w' out,
    SubmitData Sample.duo 0 true "x" 1 = Some (w', out) /\
    fConn w' !! 0%nat =
      Some (set_counters 0 (fSendCredits (newWebConn 2 1 7) - 1)
              (fClientCredits (newWebConn 2 1 7)) (newWebConn 2 1 7)) /\
    events_for (fWSId (newWebConn 2 1 7)) out =
      [if true
       then SendCharStarWS (fWSId (newWebConn 2 1 7))
              (c_str (frame_prefix (fRecvCount (newWebConn 2 1 7))
                        (fSendCredits (newWebConn 2 1 7)) 1 +:+ "x"))
       else SendHeaderWS (fWSId (newWebConn 2 1 7))
              (c_str (frame_prefix (fRecvCount (newWebConn 2 1 7))
                        (fSendCredits (newWebConn 2 1 7)) 1 +:+ "$$binary$$"))
              "x"].
Proof.
  apply (CanSend_direct_transmits Sample.duo 0 true "x" 1 0%nat (newWebConn 2 1 7));
    try reflexivity.
  - in_order_by_computation.
  - vm_compute; split; first [reflexivity | discriminate].
Defined.

(** X18.  A submission to a connection id that no connection has is
    nothing but a drain pass: the payload is dropped without a log line, and
    the call does exactly what [CheckDataToSend] does. *)
Theorem submit_to_nobody w connid txt data chid :
  connid <> 0 ->
  connid ∉ fConnId <$> fConn w ->
  SubmitData w connid txt data chid = CheckDataToSend false w.
Proof.
  intros Hne Hnin. unfold SubmitData.
  rewrite SubmitData_loop_skip; [|done|].
  - replace (set_fConn (fConn w) w) with w by (by destruct w).
    destruct (CheckDataToSend false w) as [[w' o]|]; done.
  - apply Forall_forall. intros c Hc Heq. apply Hnin. rewrite <- Heq.
    by apply list_elem_of_fmap_2.
Qed.

Lemma submit_to_nobody_witness :
  SubmitData Sample.plain 5 true "x" 1 = CheckDataToSend false Sample.plain.
Proof.
  apply (submit_to_nobody Sample.plain 5 true "x" 1); [discriminate|].
  apply (bool_decide_unpack _). vm_compute. exact I.
Defined.

(** X19.  A submission leaves alone every settled connection it is not
    addressed to: on a window in working order the call comes back, such a
    connection is exactly as before, and the transport gets nothing for its
    websocket. *)
Theorem submission_leaves_others w connid txt data chid i c :
  in_order w ->
  fConn w !! i = Some c ->
  targeted connid c = false ->
  settled c ->
  exists w' out,
    SubmitData w connid txt data chid = Some (w', out) /\
    fConn w' !! i = Some c /\
    events_for (fWSId c) out = [].
Proof.
  intros Hord Hi Ht Hs. pose proof Hord as (Hw & _ & Hnd & _).
  destruct (SubmitData_returns w connid txt data chid Hw) as [[w' out] E].
  exists w', out. split; [done|].
  unfold SubmitData in E.
  pose proof (SubmitData_loop_at (fWSHandler w) (fMaxQueueLength w) connid txt chid data
                (fConn w) i c _ data Hnd Hi
                (or_intror (conj eq_refl (SubmitData_counter_covers w connid Hord))))
    as Hat.
  cbn zeta in Hat. rewrite Ht in Hat.
  pose proof (SubmitData_loop_spec (fWSHandler w) (fMaxQueueLength w) connid txt chid
                (fConn w)
                (if connid =? 0 then to_int (Z.of_nat (length (fConn w))) else 1) data)
    as [Hid1 _].
  destruct (SubmitData_loop _ _ _ _ _ _ _ _) as [[[l1 k1] d1] o1].
  simpl in Hat, Hid1. destruct Hat as [Hc1 Ho1].
  destruct (CheckDataToSend false (set_fConn l1 w)) as [[w2 o2]|] eqn:E2; [|done].
  injection E as <- <-.
  destruct (CheckDataToSend_passes false (set_fConn l1 w) w2 o2 i c) as [Hc2 Ho2];
    try done.
  { simpl. by rewrite (Forall2_same_identity_wsids _ _ Hid1). }
  split; [done|]. by rewrite events_for_app, Ho1, Ho2.
Qed.

Lemma submission_leaves_others_witness :
  exists w' out,
    SubmitData Sample.duo 1 true "x" 1 = Some (w', out) /\
    fConn w' !! 1%nat = Some (newWebConn 2 2 8) /\
    events_for (fWSId (newWebConn 2 2 8)) out = [].
Proof.
  apply (submission_leaves_others Sample.duo 1 true "x" 1 1%nat (newWebConn 2 2 8));
    try reflexivity.
  - in_order_by_computation.
  - right. split; reflexivity.
Defined.

End Submission.

(** ** Every frame costs one credit *)

Section Accounting.

Lemma paid_nothing c : credits_ok c -> paid c [] c.
Proof. intros Hc. split; [done|]. simpl. lia. Qed.

Lemma paid_trans c o1 c1 o2 c2 :
  paid c o1 c1 -> fWSId c1 = fWSId c -> paid c1 o2 c2 -> paid c (o1 ++ o2) c2.
Proof.
  intros [_ H1] Hw [Hok H2]. split; [done|].
  rewrite events_for_app, length_app. rewrite Hw in H2. lia.
Qed.

Lemma SendDataViaConnection_paid h c txt data chid :
  credits_ok c ->
  paid c (SendDataViaConnection h c txt data chid).2 (SendDataViaConnection h c txt data chid).1.
Proof.
  intros Hc. unfold SendDataViaConnection.
  destruct (_ || _); [by apply paid_nothing|].
  destruct (Z.leb_spec (fSendCredits c) 0); [by apply paid_nothing|].
  unfold credits_ok in Hc.
  assert (to_int (fSendCredits c - 1) = fSendCredits c - 1) as Hs
    by (apply to_int_small; lia).
  unfold paid, credits_ok, events_for.
  destruct txt; simpl; rewrite Hs, filter_cons; simpl;
    (destruct (decide _); [|done]); simpl; lia.
Qed.

Lemma CheckDataToSend_conn_paid h c :
  credits_ok c -> paid c (CheckDataToSend_conn h c).1.2 (CheckDataToSend_conn h c).1.1.
Proof.
  intros Hc. unfold CheckDataToSend_conn.
  destruct (_ <=? _); [by apply paid_nothing|].
  destruct (fQueue c) as [|item rest].
  - destruct (_ && _); [|by apply paid_nothing].
    pose proof (SendDataViaConnection_paid h c true "KEEPALIVE" 0 Hc).
    by destruct (SendDataViaConnection _ _ _ _ _).
  - pose proof (SendDataViaConnection_paid h c (fText item) (fData item) (fChID item) Hc).
    by destruct (SendDataViaConnection _ _ _ _ _).
Qed.

Lemma SubmitData_conn_paid h maxq txt chid c cnt data :
  credits_ok c ->
  paid c (SubmitData_conn h maxq txt chid c cnt data).2
         (SubmitData_conn h maxq txt chid c cnt data).1.1.1.
Proof.
  intros Hc. unfold SubmitData_conn. destruct (_ && _).
  - pose proof (SendDataViaConnection_paid h c txt data chid Hc).
    by destruct (SendDataViaConnection _ _ _ _ _).
  - destruct (_ <? _); [|by apply paid_nothing].
    split; [done | simpl; lia].
Qed.

Lemma CheckDataToSend_loop_paid fuel h once conns conns' out i c :
  NoDup (fWSId <$> conns) ->
  conns !! i = Some c ->
  credits_ok c ->
  CheckDataToSend_loop fuel h once conns = Some (conns', out) ->
  exists c', conns' !! i = Some c' /\ paid c out c'.
Proof.
  revert conns conns' out c.
  induction fuel as [|fuel IH]; intros conns conns' out c Hnd Hi Hc; simpl; [done|].
  destruct (CheckDataToSend_sweep_at h conns i c Hnd Hi) as [Hc1 Ho1].
  pose proof (CheckDataToSend_conn_paid h c Hc) as [Hok1 Hp1].
  pose proof (CheckDataToSend_conn_identity h c) as (_ & Hw1 & _).
  pose proof (CheckDataToSend_sweep_identity h conns) as Hid.
  destruct (CheckDataToSend_conn h c) as [[c1 oc] ac].
  destruct (CheckDataToSend_sweep h conns) as [[l1 o1] any]. simpl in *.
  assert (paid c o1 c1) as P1 by (split; [done | by rewrite Ho1]).
  destruct (any && negb once).
  - destruct (CheckDataToSend_loop fuel h once l1) as [[l2 o2]|] eqn:E; [|done].
    intros [= <- <-].
    destruct (IH l1 l2 o2 c1) as (c2 & Hc2 & P2); try done.
    { by rewrite (Forall2_same_identity_wsids _ _ Hid). }
    exists c2. split; [done|]. by eapply paid_trans.
  - intros [= <- <-]. by exists c1.
Qed.

Lemma SubmitData_paid w connid txt data chid w' out i c c' :
  in_order w ->
  fConn w !! i = Some c ->
  credits_ok c ->
  SubmitData w connid txt data chid = Some (w', out) ->
  fConn w' !! i = Some c' ->
  paid c out c'.
Proof.
  intros Hord Hi Hc E Hi'. pose proof Hord as (_ & _ & Hnd & _).
  unfold SubmitData in E.
  pose proof (SubmitData_loop_at (fWSHandler w) (fMaxQueueLength w) connid txt chid data
                (fConn w) i c _ data Hnd Hi
                (or_intror (conj eq_refl (SubmitData_counter_covers w connid Hord))))
    as Hat.
  cbn zeta in Hat.
  pose proof (SubmitData_loop_spec (fWSHandler w) (fMaxQueueLength w) connid txt chid
                (fConn w)
                (if connid =? 0 then to_int (Z.of_nat (length (fConn w))) else 1) data)
    as [Hid1 _].
  destruct (SubmitData_loop _ _ _ _ _ _ _ _) as [[[l1 k1] d1] o1].
  simpl in Hat, Hid1.
  assert (exists c1, l1 !! i = Some c1 /\ paid c o1 c1 /\ fWSId c1 = fWSId c)
    as (c1 & Hc1 & P1 & Hw1).
  { destruct (targeted connid c).
    - destruct Hat as [Hl Ho].
      pose proof (SubmitData_conn_paid (fWSHandler w) (fMaxQueueLength w) txt chid c 1 data
                    Hc) as [Hok Hp].
      pose proof (SubmitData_conn_spec (fWSHandler w) (fMaxQueueLength w) txt chid c 1 data)
        as [(_ & Hws & _) _].
      eexists. split; [exact Hl|]. split; [|done]. split; [done | by rewrite Ho].
    - destruct Hat as [Hl Ho]. exists c. split; [done|]. split; [|done].
      split; [done|]. rewrite Ho. simpl. lia. }
  destruct (CheckDataToSend false (set_fConn l1 w)) as [[w2 o2]|] eqn:E2; [|done].
  injection E as <- <-.
  unfold CheckDataToSend in E2.
  destruct (CheckDataToSend_loop _ _ _ _) as [[l2 o2']|] eqn:El; [|done].
  injection E2 as <- <-. simpl in Hi'.
  destruct (CheckDataToSend_loop_paid _ _ _ _ _ _ i c1
              ltac:(by rewrite (Forall2_same_identity_wsids _ _ Hid1)) Hc1 (proj1 P1) El)
    as (c2 & Hc2 & P2).
  simplify_eq. by eapply paid_trans.
Qed.

Lemma CheckDataToSend_paid once w w' out i c c' :
  in_order w ->
  fConn w !! i = Some c ->
  credits_ok c ->
  CheckDataToSend once w = Some (w', out) ->
  fConn w' !! i = Some c' ->
  paid c out c'.
Proof.
  intros (_ & _ & Hnd & _) Hi Hc E Hi'. unfold CheckDataToSend in E.
  destruct (CheckDataToSend_loop _ _ _ _) as [[l o]|] eqn:El; [|done].
  injection E as <- <-. simpl in Hi'.
  destruct (CheckDataToSend_loop_paid _ _ _ _ _ _ i c Hnd Hi Hc El) as (c2 & Hc2 & P2).
  by simplify_eq.
Qed.

(** X20.  Every frame costs one send credit.  On a window in working order,
    through any sequence of submissions and drain passes, the send credits a
    connection is left with plus the number of frames handed to the transport
    for its websocket are the send credits it started with, and the credits
    never go below zero: a connection gets no more frames than it had
    credits. *)
Theorem credits_pay_for_frames cs w i c :
  in_order w ->
  fConn w !! i = Some c ->
  credits_ok c ->
  Forall (fun cl => is_send_call cl = true) cs ->
  exists w' out c',
    run w cs = Some (w', out) /\
    fConn w' !! i = Some c' /\
    fSendCredits c' + Z.of_nat (length (events_for (fWSId c) out)) = fSendCredits c /\
    0 <= fSendCredits c'.
Proof.
  intros Hord Hi Hc Hcs.
  assert (exists w' out c',
            run w cs = Some (w', out) /\ fConn w' !! i = Some c' /\ paid c out c')
    as (w' & out & c' & E & Hi' & [Hok Hp]).
  2:{ exists w', out, c'. unfold credits_ok in Hok. repeat split; (done || lia). }
  revert w c Hord Hi Hc. induction cs as [|cl cs IH]; intros w c Hord Hi Hc; simpl.
  { exists w, [], c. split; [done|]. split; [done | by apply paid_nothing]. }
  apply Forall_cons in Hcs as [Hcl Hcs].
  destruct (call_order w cl i c Hord Hi Hcl)
    as (w1 & o1 & c1 & a1 & E1 & Hord1 & Hc1 & (_ & Hw1 & _) & _).
  assert (paid c o1 c1) as P1.
  { destruct cl as [arg|connid txt data chid|once]; [done| |]; simpl in E1.
    - exact (SubmitData_paid w connid txt data chid w1 o1 i c c1 Hord Hi Hc E1 Hc1).
    - exact (CheckDataToSend_paid once w w1 o1 i c c1 Hord Hi Hc E1 Hc1). }
  destruct (IH Hcs w1 c1 Hord1 Hc1 (proj1 P1)) as (w2 & o2 & c2 & E2 & Hc2 & P2).
  rewrite E1, E2. exists w2, (o1 ++ o2), c2.
  split; [done|]. split; [done|]. by eapply paid_trans.
Qed.

Lemma credits_pay_for_frames_witness :
  exists w' out c',
    run Sample.duo Sample.traffic = Some (w', out) /\
    fConn w' !! 0%nat = Some c' /\
    fSendCredits c' + Z.of_nat (length (events_for (fWSId (newWebConn 2 1 7)) out)) =
      fSendCredits (newWebConn 2 1 7) /\
    0 <= fSendCredits c'.
Proof.
  apply (credits_pay_for_frames Sample.traffic Sample.duo 0%nat (newWebConn 2 1 7)).
  - in_order_by_computation.
  - reflexivity.
  - vm_compute; split; first [reflexivity | discriminate].
  - repeat constructor.
Defined.

(** X21.  Acknowledgements give the credits back.  When a frame on channel
    1 comes in past the panel gate on a window in working order, with a
    number of acknowledged operations that keeps the connection's send
    credits in the range of an [int], [ProcessWS] returns true, and the send
    credits the connection is left with plus the number of frames handed to
    the transport for its websocket during the call are the credits it had
    plus the number acknowledged.  The call ends with the connection
    settled: it has used up its credits, or its queue is empty and no
    keep-alive is due. *)
Theorem credits_replenished w arg i conn f :
  in_order w ->
  IsMethod arg "WS_DATA" = true ->
  find_conn (GetWSId arg) (fConn w) = Some i ->
  fConn w !! i = Some conn ->
  0 < GetPostDataLength arg ->
  decode_frame (GetPostData arg) (GetPostDataLength arg) = Accepted f ->
  nchannel f = 1 ->
  fPanelName w = EmptyString \/ 10 <= fReady conn ->
  fDataCallback w = true ->
  0 <= fSendCredits conn ->
  0 <= ackn_oper f ->
  fSendCredits conn + ackn_oper f <= INT_MAX ->
  exists w' out c',
    ProcessWS w arg = mkResult (Returns true) w' out /\
    fConn w' !! i = Some c' /\
    fSendCredits c' + Z.of_nat (length (events_for (fWSId conn) out)) =
      fSendCredits conn + ackn_oper f /\
    0 <= fSendCredits c' /\
    settled c'.
Proof.
  intros Hord Hm Hf Hi Hlen Hdec Hch Hst Hcb Hcr Hack Hsum.
  pose proof Hord as (Hw & _).
  rewrite (ProcessWS_data_event w arg i conn f) by done.
  unfold ProcessWS_data. rewrite Hch. simpl (_ =? _). cbn iota.
  set (w1 := update_conn i (fun _ => booked conn f) w).
  change (fPanelName w1) with (fPanelName w).
  change (fReady (booked conn f)) with (fReady conn).
  assert (negb (String.length (fPanelName w) =? 0)%nat && (fReady conn <? 10) = false) as ->.
  { destruct Hst as [-> | Hst]; [done|].
    rewrite (proj2 (Z.ltb_ge _ _) Hst). apply andb_false_r. }
  unfold call_fDataCallback. change (fDataCallback w1) with (fDataCallback w). rewrite Hcb.
  assert (Hord1 : in_order w1).
  { apply in_order_set_fConn; [done|].
    apply (alter_same_identity _ _ _ conn); [done|]. by repeat split. }
  assert (Hi1 : fConn w1 !! i = Some (booked conn f)).
  { simpl. by rewrite list_lookup_alter_eq, Hi. }
  pose proof (booked_credits_in_range conn f Hcr Hack Hsum) as Hb.
  assert (Hok : credits_ok (booked conn f)).
  { unfold credits_ok. rewrite Hb. lia. }
  destruct (CheckDataToSend_order false w1 i (booked conn f) Hord1 Hi1)
    as (w' & o & c' & E & _ & Hc' & _ & _).
  destruct (CheckDataToSend_paid false w1 w' o i (booked conn f) c' Hord1 Hi1 Hok E Hc')
    as [Hok' Hp].
  unfold finish. rewrite E.
  exists w', ([DataCallback (fConnId (booked conn f)) (cdata f)] ++ o), c'.
  split; [done|]. split; [done|].
  rewrite events_for_app. change (fWSId (booked conn f)) with (fWSId conn) in Hp.
  unfold credits_ok in Hok'. rewrite <- Hb. simpl.
  split; [done|]. split; [lia|].
  pose proof (CheckDataToSend_settled w1 w' o E) as Hall.
  by apply (proj1 (Forall_lookup _ _) Hall i c').
Qed.

Lemma credits_replenished_witness :
  exists w' out c',
    ProcessWS Sample.plain (data_event 7 "3:0:1:hello") = mkResult (Returns true) w' out /\
    fConn w' !! 0%nat = Some c' /\
    fSendCredits c' + Z.of_nat (length (events_for (fWSId (newWebConn 0 1 7)) out)) =
      fSendCredits (newWebConn 0 1 7) + ackn_oper (mkFrame 3 0 1 "hello") /\
    0 <= fSendCredits c' /\
    settled c'.
Proof.
  apply (credits_replenished Sample.plain (data_event 7 "3:0:1:hello") 0%nat
           (newWebConn 0 1 7) (mkFrame 3 0 1 "hello"));
    try reflexivity; try discriminate.
  - in_order_by_computation.
  - by left.
Defined.

End Accounting.

(** ** What every call keeps *)

Section Invariants.

Lemma can_transmit_narrows w w' : can_transmit w -> narrows w w' -> can_transmit w'.
Proof.
  intros [Hh Hws] (Hh' & _ & Hsub). split; [congruence|].
  apply Forall_forall. intros c' Hin.
  assert ((fConnId c', fWSId c') ∈ conn_ids (fConn w)) as Hc.
  { eapply elem_of_sublist; [|done]. unfold conn_ids. by apply list_elem_of_fmap_2'
      with (x := c'). }
  unfold conn_ids in Hc. apply list_elem_of_fmap in Hc as (c & Heq & Hc).
  injection Heq as _ ->. rewrite Forall_forall in Hws. by apply Hws.
Qed.

Lemma finish_comes_back w out : can_transmit w -> outcome (finish w out) = Returns true.
Proof. intros Hw. by destruct (finish_returns w out Hw) as (l & o & -> & _). Qed.

Lemma ProcessWS_data_comes_back w i conn f :
  can_transmit w -> fConn w !! i = Some conn ->
  outcome (ProcessWS_data w i conn f) <> Hangs.
Proof.
  intros Hw Hi. unfold ProcessWS_data.
  set (w1 := update_conn i (fun _ => booked conn f) w).
  assert (H1 : narrows w w1).
  { apply narrows_update_conn. intros c Hc. by simplify_eq. }
  assert (Hf : forall w0 out, narrows w w0 -> outcome (finish w0 out) <> Hangs).
  { intros w0 out H0. rewrite finish_comes_back; [done|]. by eapply can_transmit_narrows. }
  assert (Hr : forall r w0 out, narrows w w0 ->
                 outcome (finish (update_conn i (set_fReady r) w0) out) <> Hangs).
  { intros r w0 out H0. apply Hf. eapply narrows_trans; [done|].
    by apply narrows_update_conn. }
  assert (Hcb : forall w0 connid data k,
            (forall out, outcome (k out) <> Hangs) ->
            outcome (call_fDataCallback w0 connid data k) <> Hangs).
  { intros w0 connid data k Hk. unfold call_fDataCallback. by destruct (fDataCallback w0). }
  destruct (nchannel f =? 0).
  - destruct (_ && _); [|by apply Hf].
    destruct (_ && _); [done|].
    assert (H2 : narrows w (accept_key i (substr 6 (cdata f)) w1)).
    { eapply narrows_trans; [done | apply narrows_accept_key]. }
    destruct (negb _).
    + unfold Send.
      destruct (SubmitData_returns (accept_key i (substr 6 (cdata f)) w1)
                  (fConnId (booked conn f))
                  true ("SHOWPANEL:" +:+ fPanelName (accept_key i (substr 6 (cdata f)) w1)) 1)
        as [[w3 o3] E]; [by eapply can_transmit_narrows|].
      rewrite E. apply SubmitData_spec in E as (l & -> & Hid & _).
      apply Hr. eapply narrows_trans; [done | by apply narrows_set_fConn].
    + apply Hcb. intros. by apply Hr.
  - destruct (_ && _).
    + destruct (String.eqb _ _).
      * apply Hcb. intros. by apply Hr.
      * apply Hcb. intros. apply Hf.
        eapply narrows_trans; [done | apply narrows_erase_conn].
    + destruct (nchannel f =? 1).
      * apply Hcb. intros. by apply Hf.
      * destruct (fCallBack _); [by apply Hf | done].
Qed.

Lemma ProcessWS_comes_back w arg : can_transmit w -> outcome (ProcessWS w arg) <> Hangs.
Proof.
  intros Hw. unfold ProcessWS.
  destruct (GetWSId arg =? 0); [done|].
  destruct (IsMethod arg "WS_CONNECT"); [by destruct (_ && _)|].
  destruct (IsMethod arg "WS_READY"); [by destruct (find_conn _ _)|].
  destruct (IsMethod arg "WS_CLOSE").
  { destruct (find_conn _ _) as [i|]; [|done]. by destruct (fConn w !! i). }
  destruct (negb _); [done|].
  destruct (find_conn _ _) as [i|]; [|done].
  destruct (fConn w !! i) as [conn|] eqn:Hi; [|done].
  destruct (_ <=? 0); [done|].
  destruct (decode_frame _ _); [done|].
  by apply ProcessWS_data_comes_back.
Qed.

(** X22.  No inbound event hangs a window whose connections can transmit
    (the handler is set and no websocket id is the null id): [ProcessWS]
    returns, or leaves by the exception of an empty callback, and in the
    window it leaves the connections can transmit again. *)
Theorem inbound_event_comes_back w arg :
  can_transmit w ->
  outcome (ProcessWS w arg) <> Hangs /\ can_transmit (window (ProcessWS w arg)).
Proof.
  intros Hw. split; [by apply ProcessWS_comes_back|].
  unfold ProcessWS.
  destruct (Z.eqb_spec (GetWSId arg) 0) as [|Hws]; [done|].
  destruct (IsMethod arg "WS_CONNECT"); [by destruct (_ && _)|].
  destruct (IsMethod arg "WS_READY").
  { destruct (find_conn _ _); [done|].
    destruct Hw as [Hh Hall]. split; [done|]. simpl.
    apply Forall_app. split; [done|]. by repeat constructor. }
  destruct (IsMethod arg "WS_CLOSE").
  { destruct (find_conn _ _) as [i|]; [|done].
    destruct (fConn w !! i); [|done].
    eapply can_transmit_narrows; [done | apply narrows_erase_conn]. }
  destruct (negb _); [done|].
  destruct (find_conn _ _) as [i|]; [|done].
  destruct (fConn w !! i) as [conn|] eqn:Hi; [|done].
  destruct (_ <=? 0); [done|].
  destruct (decode_frame _ _); [done|].
  eapply can_transmit_narrows; [done | by apply ProcessWS_data_narrows].
Qed.

Lemma inbound_event_comes_back_witness :
  outcome (ProcessWS Sample.plain (data_event 7 "0:0:1:hello")) <> Hangs /\
  can_transmit (window (ProcessWS Sample.plain (data_event 7 "0:0:1:hello"))).
Proof.
  apply (inbound_event_comes_back Sample.plain (data_event 7 "0:0:1:hello")).
  split; [reflexivity|]. repeat constructor. discriminate.
Defined.

(** X23.  From a well-formed window (a new window is one), every sequence
    of inbound events, submissions and drain passes comes back, as long as
    the connection counter cannot pass [INT_MAX], and leaves a window that is
    well-formed and in working order: the handler is set, connection ids are
    distinct, positive and at most the counter, websocket ids are distinct
    and not the null id. *)
Theorem run_keeps_working cs w :
  well_formed w ->
  fConnCnt w + Z.of_nat (length cs) <= INT_MAX ->
  exists w' out,
    run w cs = Some (w', out) /\ well_formed w' /\ in_order w'.
Proof.
  revert w. induction cs as [|cl cs IH]; intros w Hwf Hlen; simpl in *.
  { exists w, []. split; [done|]. split; [done | by apply well_formed_in_order]. }
  pose proof Hwf as (_ & _ & _ & _ & Hc).
  pose proof (well_formed_in_order w Hwf) as (Hw & _).
  assert (exists w1 o1, call w cl = Some (w1, o1) /\ well_formed w1 /\
                        fConnCnt w1 <= fConnCnt w + 1) as (w1 & o1 & E1 & Hwf1 & Hc1).
  { destruct cl as [arg|connid txt data chid|once]; simpl.
    - pose proof (ProcessWS_comes_back w arg Hw) as Hback.
      pose proof (ProcessWS_well_formed w arg Hwf ltac:(lia)) as Hwf1.
      pose proof (ProcessWS_fConnCnt w arg ltac:(lia)) as Hc1.
      exists (window (ProcessWS w arg)), (effects (ProcessWS w arg)).
      split; [|split; [done | lia]].
      by destruct (outcome (ProcessWS w arg)).
    - destruct (SubmitData_returns w connid txt data chid Hw) as [[w1 o1] E].
      exists w1, o1. split; [done|].
      apply SubmitData_spec in E as (l & -> & Hid & _).
      split; [|simpl; lia].
      eapply well_formed_narrows; [done | by apply narrows_set_fConn].
    - destruct (CheckDataToSend_returns once w Hw) as (l & o1 & E & Hid & _).
      exists (set_fConn l w), o1. split; [done|].
      split; [|simpl; lia].
      eapply well_formed_narrows; [done | by apply narrows_set_fConn]. }
  destruct (IH w1 Hwf1 ltac:(lia)) as (w2 & o2 & E2 & Hwf2 & Hord2).
  rewrite E1, E2. by exists w2, (o1 ++ o2).
Qed.

Lemma run_keeps_working_witness :
  exists w' out,
    run Sample.narrow Sample.stuffing = Some (w', out) /\ well_formed w' /\ in_order w'.
Proof.
  apply (run_keeps_working Sample.stuffing Sample.narrow).
  - well_formed_by_computation.
  - vm_compute. discriminate.
Defined.

Lemma settings_kept_refl w : settings_kept w w.
Proof. by repeat split. Qed.

Lemma settings_kept_trans w1 w2 w3 :
  settings_kept w1 w2 -> settings_kept w2 w3 -> settings_kept w1 w3.
Proof.
  intros [(?&?&?&?&?&?&?) K1] [(?&?&?&?&?&?&?) K2].
  split; [repeat split; congruence | by etrans].
Qed.

Lemma settings_kept_set_fConn w l : settings_kept w (set_fConn l w).
Proof. by repeat split. Qed.

Lemma settings_kept_accept_key w i key : settings_kept w (accept_key i key w).
Proof.
  unfold accept_key. destruct (fKeys w !! key); [|apply settings_kept_refl].
  split; [by repeat split|]. simpl. apply delete_subseteq.
Qed.

Lemma settings_kept_finish w out : settings_kept w (window (finish w out)).
Proof.
  unfold finish. destruct (CheckDataToSend false w) as [[w' o]|] eqn:E;
    [|apply settings_kept_refl].
  apply CheckDataToSend_spec in E as (l & -> & _). apply settings_kept_set_fConn.
Qed.

Lemma ProcessWS_data_settings w i conn f :
  settings_kept w (window (ProcessWS_data w i conn f)).
Proof.
  unfold ProcessWS_data.
  set (w1 := update_conn i (fun _ => booked conn f) w).
  assert (H1 : settings_kept w w1) by apply settings_kept_set_fConn.
  assert (Hf : forall w0 out, settings_kept w w0 -> settings_kept w (window (finish w0 out))).
  { intros w0 out H0. eapply settings_kept_trans; [done | apply settings_kept_finish]. }
  assert (Hr : forall r w0 out, settings_kept w w0 ->
                 settings_kept w (window (finish (update_conn i (set_fReady r) w0) out))).
  { intros r w0 out H0. apply Hf. eapply settings_kept_trans; [done|].
    apply settings_kept_set_fConn. }
  assert (Hcb : forall w0 connid data k,
            settings_kept w w0 ->
            (forall out, settings_kept w (window (k out))) ->
            settings_kept w (window (call_fDataCallback w0 connid data k))).
  { intros w0 connid data k H0 Hk. unfold call_fDataCallback. by destruct (fDataCallback w0). }
  destruct (nchannel f =? 0).
  - destruct (_ && _); [|by apply Hf].
    destruct (_ && _).
    { eapply settings_kept_trans; [done | apply settings_kept_set_fConn]. }
    assert (H2 : settings_kept w (accept_key i (substr 6 (cdata f)) w1)).
    { eapply settings_kept_trans; [done | apply settings_kept_accept_key]. }
    destruct (negb _).
    + destruct (Send _ _ _) as [[w3 o3]|] eqn:E; [|done].
      apply SubmitData_spec in E as (l & -> & _).
      apply Hr. eapply settings_kept_trans; [done | apply settings_kept_set_fConn].
    + apply Hcb; [done|]. intros. by apply Hr.
  - destruct (_ && _).
    + destruct (String.eqb _ _).
      * apply Hcb; [done|]. intros. by apply Hr.
      * apply Hcb; [done|]. intros. apply Hf.
        eapply settings_kept_trans; [done | apply settings_kept_set_fConn].
    + destruct (nchannel f =? 1).
      * apply Hcb; [done|]. intros. by apply Hf.
      * destruct (fCallBack _); [by apply Hf | done].
Qed.

Lemma ProcessWS_settings w arg : settings_kept w (window (ProcessWS w arg)).
Proof.
  unfold ProcessWS.
  destruct (_ =? 0); [apply settings_kept_refl|].
  destruct (IsMethod arg "WS_CONNECT"); [destruct (_ && _); apply settings_kept_refl|].
  destruct (IsMethod arg "WS_READY").
  { destruct (find_conn _ _); [apply settings_kept_refl | by repeat split]. }
  destruct (IsMethod arg "WS_CLOSE").
  { destruct (find_conn _ _) as [i|]; [|apply settings_kept_refl].
    destruct (fConn w !! i); [apply settings_kept_set_fConn | apply settings_kept_refl]. }
  destruct (negb _); [apply settings_kept_refl|].
  destruct (find_conn _ _) as [i|]; [|apply settings_kept_refl].
  destruct (fConn w !! i) as [conn|]; [|apply settings_kept_refl].
  destruct (_ <=? 0); [apply settings_kept_refl|].
  destruct (decode_frame _ _); [apply settings_kept_refl|].
  apply ProcessWS_data_settings.
Qed.

(** X24.  No inbound event, submission or drain pass touches what the owner
    configured: after any sequence of calls that came back, the connection
    limit, the maximal queue length, the panel name, the native-only flag,
    the data callback, the handler and the initial credits are as before, and
    the Key Table has lost keys at most, never gained one. *)
Theorem configuration_is_kept cs w w' out :
  run w cs = Some (w', out) ->
  same_config w w' /\ fKeys w' ⊆ fKeys w.
Proof.
  revert w w' out. induction cs as [|cl cs IH]; intros w w' out; simpl.
  { intros [= <- <-]. apply settings_kept_refl. }
  destruct (call w cl) as [[w1 o1]|] eqn:E1; [|done].
  destruct (run w1 cs) as [[w2 o2]|] eqn:E2; [|done].
  intros [= <- <-].
  apply (settings_kept_trans w w1 w2); [|by eapply IH].
  destruct cl as [arg|connid txt data chid|once]; simpl in E1.
  - destruct (outcome (ProcessWS w arg)); [| |done];
      injection E1 as <- <-; apply ProcessWS_settings.
  - apply SubmitData_spec in E1 as (l & -> & _). apply settings_kept_set_fConn.
  - apply CheckDataToSend_spec in E1 as (l & -> & _). apply settings_kept_set_fConn.
Qed.

Lemma configuration_is_kept_witness :
  same_config Sample.narrow Sample.stuffed /\ fKeys Sample.stuffed ⊆ fKeys Sample.narrow.
Proof.
  apply (configuration_is_kept Sample.stuffing Sample.narrow Sample.stuffed []).
  reflexivity.
Defined.

(** X25.  The panel name is fixed once a connection exists: after a
    WS_READY event that [ProcessWS] accepted, [SetPanelName] changes nothing,
    sets no default page, and logs that the panel cannot be configured. *)
Theorem panel_name_fixed_once_connected w arg name :
  IsMethod arg "WS_READY" = true ->
  GetWSId arg <> 0 ->
  outcome (ProcessWS w arg) = Returns true ->
  SetPanelName (window (ProcessWS w arg)) name =
    (window (ProcessWS w arg), None,
     [LogError "Cannot configure panel when connection exists"]).
Proof.
  intros Hm Hws. unfold ProcessWS.
  rewrite (proj2 (Z.eqb_neq _ _) Hws).
  assert (IsMethod arg "WS_CONNECT" = false) as ->.
  { unfold IsMethod in *. apply String.eqb_eq in Hm. by rewrite Hm. }
  rewrite Hm. destruct (find_conn _ _); [done|]. intros _.
  unfold SetPanelName. simpl. rewrite length_app. simpl.
  by destruct (length (fConn w)).
Qed.

Lemma panel_name_fixed_once_connected_witness :
  SetPanelName (window (ProcessWS Sample.narrow (Sample.ws_ready 7))) "fit" =
    (window (ProcessWS Sample.narrow (Sample.ws_ready 7)), None,
     [LogError "Cannot configure panel when connection exists"]).
Proof.
  apply (panel_name_fixed_once_connected Sample.narrow (Sample.ws_ready 7) "fit");
    [reflexivity | discriminate | reflexivity].
Defined.

(** X26.  In a well-formed window, an id that [GetConnectionId] returns is
    not 0, so it never stands for "all connections"; a submission to it is
    addressed to exactly one connection; and no other position has the same
    id. *)
Theorem connection_ids_address_one w num id :
  well_formed w ->
  GetConnectionId w num = Some id ->
  id <> 0 /\
  targets id (fConn w) = 1%nat /\
  forall num', GetConnectionId w num' = Some id -> num' = num.
Proof.
  intros Hwf Hget. pose proof (well_formed_in_order w Hwf) as (_ & Hd & _).
  destruct Hwf as (_ & Hnd & _ & Hall & _).
  unfold GetConnectionId in *.
  destruct (Z.ltb_spec num 0) as [|Hnum]; [done|].
  destruct (fConn w !! Z.to_nat num) as [c|] eqn:Hc; [|done].
  injection Hget as <-.
  assert (fConnId c <> 0) as Hnz.
  { rewrite Forall_forall in Hall.
    destruct (Hall c ltac:(by eapply list_elem_of_lookup_2)) as [_ ?]. lia. }
  split; [done|]. split.
  - pose proof (targets_single (fConnId c) (fConn w) Hnz Hd).
    pose proof (targets_lookup (fConnId c) (fConn w) _ c Hc) as Hge.
    unfold targeted in Hge. rewrite Z.eqb_refl, orb_true_r in Hge.
    specialize (Hge eq_refl). lia.
  - intros num' Hget'.
    destruct (Z.ltb_spec num' 0) as [|Hnum']; [done|].
    destruct (fConn w !! Z.to_nat num') as [c'|] eqn:Hc'; [|done].
    injection Hget' as Heq.
    assert (Z.to_nat num' = Z.to_nat num); [|lia].
    eapply (NoDup_lookup (fConnId <$> fConn w)); [done| |].
    + by rewrite list_lookup_fmap, Hc'.
    + rewrite list_lookup_fmap, Hc. simpl. by rewrite Heq.
Qed.

Lemma connection_ids_address_one_witness :
  2 <> 0 /\
  targets 2 (fConn Sample.duo) = 1%nat /\
  forall num', GetConnectionId Sample.duo num' = Some 2 -> num' = 1.
Proof.
  apply (connection_ids_address_one Sample.duo 1 2); [|reflexivity].
  well_formed_by_computation.
Defined.

End Invariants.
